(** * FX pipeline: Ingest, Transform and Analysis lambdas

    A shallow embedding of the three lambda handlers
    ([lambda-fx-ingest-function.py], [lambda-fx-transform-function.py],
    [lambda-fx-analysis-function.py]) and of the parts of the Python
    library they lean on: [str.replace], [datetime.fromisoformat],
    [datetime - timedelta(days=1)], [weekday()], the [0Nd] format
    specifier, the [in] operator on parsed JSON, and IEEE-754 binary64
    arithmetic for the deviation.

    External services (S3, Athena, CloudWatch, the FX provider) are
    modelled by an oracle for what they answer and a trace of the calls
    the handlers make. The parameter store and the FX provider may
    answer with an error; a read of a missing S3 object raises; the
    other calls are taken to go through. Of the logging only the error
    log is kept in the trace. *)

From Stdlib Require Import ZArith Lia List String Ascii Bool Floats.
Import ListNotations.

Local Open Scope string_scope.
Local Open Scope Z_scope.

(** ** Python exceptions and results *)

Inductive exn : Type :=
| KeyError (key : string)
| ValueError (msg : string)
| TypeError (msg : string)
| AttributeError (msg : string)
| IndexError (msg : string)
| OverflowError (msg : string)
| ZeroDivisionError (msg : string)
| RuntimeError (msg : string)
| ClientError (msg : string)
| HTTPError (code : Z) (msg : string)    (* urllib.error.HTTPError *)
| NoSuchKey (key : string)
| Exception (msg : string).

(** [OutOfFuel] is not a Python outcome: it marks a run of the model
    that was cut before the polling loop of the Analysis job finished. *)
Inductive result (A : Type) : Type :=
| Ok (a : A)
| Raise (e : exn)
| OutOfFuel.
Arguments Ok {A} a.
Arguments Raise {A} e.
Arguments OutOfFuel {A}.

Definition rbind {A B} (r : result A) (k : A -> result B) : result B :=
  match r with
  | Ok a => k a
  | Raise e => Raise e
  | OutOfFuel => OutOfFuel
  end.

Definition rmap {A B} (f : A -> B) (r : result A) : result B :=
  rbind r (fun a => Ok (f a)).

Declare Scope result_scope.
Delimit Scope result_scope with result.
Notation "'let?' x ':=' r 'in' k" := (rbind r (fun x => k))
  (at level 10, x pattern, r at level 100, k at level 200) : result_scope.
Local Open Scope result_scope.

(** The message an exception carries ([str(e)]). *)
Definition exn_message (e : exn) : string :=
  match e with
  | KeyError k => k
  | ValueError m | TypeError m | AttributeError m | IndexError m
  | OverflowError m | ZeroDivisionError m | RuntimeError m | ClientError m
  | HTTPError _ m | Exception m => m
  | NoSuchKey k => k
  end.

(** ** Strings *)

Module Str.

(** [s.replace(old, new)] for a one-character [old]: every occurrence
    is replaced. *)
Fixpoint replace_char (old : ascii) (new : string) (s : string) : string :=
  match s with
  | EmptyString => EmptyString
  | String c rest =>
      if Ascii.eqb c old then new ++ replace_char old new rest
      else String c (replace_char old new rest)
  end.

(** [s.startswith(p)] *)
Definition startswith (p s : string) : bool := String.prefix p s.

(** [p in s] for two strings: substring search. *)
Fixpoint contains (p s : string) : bool :=
  String.prefix p s
  || match s with
     | EmptyString => false
     | String _ rest => contains p rest
     end.

Definition digit_char (d : Z) : ascii :=
  ascii_of_nat (48 + Z.to_nat d).

Definition digit_val (c : ascii) : option Z :=
  let n := Z.of_nat (nat_of_ascii c) in
  if (48 <=? n) && (n <=? 57) then Some (n - 48) else None.

(** Decimal digits of [n >= 0], most significant first, pushed in
    front of [acc]. *)
Fixpoint dec_digits (fuel : nat) (n : Z) (acc : string) : string :=
  let acc' := String (digit_char (n mod 10)) acc in
  match fuel with
  | O => acc'
  | S f => if n / 10 =? 0 then acc' else dec_digits f (n / 10) acc'
  end.

Definition str_of_nonneg (n : Z) : string :=
  dec_digits (Z.to_nat (Z.log2 n)) n "".

Fixpoint zeros (k : nat) : string :=
  match k with
  | O => ""
  | S k' => String "0" (zeros k')
  end.

(** [s.zfill(w)] on a string of digits. *)
Definition zfill (w : nat) (s : string) : string :=
  zeros (w - String.length s) ++ s.

(** [f"{n:0wd}"]: sign first, then zero-filled to [w] characters in
    all. *)
Definition format_0d (w : nat) (n : Z) : string :=
  if n <? 0 then String "-" (zfill (w - 1) (str_of_nonneg (- n)))
  else zfill w (str_of_nonneg n).

(** Reads exactly [k] decimal digits. *)
Fixpoint read_digits (k : nat) (s : string) (acc : Z) : option (Z * string) :=
  match k with
  | O => Some (acc, s)
  | S k' =>
      match s with
      | EmptyString => None
      | String c rest =>
          match digit_val c with
          | Some d => read_digits k' rest (10 * acc + d)
          | None => None
          end
      end
  end.

Definition expect (c : ascii) (s : string) : option string :=
  match s with
  | String c' rest => if Ascii.eqb c' c then Some rest else None
  | EmptyString => None
  end.

(** The numeral of [n] in exactly [w] decimal digits, pushed in front
    of [acc]: what zero-padding to width [w] means. *)
Fixpoint fixed_digits (w : nat) (n : Z) (acc : string) : string :=
  match w with
  | O => acc
  | S w' => fixed_digits w' (n / 10) (String (digit_char (n mod 10)) acc)
  end.

End Str.

(** ** Dates and times

    Python's [datetime]: the proleptic Gregorian calendar with days
    numbered from 1 at 0001-01-01, years in [MINYEAR, MAXYEAR]. The
    arithmetic follows the library: a datetime is turned into its
    ordinal, the days are subtracted, and the ordinal is turned back
    into (year, month, day); the result must stay in range. *)

Module Datetime.

Definition MINYEAR : Z := 1.
Definition MAXYEAR : Z := 9999.
Definition MAXORDINAL : Z := 3652059.

Definition DAYS_IN_MONTH : list Z :=
  [-1; 31; 28; 31; 30; 31; 30; 31; 31; 30; 31; 30; 31].

Definition DAYS_BEFORE_MONTH : list Z :=
  [-1; 0; 31; 59; 90; 120; 151; 181; 212; 243; 273; 304; 334].

Definition tbl (t : list Z) (i : Z) : Z := nth (Z.to_nat i) t 0.

Definition is_leap (year : Z) : bool :=
  (year mod 4 =? 0) && (negb (year mod 100 =? 0) || (year mod 400 =? 0)).

Definition b2z (b : bool) : Z := if b then 1 else 0.

Definition days_before_year (year : Z) : Z :=
  let y := year - 1 in
  y * 365 + y / 4 - y / 100 + y / 400.

Definition days_in_month (year month : Z) : Z :=
  if (month =? 2) && is_leap year then 29 else tbl DAYS_IN_MONTH month.

Definition days_before_month (year month : Z) : Z :=
  tbl DAYS_BEFORE_MONTH month + b2z ((2 <? month) && is_leap year).

Definition ymd2ord (year month day : Z) : Z :=
  days_before_year year + days_before_month year month + day.

Definition DI400Y : Z := 146097.
Definition DI100Y : Z := 36524.
Definition DI4Y : Z := 1461.

(** The tail of [_ord2ymd]: the month and the day of the month of the
    day numbered [n] (from 0) of a year. *)
Definition locate_month (leapyear : bool) (n : Z) : Z * Z :=
  let month := Z.shiftr (n + 50) 5 in
  let preceding := tbl DAYS_BEFORE_MONTH month + b2z ((2 <? month) && leapyear) in
  let '(month, preceding) :=
    if n <? preceding
    then (month - 1,
          preceding - (tbl DAYS_IN_MONTH (month - 1)
                       + b2z ((month - 1 =? 2) && leapyear)))
    else (month, preceding) in
  (month, n - preceding + 1).

Definition ord2ymd (n : Z) : Z * Z * Z :=
  let n := n - 1 in
  let n400 := n / DI400Y in
  let n := n mod DI400Y in
  let year := n400 * 400 + 1 in
  let n100 := n / DI100Y in
  let n := n mod DI100Y in
  let n4 := n / DI4Y in
  let n := n mod DI4Y in
  let n1 := n / 365 in
  let n := n mod 365 in
  let year := year + n100 * 100 + n4 * 4 + n1 in
  if (n1 =? 4) || (n100 =? 4) then (year - 1, 12, 31)
  else
    let leapyear := (n1 =? 3) && (negb (n4 =? 24) || (n100 =? 3)) in
    let '(month, day) := locate_month leapyear n in
    (year, month, day).

(** A [datetime] value; [tzinfo] is the fixed UTC offset in
    microseconds, [None] for a naive datetime. *)
Record datetime : Type := mk_datetime {
  year : Z;
  month : Z;
  day : Z;
  hour : Z;
  minute : Z;
  second : Z;
  microsecond : Z;
  tzinfo : option Z
}.

Definition toordinal (dt : datetime) : Z :=
  ymd2ord (year dt) (month dt) (day dt).

(** [dt.weekday()]: Monday is 0, Sunday is 6. *)
Definition weekday (dt : datetime) : Z :=
  (toordinal dt + 6) mod 7.

(** [dt - timedelta(days=days)]: the time of day and the offset are
    kept, the date moves by whole days, and a result outside
    0001-01-01 .. 9999-12-31 raises [OverflowError]. *)
Definition sub_days (dt : datetime) (days : Z) : result datetime :=
  let o := toordinal dt - days in
  if (0 <? o) && (o <=? MAXORDINAL) then
    let '(y, m, d) := ord2ymd o in
    Ok (mk_datetime y m d (hour dt) (minute dt) (second dt)
          (microsecond dt) (tzinfo dt))
  else Raise (OverflowError "date value out of range").

(** The checks of the [datetime] constructor. *)
Definition check_date_fields (y m d : Z) : bool :=
  (MINYEAR <=? y) && (y <=? MAXYEAR)
  && (1 <=? m) && (m <=? 12)
  && (1 <=? d) && (d <=? days_in_month y m).

Definition check_time_fields (hh mm ss us : Z) : bool :=
  (0 <=? hh) && (hh <=? 23) && (0 <=? mm) && (mm <=? 59)
  && (0 <=? ss) && (ss <=? 59) && (0 <=? us) && (us <=? 999999).

(** [HH[:MM[:SS[.fff[fff]]]]], returning what follows it. *)
Definition parse_hh_mm_ss_ff (s : string) : option (Z * Z * Z * Z * string) :=
  match Str.read_digits 2 s 0 with
  | None => None
  | Some (hh, s1) =>
      match Str.expect ":" s1 with
      | None => Some (hh, 0, 0, 0, s1)
      | Some s2 =>
          match Str.read_digits 2 s2 0 with
          | None => None
          | Some (mm, s3) =>
              match Str.expect ":" s3 with
              | None => Some (hh, mm, 0, 0, s3)
              | Some s4 =>
                  match Str.read_digits 2 s4 0 with
                  | None => None
                  | Some (ss, s5) =>
                      match Str.expect "." s5 with
                      | None => Some (hh, mm, ss, 0, s5)
                      | Some s6 =>
                          match Str.read_digits 6 s6 0 with
                          | Some (us, s7) => Some (hh, mm, ss, us, s7)
                          | None =>
                              match Str.read_digits 3 s6 0 with
                              | Some (ms, s7) => Some (hh, mm, ss, ms * 1000, s7)
                              | None => None
                              end
                          end
                      end
                  end
              end
          end
      end
  end.

(** The UTC offset [+HH:MM[:SS[.ffffff]]] or nothing; the whole rest
    of the string must be consumed, and the offset must be strictly
    inside one day. *)
Definition parse_tz (s : string) : option (option Z) :=
  match s with
  | EmptyString => Some None
  | String c rest =>
      if Ascii.eqb c "+" || Ascii.eqb c "-" then
        match parse_hh_mm_ss_ff rest with
        | Some (hh, mm, ss, us, EmptyString) =>
            let len := String.length rest in
            if (Nat.eqb len 5 || Nat.eqb len 8 || Nat.eqb len 15)%bool then
              let off := ((hh * 3600 + mm * 60 + ss) * 1000000 + us) in
              let off := if Ascii.eqb c "-" then - off else off in
              if (-86400000000 <? off) && (off <? 86400000000)
              then Some (Some off) else None
            else None
        | _ => None
        end
      else None
  end.

Definition invalid (s : string) : exn :=
  ValueError ("Invalid isoformat string: " ++ s).

(** [datetime.fromisoformat(s)] for the format
    [YYYY-MM-DD[*HH[:MM[:SS[.fff[fff]]]][+HH:MM[:SS[.ffffff]]]]],
    where [*] is any one character. *)
Definition fromisoformat (s : string) : result datetime :=
  match Str.read_digits 4 s 0 with
  | None => Raise (invalid s)
  | Some (y, s1) =>
  match Str.expect "-" s1 with
  | None => Raise (invalid s)
  | Some s2 =>
  match Str.read_digits 2 s2 0 with
  | None => Raise (invalid s)
  | Some (m, s3) =>
  match Str.expect "-" s3 with
  | None => Raise (invalid s)
  | Some s4 =>
  match Str.read_digits 2 s4 0 with
  | None => Raise (invalid s)
  | Some (d, s5) =>
      if negb (check_date_fields y m d) then Raise (invalid s)
      else
        match s5 with
        | EmptyString => Ok (mk_datetime y m d 0 0 0 0 None)
        | String _sep tstr =>
            match parse_hh_mm_ss_ff tstr with
            | None => Raise (invalid s)
            | Some (hh, mm, ss, us, s6) =>
                match parse_tz s6 with
                | None => Raise (invalid s)
                | Some tz =>
                    if check_time_fields hh mm ss us
                    then Ok (mk_datetime y m d hh mm ss us tz)
                    else Raise (invalid s)
                end
            end
        end
  end end end end end.

(** The calendar's own account of the day before (year, month, day):
    the previous day of the month, else the last day of the previous
    month, else the 31st of December of the previous year. It is the
    statement that the ordinal arithmetic of [sub_days] is compared
    with. *)
Definition day_before (y m d : Z) : Z * Z * Z :=
  if 1 <? d then (y, m, d - 1)
  else if 1 <? m then (y, m - 1, days_in_month y (m - 1))
  else (y - 1, 12, 31).

Definition valid_date (y m d : Z) : Prop :=
  1 <= y <= 9999 /\ 1 <= m <= 12 /\ 1 <= d <= days_in_month y m.

Definition date_of (dt : datetime) : Z * Z * Z := (year dt, month dt, day dt).

Definition with_date (dt : datetime) (ymd : Z * Z * Z) : datetime :=
  let '(y, m, d) := ymd in
  mk_datetime y m d (hour dt) (minute dt) (second dt) (microsecond dt) (tzinfo dt).

Definition valid (dt : datetime) : Prop := valid_date (year dt) (month dt) (day dt).

(** The (year, month, day) strings of a date, as every resolver
    formats them. *)
Definition ymd_strings (ymd : Z * Z * Z) : string * string * string :=
  let '(y, m, d) := ymd in
  (Str.format_0d 4 y, Str.format_0d 2 m, Str.format_0d 2 d).

(** A numeral of exactly [w] digits that reads back as [n]. *)
Definition padded (w : nat) (n : Z) (s : string) : Prop :=
  String.length s = w /\ Str.read_digits w s 0 = Some (n, "").

Definition well_padded (ymd : Z * Z * Z) (strs : string * string * string) : Prop :=
  let '(y, m, d) := ymd in
  let '(ys, ms, ds) := strs in
  padded 4 y ys /\ padded 2 m ms /\ padded 2 d ds.

End Datetime.


(** ** Parsed JSON

    What [json.loads] returns: [None], booleans, integers, floats,
    strings, lists and dicts. A dict keeps its entries in insertion
    order, which is the order [items()] walks them in. *)

Module Json.

#[local] Unset Elimination Schemes.
Inductive value : Type :=
| JNull
| JBool (b : bool)
| JInt (n : Z)
| JFloat (f : float)
| JStr (s : string)
| JArr (items : list value)
| JObj (entries : list (string * value)).
#[local] Set Elimination Schemes.

Fixpoint lookup (key : string) (entries : list (string * value)) : option value :=
  match entries with
  | [] => None
  | (k, v) :: rest => if String.eqb k key then Some v else lookup key rest
  end.

Definition has_key (key : string) (entries : list (string * value)) : bool :=
  match lookup key entries with
  | Some _ => true
  | None => false
  end.

Definition is_str (s : string) (v : value) : bool :=
  match v with
  | JStr s' => String.eqb s' s
  | _ => false
  end.

(** [key in v]: key membership for a dict, element membership for a
    list, substring search for a string, [TypeError] otherwise. *)
Definition contains (v : value) (key : string) : result bool :=
  match v with
  | JObj entries => Ok (has_key key entries)
  | JArr items => Ok (existsb (is_str key) items)
  | JStr s => Ok (Str.contains key s)
  | _ => Raise (TypeError "argument is not iterable")
  end.

(** [v[key]] with a string key. *)
Definition getitem (v : value) (key : string) : result value :=
  match v with
  | JObj entries =>
      match lookup key entries with
      | Some x => Ok x
      | None => Raise (KeyError key)
      end
  | JArr _ => Raise (TypeError "list indices must be integers or slices, not str")
  | JStr _ => Raise (TypeError "string indices must be integers")
  | _ => Raise (TypeError "object is not subscriptable")
  end.

(** [v.get(key)] *)
Definition get (v : value) (key : string) : result value :=
  match v with
  | JObj entries =>
      match lookup key entries with
      | Some x => Ok x
      | None => Ok JNull
      end
  | _ => Raise (AttributeError "object has no attribute 'get'")
  end.

(** [v.items()] *)
Definition items (v : value) : result (list (string * value)) :=
  match v with
  | JObj entries => Ok entries
  | _ => Raise (AttributeError "object has no attribute 'items'")
  end.

(** [v.replace(old, new)] with a one-character [old]. *)
Definition replace (v : value) (old : ascii) (new : string) : result string :=
  match v with
  | JStr s => Ok (Str.replace_char old new s)
  | _ => Raise (AttributeError "object has no attribute 'replace'")
  end.

End Json.

(** [for x in xs: body(x)] where the body may raise. *)
Fixpoint for_each {A : Type} (xs : list A) (body : A -> result unit) : result unit :=
  match xs with
  | [] => Ok tt
  | x :: rest => let? _ := body x in for_each rest body
  end.

(** ** The services and the calls made to them *)

(** One object of the query engine's [get_query_execution] answer. *)
Record execution_status : Type := mk_status {
  State : string;
  StateChangeReason : option string
}.

(** A cell of a result row: [{"VarCharValue": s}], or [{}] for NULL. *)
Record datum : Type := mk_datum { VarCharValue : option string }.

(** A row of a result set: [{"Data": [...]}]. *)
Record row : Type := mk_row { Data : list datum }.

Record http_response : Type := mk_response {
  status : Z;
  (** what [json.loads(response.read())] gives *)
  body : result Json.value
}.

(** What the outside world answers. [fx_api] is the provider's final
    answer to a request, or the transport error. Query executions are
    numbered in the order they are started; the answer to a status poll
    may depend on how many polls were made before it. *)
Record services : Type := mk_services {
  ssm_parameter : string -> result string;
  fx_api : string -> list (string * string) -> result http_response;
  athena_execution : nat -> nat -> execution_status;
  athena_results : nat -> list row
}.

Inductive effect : Type :=
| SsmGetParameter (name : string)
| HttpGet (url : string) (params : list (string * string))
| S3Put (bucket key : string) (content : Json.value)
| S3Get (bucket key : string)
| AthenaStart (query database output workgroup : string)
| AthenaPoll (qid : nat)
| AthenaResults (qid : nat)
| Sleep (seconds : Z)
| LogError (msg : string)
| PutMetric (namespace name : string) (value : float) (unit : string).

(** The state a handler runs in: the objects in storage (latest write
    first), how many queries were started and how many status polls
    were made, and the calls made so far, oldest first. An object's
    content is kept as the value that [json.dumps] wrote and
    [json.loads] reads back. *)
Record world : Type := mk_world {
  objects : list (string * string * Json.value);
  started : nat;
  polled : nat;
  trace : list effect
}.

Definition M (A : Type) : Type := world -> result A * world.

Definition ret {A} (a : A) : M A := fun w => (Ok a, w).

Definition bind {A B} (m : M A) (k : A -> M B) : M B :=
  fun w =>
    match m w with
    | (Ok a, w') => k a w'
    | (Raise e, w') => (Raise e, w')
    | (OutOfFuel, w') => (OutOfFuel, w')
    end.

Definition lift {A} (r : result A) : M A := fun w => (r, w).

Definition emit (e : effect) : M unit :=
  fun w => (Ok tt, mk_world (objects w) (started w) (polled w) (trace w ++ [e])).

(** [try: m except Exception as e: h(e)] *)
Definition try_except {A} (m : M A) (h : exn -> M A) : M A :=
  fun w =>
    match m w with
    | (Raise e, w') => h e w'
    | other => other
    end.

Declare Scope M_scope.
Delimit Scope M_scope with M.
Notation "x <- m ;; k" := (bind m (fun x => k))
  (at level 61, m at next level, right associativity) : M_scope.
Notation "m ;; k" := (bind m (fun _ => k))
  (at level 61, right associativity) : M_scope.
Notation "' p <- m ;; k" := (bind m (fun x => let 'p := x in k))
  (at level 61, p pattern, m at next level, right associativity) : M_scope.

Definition key_eqb (a b : string * string) : bool :=
  String.eqb (fst a) (fst b) && String.eqb (snd a) (snd b).

Fixpoint find_object (bk : string * string) (objs : list (string * string * Json.value))
  : option Json.value :=
  match objs with
  | [] => None
  | (bk', v) :: rest => if key_eqb bk' bk then Some v else find_object bk rest
  end.

(** [s3.put_object(Bucket=, Key=, Body=json.dumps(content))] *)
Definition s3_put_object (bucket key : string) (content : Json.value) : M unit :=
  fun w =>
    (Ok tt, mk_world ((bucket, key, content) :: objects w) (started w) (polled w)
              (trace w ++ [S3Put bucket key content])).

(** [json.loads(s3.get_object(Bucket=, Key=)["Body"].read())] *)
Definition s3_get_object (bucket key : string) : M Json.value :=
  fun w =>
    let w' := mk_world (objects w) (started w) (polled w) (trace w ++ [S3Get bucket key]) in
    match find_object (bucket, key) (objects w) with
    | Some v => (Ok v, w')
    | None => (Raise (NoSuchKey key), w')
    end.

Definition initial_world (objs : list (string * string * Json.value)) : world :=
  mk_world objs 0 0 [].

(** ** Ingest: [lambda-fx-ingest-function.py] *)

Module Ingest.
Section Config.

(** The environment the module reads at import time. *)
Variable BUCKET_NAME : string.
Variable BASE_CURRENCY : string.
Variable TARGET_CURRENCIES : list string.
Variable FX_API_URL : string.
Variable svc : services.

Definition TARGET_CURRENCY_CODES : list string :=
  map (fun c => BASE_CURRENCY ++ c) TARGET_CURRENCIES.

Definition get_api_key : M string :=
  (emit (SsmGetParameter "/fx/api/access_key") ;;
   lift (ssm_parameter svc "/fx/api/access_key"))%M.

Definition get_run_date (event : Json.value)
  : result (string * string * string) :=
  let? raw_run_date := Json.getitem event "run_date" in
  let? iso := Json.replace raw_run_date "Z" "+00:00" in
  let? dt := Datetime.fromisoformat iso in
  let? fx_dt := Datetime.sub_days dt 1 in
  let year := Str.format_0d 4 (Datetime.year fx_dt) in
  let month := Str.format_0d 2 (Datetime.month fx_dt) in
  let day := Str.format_0d 2 (Datetime.day fx_dt) in
  Ok (year, month, day).

(** [urllib.request.urlopen(url, timeout=3)]: the library hands back
    a response only when its status is 2xx and raises [HTTPError] for
    any other. *)
Definition urlopen (url : string) (params : list (string * string))
  : M http_response :=
  (emit (HttpGet url params) ;;
   response <- lift (fx_api svc url params) ;;
   if (200 <=? status response) && (status response <? 300)
   then ret response
   else lift (Raise (HTTPError (status response)
                       ("HTTP Error " ++ Str.format_0d 0 (status response)))))%M.

Definition fetch_fx_rates (api_key : string) : M Json.value :=
  let params :=
    [("access_key", api_key);
     ("source", BASE_CURRENCY);
     ("currencies", String.concat "," TARGET_CURRENCIES)] in
  (response <- urlopen FX_API_URL params ;;
   if negb (status response =? 200)
   then lift (Raise (RuntimeError
                       ("FX API returned status "
                        ++ Str.format_0d 0 (status response))))
   else lift (body response))%M.

Definition required_fields : list string := ["timestamp"; "source"; "quotes"].

Definition validate_fx_data (data : Json.value) : result unit :=
  let? _ :=
    for_each required_fields (fun field =>
      let? present := Json.contains data field in
      if negb present
      then Raise (ValueError ("Missing required field: " ++ field))
      else Ok tt) in
  for_each TARGET_CURRENCY_CODES (fun currency =>
    let? quotes := Json.getitem data "quotes" in
    let? present := Json.contains quotes currency in
    if negb present
    then Raise (ValueError ("Missing FX quote for: " ++ currency))
    else Ok tt).

Definition filter_fx_data (data : Json.value) : result Json.value :=
  let? timestamp := Json.get data "timestamp" in
  let? source := Json.get data "source" in
  let? quotes := Json.get data "quotes" in
  Ok (Json.JObj [("timestamp", timestamp); ("source", source); ("quotes", quotes)]).

Definition build_s3_key (year month day : string) : string :=
  "raw/year=" ++ year ++ "/month=" ++ month ++ "/day=" ++ day ++ "/rates.json".

Definition write_to_s3 (s3_key : string) (data : Json.value) : M unit :=
  s3_put_object BUCKET_NAME s3_key data.

Record response : Type := mk_response {
  statusCode : Z;
  message : string;
  s3_key : string
}.

Definition lambda_handler (event : Json.value) : M response :=
  try_except
    (api_key <- get_api_key ;;
     fx_data <- fetch_fx_rates api_key ;;
     lift (validate_fx_data fx_data) ;;
     filtered_data <- lift (filter_fx_data fx_data) ;;
     '(year, month, day) <- lift (get_run_date event) ;;
     let s3_key := build_s3_key year month day in
     write_to_s3 s3_key filtered_data ;;
     ret (mk_response 200 "FX data ingested successfully" s3_key))%M
    (fun e => (emit (LogError "FX ingestion failed") ;; lift (Raise e))%M).

End Config.
End Ingest.

(** ** Transform: [lambda-fx-transform-function.py] *)

Module Transform.
Section Config.

Variable bucket : string.

Definition get_run_date (event : Json.value)
  : result (string * string * string * Datetime.datetime) :=
  let? raw_run_date := Json.getitem event "run_date" in
  let? iso := Json.replace raw_run_date "Z" "+00:00" in
  let? dt := Datetime.fromisoformat iso in
  let? fx_dt := Datetime.sub_days dt 1 in
  let year := Str.format_0d 4 (Datetime.year fx_dt) in
  let month := Str.format_0d 2 (Datetime.month fx_dt) in
  let day := Str.format_0d 2 (Datetime.day fx_dt) in
  Ok (year, month, day, fx_dt).

Definition build_s3_key (year month day : string) : string :=
  let read_key :=
    "raw/year=" ++ year ++ "/month=" ++ month ++ "/day=" ++ day ++ "/rates.json" in
  read_key.

Definition read_raw_object (read_key : string) : M Json.value :=
  s3_get_object bucket read_key.

Definition required_fields : list string := ["timestamp"; "source"; "quotes"].

Definition validate_fx_data (data : Json.value) : result unit :=
  for_each required_fields (fun field =>
    let? present := Json.contains data field in
    if negb present
    then Raise (ValueError ("Missing required field: " ++ field))
    else Ok tt).

Definition is_weekday (fx_dt : Datetime.datetime) : bool :=
  Datetime.weekday fx_dt <? 5.

Definition record_of (pair : string) (rate : Json.value) (year month day : string)
  (fx_dt : Datetime.datetime) : Json.value :=
  Json.JObj [("pair", Json.JStr pair);
             ("rate", rate);
             ("date", Json.JStr (year ++ "-" ++ month ++ "-" ++ day));
             ("market_open", Json.JBool (is_weekday fx_dt))].

Definition write_key_of (pair year month day : string) : string :=
  "processed/pair=" ++ pair ++ "/year=" ++ year ++ "/month=" ++ month
  ++ "/day=" ++ day ++ "/data.json".

(** The body of the loop of [normalize_and_write], threading
    [written_files]. *)
Fixpoint write_all (entries : list (string * Json.value)) (year month day : string)
  (fx_dt : Datetime.datetime) (written_files : list string) : M (list string) :=
  match entries with
  | [] => ret written_files
  | (pair', rate) :: rest =>
      let record := record_of pair' rate year month day fx_dt in
      let write_key := write_key_of pair' year month day in
      (s3_put_object bucket write_key record ;;
       write_all rest year month day fx_dt (written_files ++ [write_key]))%M
  end.

Definition normalize_and_write (data : Json.value) (year month day : string)
  (fx_dt : Datetime.datetime) : M (list string) :=
  (quotes <- lift (Json.getitem data "quotes") ;;
   entries <- lift (Json.items quotes) ;;
   write_all entries year month day fx_dt [])%M.

(** [NoOp] is the bare [return] of the guard. *)
Inductive response : Type :=
| NoOp
| Written (statusCode : Z) (files_written : list string).

Definition lambda_handler (event : Json.value) : M response :=
  ('(year, month, day, fx_dt) <- lift (get_run_date event) ;;
   let read_key := build_s3_key year month day in
   if negb (Str.startswith "raw/" read_key) then ret NoOp
   else
     data <- read_raw_object read_key ;;
     lift (validate_fx_data data) ;;
     output_keys <- normalize_and_write data year month day fx_dt ;;
     ret (Written 200 output_keys))%M.

End Config.
End Transform.

(** ** Analysis: [lambda-fx-analysis-function.py] *)

Module Analysis.
Section Config.

Variable ATHENA_DATABASE : string.
Variable ATHENA_OUTPUT : string.
Variable ATHENA_TABLE : string.
Variable ATHENA_WORKGROUP : string.
Variable PAIR : string.
Variable svc : services.

(** [float(s)] on a string: [None] where Python raises [ValueError]. *)
Variable float_of_string : string -> option float.

Definition DEVIATION_METRIC : string := PAIR ++ "Deviation".
Definition METRIC_NAMESPACE : string := "FX/Analysis".

Definition get_run_date (event : Json.value)
  : result (string * string * string * Datetime.datetime) :=
  let? raw_run_date := Json.getitem event "run_date" in
  let? iso := Json.replace raw_run_date "Z" "+00:00" in
  let? dt := Datetime.fromisoformat iso in
  let? fx_dt := Datetime.sub_days dt 1 in
  let year := Str.format_0d 4 (Datetime.year fx_dt) in
  let month := Str.format_0d 2 (Datetime.month fx_dt) in
  let day := Str.format_0d 2 (Datetime.day fx_dt) in
  Ok (year, month, day, fx_dt).

Definition get_yesterdays_date (fx_dt : Datetime.datetime)
  : result (string * string * string) :=
  let? dt_pd := Datetime.sub_days fx_dt 1 in
  let year_pd := Str.format_0d 4 (Datetime.year dt_pd) in
  let month_pd := Str.format_0d 2 (Datetime.month dt_pd) in
  let day_pd := Str.format_0d 2 (Datetime.day dt_pd) in
  Ok (year_pd, month_pd, day_pd).

Definition is_weekend (fx_dt : Datetime.datetime) : bool :=
  5 <=? Datetime.weekday fx_dt.

(** [athena.start_query_execution(...)["QueryExecutionId"]] *)
Definition start_query (query : string) : M nat :=
  fun w =>
    (Ok (started w),
     mk_world (objects w) (S (started w)) (polled w)
       (trace w ++ [AthenaStart query ATHENA_DATABASE ATHENA_OUTPUT ATHENA_WORKGROUP])).

(** [athena.get_query_execution(...)["QueryExecution"]["Status"]] *)
Definition get_query_execution (query_execution_id : nat) : M execution_status :=
  fun w =>
    (Ok (athena_execution svc query_execution_id (polled w)),
     mk_world (objects w) (started w) (S (polled w))
       (trace w ++ [AthenaPoll query_execution_id])).

Definition is_terminal (status : string) : bool :=
  String.eqb status "SUCCEEDED" || String.eqb status "FAILED"
  || String.eqb status "CANCELLED".

Definition reason_of (response : execution_status) : string :=
  match StateChangeReason response with
  | Some r => r
  | None => "Unknown"
  end.

(** The [while True] loop; [fuel] bounds the number of polls. *)
Fixpoint wait_for_query (fuel : nat) (query_execution_id : nat) : M string :=
  match fuel with
  | O => lift OutOfFuel
  | S fuel' =>
      (response <- get_query_execution query_execution_id ;;
       let status := State response in
       if is_terminal status then
         (if negb (String.eqb status "SUCCEEDED") then
            let reason := reason_of response in
            emit (LogError ("Athena query failed: " ++ reason))
          else ret tt) ;;
         ret status
       else
         emit (Sleep 2) ;;
         wait_for_query fuel' query_execution_id)%M
  end.

(** The polling sequence of execution [qid], read from poll number
    [start] on, reaches a terminal state for the first time at its
    [k]-th answer (counting from 0), and that answer is [st]. *)
Definition settles (qid start k : nat) (st : execution_status) : Prop :=
  (forall j, (j < k)%nat ->
     is_terminal (State (athena_execution svc qid (start + j))) = false)
  /\ athena_execution svc qid (start + k) = st
  /\ is_terminal (State st) = true.

(** The same for a run that ends FAILED or CANCELLED, spelled with the
    states themselves: [k] answers that are none of SUCCEEDED, FAILED,
    CANCELLED, and then [st], whose state is FAILED or CANCELLED. *)
Definition ends_without_success (qid start k : nat) (st : execution_status) : Prop :=
  (forall j, (j < k)%nat ->
     let s := State (athena_execution svc qid (start + j)) in
     s <> "SUCCEEDED" /\ s <> "FAILED" /\ s <> "CANCELLED")
  /\ athena_execution svc qid (start + k) = st
  /\ (State st = "FAILED" \/ State st = "CANCELLED").

(** The calls made while [k] polls come back not terminal. *)
Fixpoint waiting (qid : nat) (k : nat) : list effect :=
  match k with
  | O => []
  | S k' => AthenaPoll qid :: Sleep 2 :: waiting qid k'
  end.

(** [xs[i]] on a list. *)
Definition list_index {A} (xs : list A) (i : nat) : result A :=
  match nth_error xs i with
  | Some x => Ok x
  | None => Raise (IndexError "list index out of range")
  end.

Definition to_float (s : string) : result float :=
  match float_of_string s with
  | Some f => Ok f
  | None => Raise (ValueError ("could not convert string to float: " ++ s))
  end.

(** [float(row["Data"][0]["VarCharValue"])] *)
Definition rate_of_row (r : row) : result float :=
  let? cell := list_index (Data r) 0 in
  let? text := match VarCharValue cell with
               | Some s => Ok s
               | None => Raise (KeyError "VarCharValue")
               end in
  to_float text.

Definition get_single_value (query_execution_id : nat) : M float :=
  (emit (AthenaResults query_execution_id) ;;
   let rows := athena_results svc query_execution_id in
   (* Row 0 = header, Row 1 = value *)
   row1 <- lift (list_index rows 1) ;;
   lift (rate_of_row row1))%M.

Definition nl : string := String (ascii_of_nat 10) "".

Definition rate_query (year month day : string) : string :=
  nl ++ "    SELECT rate" ++ nl
  ++ "    FROM " ++ ATHENA_TABLE ++ nl
  ++ "    WHERE pair = '" ++ PAIR ++ "'" ++ nl
  ++ "        AND market_open = true" ++ nl
  ++ "        AND year = '" ++ year ++ "'" ++ nl
  ++ "        AND month = '" ++ month ++ "'" ++ nl
  ++ "        AND day = '" ++ day ++ "'" ++ nl
  ++ "    ".

Definition get_todays_rate (fuel : nat) (year month day : string) : M float :=
  (let query := rate_query year month day in
   qid <- start_query query ;;
   status <- wait_for_query fuel qid ;;
   if negb (String.eqb status "SUCCEEDED")
   then lift (Raise (Exception "Athena query for todays rate failed"))
   else get_single_value qid)%M.

Definition get_yesterdays_rate (fuel : nat) (year_pd month_pd day_pd : string)
  : M float :=
  (let query := rate_query year_pd month_pd day_pd in
   qid <- start_query query ;;
   status <- wait_for_query fuel qid ;;
   if negb (String.eqb status "SUCCEEDED")
   then lift (Raise (Exception "Athena query for daily average failed"))
   else get_single_value qid)%M.

Definition publish_metric (deviation : float) : M unit :=
  emit (PutMetric METRIC_NAMESPACE DEVIATION_METRIC (deviation * 100)%float "Percent").

(** [a / b] on floats. *)
Definition float_div (a b : float) : result float :=
  if PrimFloat.eqb b 0%float
  then Raise (ZeroDivisionError "float division by zero")
  else Ok (a / b)%float.

Inductive response : Type :=
| Skipped (status reason : string)
| Report (pair : string) (todays_rate yesterdays_rate deviation : float).

Definition lambda_handler (fuel : nat) (event : Json.value) : M response :=
  ('(year, month, day, fx_dt) <- lift (get_run_date event) ;;
   '(year_pd, month_pd, day_pd) <- lift (get_yesterdays_date fx_dt) ;;
   if is_weekend fx_dt then ret (Skipped "skipped" "weekend")
   else
     todays_rate <- get_todays_rate fuel year month day ;;
     yesterdays_rate <- get_yesterdays_rate fuel year_pd month_pd day_pd ;;
     deviation <- lift (float_div (PrimFloat.abs (todays_rate - yesterdays_rate))
                          yesterdays_rate) ;;
     publish_metric deviation ;;
     ret (Report PAIR todays_rate yesterdays_rate deviation))%M.

End Config.
End Analysis.

(** A reader of short decimal literals, [digits[.digits]], as [float]
    reads them: the integer the digits spell divided by the power of
    ten, which is exact rounding for such literals. *)
Fixpoint read_decimal (s : string) (mantissa : Z) (scale : option Z) : option (Z * Z) :=
  match s with
  | EmptyString =>
      match scale with
      | Some k => Some (mantissa, k)
      | None => Some (mantissa, 1)
      end
  | String c rest =>
      if Ascii.eqb c "." then
        match scale with
        | None => read_decimal rest mantissa (Some 1)
        | Some _ => None
        end
      else
        match Str.digit_val c with
        | Some d =>
            read_decimal rest (10 * mantissa + d)
              (match scale with Some k => Some (10 * k) | None => None end)
        | None => None
        end
  end.

Definition float_of_Z (z : Z) : float :=
  PrimFloat.of_uint63 (Uint63.of_Z z).

Definition short_float (s : string) : option float :=
  match s with
  | EmptyString | String "." EmptyString => None
  | _ =>
      match read_decimal s 0 None with
      | Some (m, k) =>
          if (m <? 9007199254740992) && (k <? 10000000000000000)
          then Some (float_of_Z m / float_of_Z k)%float
          else None
      | None => None
      end
  end.

(** Scenarios: a query engine that answers every status poll from a
    script, every execution alike, and serves one result set per
    execution. *)
Definition scripted (polls : nat -> execution_status) (results : nat -> list row)
  : services :=
  mk_services (fun _ => Ok "secret")
    (fun _ _ => Ok (mk_response 200 (Ok Json.JNull)))
    (fun _ n => polls n)
    results.

Definition header_row : row := mk_row [mk_datum (Some "rate")].
Definition rate_row (text : string) : row := mk_row [mk_datum (Some text)].

(** The event a scheduler sends: [{"run_date": s}]. *)
Definition run_date_event (s : string) : Json.value :=
  Json.JObj [("run_date", Json.JStr s)].

(** Scenarios the concrete runs below use: an engine whose executions
    are RUNNING twice and then FAILED, one that succeeds at once, result
    sets holding two rates, and payloads with and without quotes. *)
Definition failing_polls (n : nat) : execution_status :=
  if (n <? 2)%nat then mk_status "RUNNING" None
  else mk_status "FAILED" (Some "Query exhausted resources").
Definition prompt_polls (n : nat) : execution_status := mk_status "SUCCEEDED" None.
Definition two_rates (qid : nat) : list row :=
  match qid with
  | O => [header_row; rate_row "151.5"]
  | _ => [header_row; rate_row "150.0"]
  end.
(** An engine whose first execution succeeds at once and whose later
    ones are CANCELLED with no reason given. *)
Definition cancelled_second : services :=
  mk_services (fun _ => Ok "secret")
    (fun _ _ => Ok (mk_response 200 (Ok Json.JNull)))
    (fun qid _ =>
       match qid with
       | O => mk_status "SUCCEEDED" None
       | _ => mk_status "CANCELLED" None
       end)
    two_rates.
Definition zero_yesterday (qid : nat) : list row :=
  match qid with
  | O => [header_row; rate_row "151.5"]
  | _ => [header_row; rate_row "0.0"]
  end.
Definition analysis_job :=
  Analysis.lambda_handler "fx" "s3://athena-out/" "fx_rates" "primary" "USDJPY".
Definition tuesday_event : Json.value := run_date_event "2024-03-05T06:00:00Z".
Definition sunday_event : Json.value := run_date_event "2024-03-03T06:00:00Z".
#[warnings="-inexact-float"]
Definition raw_payload : Json.value :=
  Json.JObj [("timestamp", Json.JInt 1709510400);
             ("source", Json.JStr "USD");
             ("quotes", Json.JObj [("USDJPY", Json.JFloat 150.0);
                                   ("USDEUR", Json.JFloat 0.9)])].
Definition no_quotes_payload : list (string * Json.value) :=
  [("timestamp", Json.JInt 1709510400); ("source", Json.JStr "USD")].
Definition empty_quotes_payload : Json.value :=
  Json.JObj [("timestamp", Json.JInt 1709510400);
             ("source", Json.JStr "USD");
             ("quotes", Json.JObj [])].

Definition raw_key : string := "raw/year=2024/month=03/day=04/rates.json".
Definition stocked_world : world := initial_world [("fx-bucket", raw_key, raw_payload)].


(** Further scenarios: a provider payload with a field Ingest drops, a
    payload whose quotes is null, an engine that is RUNNING twice before
    it succeeds, result sets without a data row and with a NULL rate. *)
#[warnings="-inexact-float"]
Definition provider_entries : list (string * Json.value) :=
  [("success", Json.JBool true);
   ("timestamp", Json.JInt 1709510400);
   ("source", Json.JStr "USD");
   ("quotes", Json.JObj [("USDJPY", Json.JFloat 150.0);
                         ("USDEUR", Json.JFloat 0.9)])].
#[warnings="-inexact-float"]
Definition two_quotes : list (string * Json.value) :=
  [("USDJPY", Json.JFloat 150.0); ("USDEUR", Json.JFloat 0.9)].
Definition null_quotes_entries : list (string * Json.value) :=
  [("timestamp", Json.JInt 1709510400); ("source", Json.JStr "USD");
   ("quotes", Json.JNull)].
Definition ingest_job (svc : services) :=
  Ingest.lambda_handler "fx-bucket" "USD" ["JPY"; "EUR"] "https://fx.example/live" svc.
Definition header_only (qid : nat) : list row := [header_row].
Definition slow_polls (n : nat) : execution_status :=
  if (n <? 2)%nat then mk_status "RUNNING" None else mk_status "SUCCEEDED" None.
Definition null_rate (qid : nat) : list row := [header_row; mk_row [mk_datum None]].

Definition monday : Datetime.datetime := Datetime.mk_datetime 2024 3 4 6 0 0 0 (Some 0).

(** Forgets the date value that Transform and Analysis return next to
    the three strings. *)
Definition drop_dt (r : string * string * string * Datetime.datetime)
  : string * string * string :=
  let '(y, m, d, _) := r in (y, m, d).

(** The first of [keys], in order, that the dict does not hold. *)
Definition first_missing (keys : list string) (entries : list (string * Json.value))
  : option string :=
  find (fun k => negb (Json.has_key k entries)) keys.

(** What Transform does with one entry of quotes: the call, the key
    and the stored object. *)
Definition record_written (bucket year month day : string) (fx_dt : Datetime.datetime)
  (entry : string * Json.value) : effect :=
  S3Put bucket (Transform.write_key_of (fst entry) year month day)
    (Transform.record_of (fst entry) (snd entry) year month day fx_dt).

Definition key_written (year month day : string) (entry : string * Json.value) : string :=
  Transform.write_key_of (fst entry) year month day.

Definition object_written (bucket year month day : string) (fx_dt : Datetime.datetime)
  (entry : string * Json.value) : string * string * Json.value :=
  (bucket, Transform.write_key_of (fst entry) year month day,
   Transform.record_of (fst entry) (snd entry) year month day fx_dt).

(** Selectors on the trace of calls *)

Definition metrics (t : list effect) : list effect :=
  filter (fun e => match e with PutMetric _ _ _ _ => true | _ => false end) t.

Definition queries (t : list effect) : list effect :=
  filter (fun e => match e with
                   | AthenaStart _ _ _ _ | AthenaPoll _ | AthenaResults _ => true
                   | _ => false
                   end) t.

Definition writes (t : list effect) : list effect :=
  filter (fun e => match e with S3Put _ _ _ => true | _ => false end) t.

Definition errors_logged (t : list effect) : list string :=
  flat_map (fun e => match e with LogError m => [m] | _ => [] end) t.

Definition put_keys (t : list effect) : list string :=
  flat_map (fun e => match e with S3Put _ k _ => [k] | _ => [] end) t.

Definition started_queries (t : list effect) : list string :=
  flat_map (fun e => match e with AthenaStart q _ _ _ => [q] | _ => [] end) t.

Definition http_calls (t : list effect) : list effect :=
  filter (fun e => match e with HttpGet _ _ => true | _ => false end) t.

(** The query parameters Ingest sends to the provider. *)
Definition fx_params (api_key BASE_CURRENCY : string) (TARGET_CURRENCIES : list string)
  : list (string * string) :=
  [("access_key", api_key);
   ("source", BASE_CURRENCY);
   ("currencies", String.concat "," TARGET_CURRENCIES)].

(** A JSON value that [in] cannot search and that has no [items]. *)
Definition not_a_container (v : Json.value) : bool :=
  match v with
  | Json.JNull | Json.JBool _ | Json.JInt _ | Json.JFloat _ => true
  | _ => false
  end.

(** A provider that answers every request with one status and one
    parsed body, beside an engine that succeeds at once. *)
Definition fx_provider (code : Z) (payload : Json.value) : services :=
  mk_services (fun _ => Ok "secret")
    (fun _ _ => Ok (mk_response code (Ok payload)))
    (fun _ _ => mk_status "SUCCEEDED" None)
    (fun _ => []).

(** A string without the letter Z. *)
Fixpoint no_Z (s : string) : bool :=
  match s with
  | EmptyString => true
  | String c rest => negb (Ascii.eqb c "Z") && no_Z rest
  end.

(** * Facts about the model *)

(** ** Formatting and reading decimal numerals *)

Module StrFacts.
Import Str.

Lemma digit_val_char d : 0 <= d < 10 -> digit_val (digit_char d) = Some d.
Proof.
  intros H.
  assert (Hc : d = 0 \/ d = 1 \/ d = 2 \/ d = 3 \/ d = 4 \/ d = 5 \/ d = 6
               \/ d = 7 \/ d = 8 \/ d = 9) by lia.
  destruct Hc as [-> | [-> | [-> | [-> | [-> | [-> | [-> | [-> | [-> | ->]]]]]]]]];
    reflexivity.
Qed.

Lemma length_app (s t : string) :
  String.length (s ++ t) = (String.length s + String.length t)%nat.
Proof. induction s; cbn; congruence. Qed.

Lemma zeros_shift k acc : zeros k ++ String "0" acc = String "0" (zeros k ++ acc).
Proof.
  induction k as [|k IH]; [reflexivity|].
  cbn [zeros String.append]. now rewrite IH.
Qed.

Lemma fixed_digits_zero w acc : fixed_digits w 0 acc = zeros w ++ acc.
Proof.
  revert acc. induction w as [|w IH]; intros acc; [reflexivity|].
  cbn [fixed_digits]. change (0 / 10) with 0. change (0 mod 10) with 0.
  rewrite IH. change (digit_char 0) with "0"%char.
  apply zeros_shift.
Qed.

Lemma length_fixed_digits w n acc :
  String.length (fixed_digits w n acc) = (w + String.length acc)%nat.
Proof.
  revert n acc. induction w as [|w IH]; intros n acc; [reflexivity|].
  cbn [fixed_digits]. rewrite IH. cbn. lia.
Qed.

Lemma dec_digits_small fuel n acc :
  0 <= n < 10 -> dec_digits fuel n acc = String (digit_char (n mod 10)) acc.
Proof.
  intros H. destruct fuel; cbn [dec_digits]; [reflexivity|].
  rewrite Z.div_small by lia. reflexivity.
Qed.

Lemma zfill_dec_digits k fuel n acc :
  0 <= n < 10 ^ Z.of_nat (S k) -> n < 10 ^ Z.of_nat (S fuel) ->
  zeros (S k + String.length acc - String.length (dec_digits fuel n acc))
  ++ dec_digits fuel n acc
  = fixed_digits (S k) n acc.
Proof.
  revert fuel n acc. induction k as [|k IH]; intros fuel n acc Hn Hf.
  - change (10 ^ Z.of_nat 1) with 10 in Hn.
    rewrite dec_digits_small by lia. cbn [fixed_digits String.length].
    replace (1 + String.length acc - S (String.length acc))%nat with 0%nat by lia.
    reflexivity.
  - destruct (Z.lt_ge_cases n 10) as [Hlt | Hge].
    + rewrite dec_digits_small by lia.
      cbn [fixed_digits String.length]. rewrite (Z.div_small n 10) by lia.
      change (0 / 10) with 0. change (0 mod 10) with 0.
      rewrite fixed_digits_zero.
      replace (S (S k) + String.length acc - S (String.length acc))%nat with (S k) by lia.
      cbn [zeros].
      cbn [String.append]. f_equal.
      change (digit_char 0) with "0"%char. symmetry. apply zeros_shift.
    + destruct fuel as [|fuel].
      { change (10 ^ Z.of_nat 1) with 10 in Hf. lia. }
      cbn [dec_digits].
      destruct (Z.eqb_spec (n / 10) 0) as [E | NE].
      { exfalso. Z.div_mod_to_equations. lia. }
      assert (Hp : forall j, n < 10 ^ Z.of_nat (S (S j)) -> n / 10 < 10 ^ Z.of_nat (S j)).
      { intros j Hj. apply Z.div_lt_upper_bound; [lia|].
        replace (Z.of_nat (S (S j))) with (Z.succ (Z.of_nat (S j))) in Hj by lia.
        rewrite Z.pow_succ_r in Hj by lia. exact Hj. }
      specialize (IH fuel (n / 10) (String (digit_char (n mod 10)) acc)).
      cbn [String.length] in IH.
      replace (S (S k) + String.length acc)%nat
        with (S k + S (String.length acc))%nat by lia.
      rewrite IH; [reflexivity | | ].
      * split; [apply Z.div_pos; lia | apply Hp; lia].
      * apply Hp; lia.
Qed.

Lemma log2_fuel n : 0 <= n -> n < 10 ^ Z.of_nat (S (Z.to_nat (Z.log2 n))).
Proof.
  intros Hn. destruct (Z.eq_dec n 0) as [-> | NE]; [reflexivity|].
  pose proof (Z.log2_nonneg n) as Hl.
  destruct (Z.log2_spec n ltac:(lia)) as [_ Hu].
  replace (Z.of_nat (S (Z.to_nat (Z.log2 n)))) with (Z.succ (Z.log2 n)) by lia.
  eapply Z.lt_le_trans; [exact Hu|].
  apply Z.pow_le_mono_l. lia.
Qed.

Lemma format_0d_fixed w n :
  (0 < w)%nat -> 0 <= n < 10 ^ Z.of_nat w ->
  format_0d w n = fixed_digits w n "".
Proof.
  intros Hw Hn. unfold format_0d, zfill, str_of_nonneg.
  destruct (Z.ltb_spec n 0); [lia|].
  destruct w as [|k]; [lia|].
  rewrite <- (zfill_dec_digits k (Z.to_nat (Z.log2 n)) n "") by (try apply log2_fuel; lia).
  cbn [String.length]. now rewrite Nat.add_0_r.
Qed.

Lemma read_digits_snoc k s a :
  read_digits (S k) s a
  = match read_digits k s a with
    | Some (v, String c rest) =>
        match digit_val c with
        | Some d => Some (10 * v + d, rest)
        | None => None
        end
    | _ => None
    end.
Proof.
  revert s a. induction k as [|k IH]; intros s a.
  - cbn. destruct s; [reflexivity|]. destruct (digit_val a0); reflexivity.
  - cbn [read_digits] in *. destruct s as [|c s]; [reflexivity|].
    destruct (digit_val c) as [d|]; [|reflexivity].
    apply IH.
Qed.

Lemma read_fixed_digits w n acc a :
  0 <= n ->
  read_digits w (fixed_digits w n acc) a
  = Some (a * 10 ^ Z.of_nat w + n mod 10 ^ Z.of_nat w, acc).
Proof.
  revert n acc a. induction w as [|w IH]; intros n acc a Hn.
  - cbn. rewrite Z.mod_1_r. do 2 f_equal. lia.
  - rewrite read_digits_snoc. cbn [fixed_digits].
    rewrite IH by (apply Z.div_pos; lia).
    rewrite digit_val_char by (apply Z.mod_pos_bound; lia).
    do 2 f_equal.
    replace (Z.of_nat (S w)) with (Z.succ (Z.of_nat w)) by lia.
    rewrite Z.pow_succ_r by lia.
    rewrite (Z.rem_mul_r n 10 (10 ^ Z.of_nat w)) by lia. lia.
Qed.

Lemma format_0d_spec w n :
  (0 < w)%nat -> 0 <= n < 10 ^ Z.of_nat w ->
  String.length (format_0d w n) = w
  /\ read_digits w (format_0d w n) 0 = Some (n, "").
Proof.
  intros Hw Hn. rewrite format_0d_fixed by assumption. split.
  - rewrite length_fixed_digits. cbn. lia.
  - rewrite read_fixed_digits by lia. rewrite Z.mod_small by lia. reflexivity.
Qed.

End StrFacts.

(** ** The calendar: ordinals against year, month, day *)

Module DatetimeFacts.
Import Datetime.

Lemma year_digits (Y : Z) :
  0 <= Y ->
  exists a b c e,
    0 <= a /\ 0 <= b < 4 /\ 0 <= c < 25 /\ 0 <= e < 4
    /\ Y = 400 * a + 100 * b + 4 * c + e.
Proof.
  intros HY.
  exists (Y / 400), (Y mod 400 / 100), (Y mod 100 / 4), (Y mod 4).
  Z.div_mod_to_equations. lia.
Qed.

Lemma days_before_year_digits a b c e :
  0 <= a -> 0 <= b < 4 -> 0 <= c < 25 -> 0 <= e < 4 ->
  days_before_year (400 * a + 100 * b + 4 * c + e + 1)
  = 146097 * a + 36524 * b + 1461 * c + 365 * e.
Proof.
  intros. unfold days_before_year.
  replace (400 * a + 100 * b + 4 * c + e + 1 - 1) with (400 * a + 100 * b + 4 * c + e) by lia.
  assert (H4 : (400 * a + 100 * b + 4 * c + e) / 4 = 100 * a + 25 * b + c)
    by (symmetry; apply Z.div_unique with e; lia).
  assert (H100 : (400 * a + 100 * b + 4 * c + e) / 100 = 4 * a + b)
    by (symmetry; apply Z.div_unique with (4 * c + e); lia).
  assert (H400 : (400 * a + 100 * b + 4 * c + e) / 400 = a)
    by (symmetry; apply Z.div_unique with (100 * b + 4 * c + e); lia).
  rewrite H4, H100, H400. lia.
Qed.

Lemma is_leap_digits a b c e :
  0 <= a -> 0 <= b < 4 -> 0 <= c < 25 -> 0 <= e < 4 ->
  is_leap (400 * a + 100 * b + 4 * c + e + 1)
  = (e =? 3) && (negb (c =? 24) || (b =? 3)).
Proof.
  intros. unfold is_leap.
  assert (H4 : (400 * a + 100 * b + 4 * c + e + 1) mod 4 = (e + 1) mod 4).
  { replace (400 * a + 100 * b + 4 * c + e + 1) with ((e + 1) + (100 * a + 25 * b + c) * 4) by lia.
    apply Z.mod_add. lia. }
  assert (H100 : (400 * a + 100 * b + 4 * c + e + 1) mod 100 = (4 * c + e + 1) mod 100).
  { replace (400 * a + 100 * b + 4 * c + e + 1) with ((4 * c + e + 1) + (4 * a + b) * 100) by lia.
    apply Z.mod_add. lia. }
  assert (H400 : (400 * a + 100 * b + 4 * c + e + 1) mod 400 = (100 * b + 4 * c + e + 1) mod 400).
  { replace (400 * a + 100 * b + 4 * c + e + 1) with ((100 * b + 4 * c + e + 1) + a * 400) by lia.
    apply Z.mod_add. lia. }
  rewrite H4, H100, H400. clear H4 H100 H400.
  repeat match goal with
         | |- context [Z.eqb ?x ?y] => destruct (Z.eqb_spec x y)
         end; cbn [andb orb negb]; try reflexivity;
    exfalso; Z.div_mod_to_equations; lia.
Qed.

Lemma ord2ymd_digits a b c e k :
  0 <= a -> 0 <= b < 4 -> 0 <= c < 25 -> 0 <= e < 4 -> 0 <= k < 365 ->
  ord2ymd (146097 * a + 36524 * b + 1461 * c + 365 * e + k + 1)
  = let '(m, d) := locate_month ((e =? 3) && (negb (c =? 24) || (b =? 3))) k in
    (400 * a + 100 * b + 4 * c + e + 1, m, d).
Proof.
  intros Ha Hb Hc He Hk. unfold ord2ymd, DI400Y, DI100Y, DI4Y. cbv zeta.
  replace (146097 * a + 36524 * b + 1461 * c + 365 * e + k + 1 - 1)
    with (146097 * a + (36524 * b + 1461 * c + 365 * e + k)) by lia.
  set (r1 := 36524 * b + 1461 * c + 365 * e + k).
  assert (Q1 : (146097 * a + r1) / 146097 = a)
    by (symmetry; apply Z.div_unique with r1; subst r1; lia).
  assert (R1 : (146097 * a + r1) mod 146097 = r1)
    by (symmetry; apply Z.mod_unique with a; subst r1; lia).
  rewrite Q1, R1. subst r1.
  set (r2 := 1461 * c + 365 * e + k).
  replace (36524 * b + 1461 * c + 365 * e + k) with (36524 * b + r2) by (subst r2; lia).
  assert (Q2 : (36524 * b + r2) / 36524 = b)
    by (symmetry; apply Z.div_unique with r2; subst r2; lia).
  assert (R2 : (36524 * b + r2) mod 36524 = r2)
    by (symmetry; apply Z.mod_unique with b; subst r2; lia).
  rewrite Q2, R2. subst r2.
  set (r3 := 365 * e + k).
  replace (1461 * c + 365 * e + k) with (1461 * c + r3) by (subst r3; lia).
  assert (Q3 : (1461 * c + r3) / 1461 = c)
    by (symmetry; apply Z.div_unique with r3; subst r3; lia).
  assert (R3 : (1461 * c + r3) mod 1461 = r3)
    by (symmetry; apply Z.mod_unique with c; subst r3; lia).
  rewrite Q3, R3. subst r3.
  assert (Q4 : (365 * e + k) / 365 = e)
    by (symmetry; apply Z.div_unique with k; lia).
  assert (R4 : (365 * e + k) mod 365 = k)
    by (symmetry; apply Z.mod_unique with e; lia).
  rewrite Q4, R4.
  destruct (Z.eqb_spec e 4); [lia|].
  destruct (Z.eqb_spec b 4); [lia|].
  cbn [orb].
  destruct (locate_month _ k) as [m d].
  f_equal. f_equal. lia.
Qed.

Lemma ord2ymd_digits_last a b c :
  0 <= a -> 0 <= b < 4 -> 0 <= c < 25 ->
  (c =? 24) = false \/ b = 3 ->
  ord2ymd (146097 * a + 36524 * b + 1461 * c + 365 * 3 + 365 + 1)
  = (400 * a + 100 * b + 4 * c + 3 + 1, 12, 31).
Proof.
  intros Ha Hb Hc Hl. unfold ord2ymd, DI400Y, DI100Y, DI4Y. cbv zeta.
  replace (146097 * a + 36524 * b + 1461 * c + 365 * 3 + 365 + 1 - 1)
    with (146097 * a + (36524 * b + 1461 * c + 1460)) by lia.
  set (r1 := 36524 * b + 1461 * c + 1460).
  assert (Q1 : (146097 * a + r1) / 146097 = a)
    by (symmetry; apply Z.div_unique with r1; subst r1; lia).
  assert (R1 : (146097 * a + r1) mod 146097 = r1)
    by (symmetry; apply Z.mod_unique with a; subst r1; lia).
  rewrite Q1, R1. subst r1.
  destruct (Z.eqb_spec c 24) as [-> | Hc24].
  - destruct Hl as [Hl | ->]; [discriminate|].
    change ((36524 * 3 + 1461 * 24 + 1460) / 36524) with 4.
    change ((36524 * 3 + 1461 * 24 + 1460) mod 36524) with 0.
    change (0 mod 1461) with 0. change (0 / 1461) with 0. change (0 / 365) with 0.
    cbn [Z.eqb Pos.eqb orb]. f_equal. f_equal. lia.
  - clear Hl.
    set (r2 := 1461 * c + 1460).
    replace (36524 * b + 1461 * c + 1460) with (36524 * b + r2) by (subst r2; lia).
    assert (Q2 : (36524 * b + r2) / 36524 = b)
      by (symmetry; apply Z.div_unique with r2; subst r2; lia).
    assert (R2 : (36524 * b + r2) mod 36524 = r2)
      by (symmetry; apply Z.mod_unique with b; subst r2; lia).
    rewrite Q2, R2. subst r2.
    assert (Q3 : (1461 * c + 1460) / 1461 = c)
      by (symmetry; apply Z.div_unique with 1460; lia).
    assert (R3 : (1461 * c + 1460) mod 1461 = 1460)
      by (symmetry; apply Z.mod_unique with c; lia).
    rewrite Q3, R3.
    replace (1460 / 365) with 4 by reflexivity.
    cbn [Z.eqb Pos.eqb orb]. f_equal. f_equal. lia.
Qed.

Ltac ceval t := let v := eval vm_compute in t in change t with v in *.

Ltac ceval_tables :=
  repeat match goal with
         | |- context [tbl ?t ?i] => progress ceval (tbl t i)
         | |- context [b2z ?b] => progress ceval (b2z b)
         end.

Lemma locate_month_spec leap m d :
  1 <= m <= 12 ->
  1 <= d <= (if (m =? 2) && leap then 29 else tbl DAYS_IN_MONTH m) ->
  locate_month leap (tbl DAYS_BEFORE_MONTH m + b2z ((2 <? m) && leap) + d - 1) = (m, d).
Proof.
  intros Hm Hd.
  assert (Hcases : m = 1 \/ m = 2 \/ m = 3 \/ m = 4 \/ m = 5 \/ m = 6 \/ m = 7
                   \/ m = 8 \/ m = 9 \/ m = 10 \/ m = 11 \/ m = 12) by lia.
  clear Hm.
  repeat (destruct Hcases as [-> | Hcases]); try subst m; destruct leap;
    (match type of Hd with _ <= _ <= ?c => ceval c end);
    ceval_tables;
    unfold locate_month; rewrite Z.shiftr_div_pow2 by lia; change (2 ^ 5) with 32;
    match goal with
    | |- context [(?k + 50) / 32] =>
        let q := fresh "q" in
        remember ((k + 50) / 32) as q eqn:Hq;
        assert (Hqq : q = 1 \/ q = 2 \/ q = 3 \/ q = 4 \/ q = 5 \/ q = 6 \/ q = 7
                   \/ q = 8 \/ q = 9 \/ q = 10 \/ q = 11 \/ q = 12)
          by (subst q; Z.div_mod_to_equations; lia);
        repeat (destruct Hqq as [Hqq | Hqq]);
        try (exfalso; subst q; Z.div_mod_to_equations; lia);
        clear Hq; subst q
    end;
    ceval_tables;
    match goal with
    | |- context [?x <? ?y] => destruct (Z.ltb_spec x y)
    end; try lia; cbv beta iota zeta; f_equal; lia.
Qed.

Lemma check_date_fields_valid y m d :
  check_date_fields y m d = true <-> valid_date y m d.
Proof.
  unfold check_date_fields, valid_date, MINYEAR, MAXYEAR.
  rewrite !andb_true_iff, !Z.leb_le. tauto.
Qed.

Lemma month_cases m :
  1 <= m <= 12 ->
  m = 1 \/ m = 2 \/ m = 3 \/ m = 4 \/ m = 5 \/ m = 6 \/ m = 7
  \/ m = 8 \/ m = 9 \/ m = 10 \/ m = 11 \/ m = 12.
Proof. lia. Qed.

(** The day of the year, from 0. *)
Lemma yday_bound leap m d :
  1 <= m <= 12 ->
  1 <= d <= (if (m =? 2) && leap then 29 else tbl DAYS_IN_MONTH m) ->
  let k := tbl DAYS_BEFORE_MONTH m + b2z ((2 <? m) && leap) + d - 1 in
  0 <= k <= 364 + b2z leap /\ (k = 365 -> m = 12 /\ d = 31).
Proof.
  intros Hm Hd k. subst k.
  destruct (month_cases m Hm) as
    [-> | [-> | [-> | [-> | [-> | [-> | [-> | [-> | [-> | [-> | [-> | ->]]]]]]]]]]];
    destruct leap;
    (match type of Hd with _ <= _ <= ?c => ceval c end);
    ceval_tables; lia.
Qed.

Lemma days_in_month_pos y m : 1 <= m <= 12 -> 28 <= days_in_month y m <= 31.
Proof.
  intros Hm. unfold days_in_month.
  destruct (month_cases m Hm) as
    [-> | [-> | [-> | [-> | [-> | [-> | [-> | [-> | [-> | [-> | [-> | ->]]]]]]]]]]];
    destruct (is_leap y); ceval_tables;
    match goal with |- _ <= ?c <= _ => ceval c end; lia.
Qed.

Lemma ord2ymd_ymd2ord y m d :
  1 <= y -> 1 <= m <= 12 -> 1 <= d <= days_in_month y m ->
  ord2ymd (ymd2ord y m d) = (y, m, d).
Proof.
  intros Hy Hm Hd.
  destruct (year_digits (y - 1)) as (a & b & c & e & Ha & Hb & Hc & He & HY); [lia|].
  assert (Ey : y = 400 * a + 100 * b + 4 * c + e + 1) by lia.
  clear HY. subst y.
  unfold ymd2ord, days_before_month, days_in_month in *.
  rewrite days_before_year_digits by assumption.
  rewrite is_leap_digits in * by assumption.
  set (leap := (e =? 3) && (negb (c =? 24) || (b =? 3))) in *.
  destruct (yday_bound leap m d Hm Hd) as [Hk Hlast].
  set (k := tbl DAYS_BEFORE_MONTH m + b2z ((2 <? m) && leap) + d - 1) in *.
  replace (146097 * a + 36524 * b + 1461 * c + 365 * e
           + (tbl DAYS_BEFORE_MONTH m + b2z ((2 <? m) && leap)) + d)
    with (146097 * a + 36524 * b + 1461 * c + 365 * e + k + 1) by (subst k; lia).
  destruct (Z.eq_dec k 365) as [E | NE].
  - destruct (Hlast E) as [-> ->].
    assert (Hleap : leap = true) by (destruct leap; [reflexivity | cbn in Hk; lia]).
    unfold leap in Hleap. apply andb_prop in Hleap. destruct Hleap as [He3 Hcb].
    apply Z.eqb_eq in He3. subst e. rewrite E.
    apply ord2ymd_digits_last; try assumption.
    apply orb_prop in Hcb. destruct Hcb as [Hcb | Hcb].
    + left. now apply negb_true_iff.
    + right. now apply Z.eqb_eq.
  - rewrite ord2ymd_digits; try assumption.
    + fold leap. unfold k. rewrite locate_month_spec by assumption. reflexivity.
    + destruct leap; cbn in Hk; lia.
Qed.

Lemma div_step k y :
  0 < k -> y / k - (y - 1) / k = b2z (y mod k =? 0).
Proof.
  intros Hk. destruct (Z.eqb_spec (y mod k) 0) as [E | NE]; cbn [b2z].
  - assert (y = k * (y / k)) by (rewrite (Z.div_mod y k) at 1; lia).
    assert (H1 : (y - 1) / k = y / k - 1).
    { symmetry. apply Z.div_unique with (k - 1); lia. }
    lia.
  - assert (H1 : (y - 1) / k = y / k).
    { symmetry. apply Z.div_unique with (y mod k - 1).
      - pose proof (Z.mod_pos_bound y k Hk). lia.
      - rewrite (Z.div_mod y k) at 1; lia. }
    lia.
Qed.

Lemma days_before_year_succ y :
  days_before_year (y + 1) = days_before_year y + 365 + b2z (is_leap y).
Proof.
  unfold days_before_year. cbv zeta.
  replace (y + 1 - 1) with y by lia.
  pose proof (div_step 4 y ltac:(lia)) as H4.
  pose proof (div_step 100 y ltac:(lia)) as H100.
  pose proof (div_step 400 y ltac:(lia)) as H400.
  assert (Hb : b2z (is_leap y)
               = b2z (y mod 4 =? 0) - b2z (y mod 100 =? 0) + b2z (y mod 400 =? 0)).
  { unfold is_leap.
    destruct (Z.eqb_spec (y mod 4) 0), (Z.eqb_spec (y mod 100) 0),
      (Z.eqb_spec (y mod 400) 0); cbn; try reflexivity;
      exfalso; Z.div_mod_to_equations; lia. }
  lia.
Qed.

Lemma days_before_month_step y m :
  2 <= m <= 12 ->
  days_before_month y (m - 1) + days_in_month y (m - 1) = days_before_month y m.
Proof.
  intros Hm. unfold days_before_month, days_in_month.
  assert (Hc : m = 2 \/ m = 3 \/ m = 4 \/ m = 5 \/ m = 6 \/ m = 7
               \/ m = 8 \/ m = 9 \/ m = 10 \/ m = 11 \/ m = 12) by lia.
  destruct Hc as [-> | [-> | [-> | [-> | [-> | [-> | [-> | [-> | [-> | [-> | ->]]]]]]]]]];
    destruct (is_leap y); reflexivity.
Qed.

Lemma ymd2ord_day_before y m d :
  1 <= m <= 12 -> 1 <= d ->
  let '(y', m', d') := day_before y m d in
  ymd2ord y' m' d' = ymd2ord y m d - 1.
Proof.
  intros Hm Hd. unfold day_before.
  destruct (Z.ltb_spec 1 d) as [H1 | H1].
  - unfold ymd2ord. lia.
  - destruct (Z.ltb_spec 1 m) as [H2 | H2].
    + unfold ymd2ord. pose proof (days_before_month_step y m ltac:(lia)). lia.
    + assert (m = 1) by lia. assert (d = 1) by lia. subst m d.
      unfold ymd2ord.
      pose proof (days_before_year_succ (y - 1)) as Hs.
      replace (y - 1 + 1) with y in Hs by lia.
      unfold days_before_month.
      change (tbl DAYS_BEFORE_MONTH 12) with 334.
      change (tbl DAYS_BEFORE_MONTH 1) with 0.
      change (2 <? 12) with true. change (2 <? 1) with false.
      cbn [andb b2z]. destruct (is_leap (y - 1)); cbn [b2z] in *; lia.
Qed.

Lemma day_before_valid y m d :
  valid_date y m d -> (y, m, d) <> (1, 1, 1) ->
  let '(y', m', d') := day_before y m d in valid_date y' m' d'.
Proof.
  unfold valid_date, day_before. intros (Hy & Hm & Hd) Hne.
  destruct (Z.ltb_spec 1 d) as [H1 | H1]; [lia|].
  destruct (Z.ltb_spec 1 m) as [H2 | H2].
  - pose proof (days_in_month_pos y (m - 1) ltac:(lia)). lia.
  - assert (y <> 1) by (intros ->; apply Hne; f_equal; [f_equal|]; lia).
    change (days_in_month (y - 1) 12) with
      (if (12 =? 2) && is_leap (y - 1) then 29 else 31).
    cbn [Z.eqb Pos.eqb andb]. lia.
Qed.

Lemma days_before_year_nonneg y : 1 <= y -> 0 <= days_before_year y.
Proof.
  intros Hy. unfold days_before_year. cbv zeta.
  destruct (year_digits (y - 1)) as (a & b & c & e & Ha & Hb & Hc & He & HY); [lia|].
  pose proof (days_before_year_digits a b c e Ha Hb Hc He) as H.
  unfold days_before_year in H. cbv zeta in H.
  replace (400 * a + 100 * b + 4 * c + e + 1 - 1) with (y - 1) in H by lia.
  lia.
Qed.

Lemma days_before_year_max y : 1 <= y <= 9999 -> days_before_year (y + 1) <= MAXORDINAL.
Proof.
  intros Hy.
  destruct (year_digits y) as (a & b & c & e & Ha & Hb & Hc & He & HY); [lia|].
  pose proof (days_before_year_digits a b c e Ha Hb Hc He) as H.
  rewrite <- HY in H. rewrite H. unfold MAXORDINAL. lia.
Qed.

Lemma ymd2ord_bounds y m d :
  valid_date y m d -> 1 <= ymd2ord y m d <= MAXORDINAL.
Proof.
  intros (Hy & Hm & Hd).
  pose proof (days_before_year_nonneg y ltac:(lia)).
  pose proof (days_before_year_max y Hy) as Hmax.
  rewrite days_before_year_succ in Hmax.
  unfold ymd2ord, days_before_month. unfold days_in_month in Hd.
  destruct (yday_bound (is_leap y) m d Hm Hd) as [Hk _]. lia.
Qed.

Lemma ymd2ord_one y m d :
  valid_date y m d -> ymd2ord y m d = 1 -> (y, m, d) = (1, 1, 1).
Proof.
  intros Hv H1.
  rewrite <- (ord2ymd_ymd2ord y m d) by (unfold valid_date in Hv; lia).
  rewrite H1. reflexivity.
Qed.

Lemma sub_days_one dt :
  valid dt -> date_of dt <> (1, 1, 1) ->
  sub_days dt 1 = Ok (with_date dt (day_before (year dt) (month dt) (day dt))).
Proof.
  intros Hv Hne. unfold sub_days, toordinal.
  pose proof (ymd2ord_bounds _ _ _ Hv) as Hb.
  assert (Hn1 : ymd2ord (year dt) (month dt) (day dt) <> 1)
    by (intros E; apply Hne; now apply ymd2ord_one).
  destruct (Z.ltb_spec 0 (ymd2ord (year dt) (month dt) (day dt) - 1)); [|lia].
  destruct (Z.leb_spec (ymd2ord (year dt) (month dt) (day dt) - 1) MAXORDINAL); [|lia].
  cbn [andb].
  pose proof (ymd2ord_day_before (year dt) (month dt) (day dt)) as Hp.
  pose proof (day_before_valid _ _ _ Hv Hne) as Hv'.
  destruct (day_before (year dt) (month dt) (day dt)) as [[y' m'] d'].
  rewrite <- Hp by (unfold valid, valid_date in Hv; lia).
  rewrite ord2ymd_ymd2ord by (unfold valid_date in Hv'; lia).
  reflexivity.
Qed.

Lemma sub_days_one_overflow dt :
  date_of dt = (1, 1, 1) -> sub_days dt 1 = Raise (OverflowError "date value out of range").
Proof.
  unfold date_of, sub_days, toordinal. intros E. injection E as -> -> ->. reflexivity.
Qed.

Lemma fromisoformat_valid s dt : fromisoformat s = Ok dt -> valid dt.
Proof.
  unfold fromisoformat, valid.
  repeat match goal with
         | |- context [match ?x with _ => _ end] =>
             match x with
             | negb ?b => destruct b eqn:?; cbn [negb]
             | _ => destruct x eqn:?
             end
         | |- context [if ?x then _ else _] => destruct x eqn:?
         end;
    intros H; try discriminate; injection H as <-; cbn [year month day];
    now apply check_date_fields_valid.
Qed.

Lemma sub_days_valid dt fx :
  valid dt -> sub_days dt 1 = Ok fx ->
  fx = with_date dt (day_before (year dt) (month dt) (day dt)) /\ valid fx
  /\ date_of dt <> (1, 1, 1).
Proof.
  intros Hv H.
  assert (Hne : date_of dt <> (1, 1, 1)).
  { intros E. rewrite (sub_days_one_overflow dt E) in H. discriminate. }
  rewrite (sub_days_one dt Hv Hne) in H. injection H as <-.
  split; [reflexivity|]. split; [|assumption].
  pose proof (day_before_valid _ _ _ Hv Hne) as Hv'.
  unfold valid, with_date.
  destruct (day_before (year dt) (month dt) (day dt)) as [[y m] d]. exact Hv'.
Qed.

Lemma weekday_range dt : 0 <= weekday dt < 7.
Proof. unfold weekday. apply Z.mod_pos_bound. lia. Qed.

Lemma weekend_not_first dt :
  5 <= weekday dt -> date_of dt <> (1, 1, 1).
Proof.
  unfold weekday, toordinal, date_of. intros H E. injection E as E1 E2 E3.
  rewrite E1, E2, E3 in H. vm_compute in H. apply H. reflexivity.
Qed.

End DatetimeFacts.

(** ** The date resolvers *)

Module ResolverFacts.
Import Datetime DatetimeFacts StrFacts.

Lemma resolvers_agree (event : Json.value) :
  Transform.get_run_date event = Analysis.get_run_date event
  /\ Ingest.get_run_date event = rmap drop_dt (Transform.get_run_date event).
Proof.
  split; [reflexivity|].
  unfold Ingest.get_run_date, Transform.get_run_date.
  destruct (Json.getitem event "run_date") as [raw| |]; try reflexivity.
  cbn [rbind rmap].
  destruct (Json.replace raw "Z" "+00:00") as [iso| |]; try reflexivity.
  cbn [rbind].
  destruct (fromisoformat iso) as [dt| |]; try reflexivity.
  cbn [rbind].
  destruct (sub_days dt 1) as [fx| |]; reflexivity.
Qed.

Lemma ymd_strings_padded y m d :
  valid_date y m d -> well_padded (y, m, d) (ymd_strings (y, m, d)).
Proof.
  intros (Hy & Hm & Hd).
  pose proof (days_in_month_pos y m Hm).
  unfold well_padded, ymd_strings, padded.
  repeat split; apply format_0d_spec; try lia.
  all: match goal with
       | |- _ <= _ < 10 ^ ?k =>
           let v := eval vm_compute in (10 ^ k) in change (10 ^ k) with v
       end; lia.
Qed.

Lemma resolve_business_date event s dt :
  Json.getitem event "run_date" = Ok (Json.JStr s) ->
  fromisoformat (Str.replace_char "Z" "+00:00" s) = Ok dt ->
  date_of dt <> (1, 1, 1) ->
  let b := day_before (year dt) (month dt) (day dt) in
  Analysis.get_run_date event = Ok (ymd_strings b, with_date dt b)
  /\ valid (with_date dt b) /\ date_of (with_date dt b) = b.
Proof.
  intros Hev Hparse Hne b.
  pose proof (fromisoformat_valid _ _ Hparse) as Hv.
  pose proof (day_before_valid _ _ _ Hv Hne) as Hvb.
  unfold Analysis.get_run_date. rewrite Hev. cbn [rbind Json.replace].
  rewrite Hparse. cbn [rbind]. rewrite (sub_days_one dt Hv Hne). cbn [rbind].
  fold b. subst b. destruct (day_before (year dt) (month dt) (day dt)) as [[y m] d].
  cbn. repeat split; apply Hvb.
Qed.

(** Whatever a resolver returns is a valid date, formatted. *)
Lemma get_run_date_valid event y m d fx_dt :
  Analysis.get_run_date event = Ok (y, m, d, fx_dt) ->
  valid fx_dt /\ (y, m, d) = ymd_strings (date_of fx_dt).
Proof.
  unfold Analysis.get_run_date.
  destruct (Json.getitem event "run_date") as [raw| |]; try discriminate.
  cbn [rbind].
  destruct (Json.replace raw "Z" "+00:00") as [iso| |]; try discriminate.
  cbn [rbind].
  destruct (fromisoformat iso) as [dt| |] eqn:Hparse; try discriminate.
  cbn [rbind].
  destruct (sub_days dt 1) as [fx| |] eqn:Hsub; try discriminate.
  cbn [rbind]. intros H. injection H as <- <- <- <-.
  destruct (sub_days_valid dt fx (fromisoformat_valid _ _ Hparse) Hsub) as (_ & Hv & _).
  split; [assumption | reflexivity].
Qed.

(** What a resolver returns comes from a run_date that parses, moved
    one calendar day back. *)
Lemma get_run_date_parsed event y m d fx_dt :
  Analysis.get_run_date event = Ok (y, m, d, fx_dt) ->
  exists s dt,
    Json.getitem event "run_date" = Ok (Json.JStr s)
    /\ fromisoformat (Str.replace_char "Z" "+00:00" s) = Ok dt
    /\ date_of fx_dt = day_before (year dt) (month dt) (day dt).
Proof.
  unfold Analysis.get_run_date.
  destruct (Json.getitem event "run_date") as [raw| |]; try discriminate.
  cbn [rbind].
  destruct raw as [| | | |s| |]; try discriminate.
  cbn [Json.replace rbind].
  destruct (fromisoformat (Str.replace_char "Z" "+00:00" s)) as [dt| |] eqn:Hparse;
    try discriminate.
  cbn [rbind].
  destruct (sub_days dt 1) as [fx| |] eqn:Hsub; try discriminate.
  cbn [rbind]. intros H. injection H as <- <- <- <-.
  destruct (sub_days_valid dt fx (fromisoformat_valid _ _ Hparse) Hsub) as (-> & _ & _).
  exists s, dt. split; [reflexivity|]. split; [exact Hparse|].
  unfold date_of, with_date.
  now destruct (day_before (year dt) (month dt) (day dt)) as [[y' m'] d'].
Qed.

End ResolverFacts.

(** ** The shared date convention (C1, C4) *)

Section Resolvers.
Import Datetime DatetimeFacts StrFacts ResolverFacts.

(** C1: on every event the three resolvers return the same outcome
    and the two raw-key builders the same key, raw/year=Y/month=M/day=D/rates.json.
    Whenever a resolver returns, run_date was a string that parses, the
    date returned is the calendar day before the date written in it,
    and the three strings are its year, month and day in exactly 4, 2
    and 2 digits, each reading back as the number; so all three jobs
    address the same partition. On a run_date that parses and is dated
    after 0001-01-01 all three do return. *)
Theorem C1_resolvers_agree (event : Json.value) :
  Transform.get_run_date event = Analysis.get_run_date event
  /\ Ingest.get_run_date event = rmap drop_dt (Transform.get_run_date event)
  /\ Ingest.get_run_date event = rmap drop_dt (Analysis.get_run_date event)
  /\ (forall year month day,
        Ingest.build_s3_key year month day = Transform.build_s3_key year month day
        /\ Transform.build_s3_key year month day
           = "raw/year=" ++ year ++ "/month=" ++ month ++ "/day=" ++ day ++ "/rates.json")
  /\ (forall y m d fx_dt,
        Transform.get_run_date event = Ok (y, m, d, fx_dt) ->
        Analysis.get_run_date event = Ok (y, m, d, fx_dt)
        /\ Ingest.get_run_date event = Ok (y, m, d)
        /\ (exists s dt,
              Json.getitem event "run_date" = Ok (Json.JStr s)
              /\ fromisoformat (Str.replace_char "Z" "+00:00" s) = Ok dt
              /\ date_of fx_dt = day_before (year dt) (month dt) (day dt))
        /\ (y, m, d) = ymd_strings (date_of fx_dt)
        /\ well_padded (date_of fx_dt) (y, m, d)
        /\ Ingest.build_s3_key y m d = Transform.build_s3_key y m d)
  /\ (forall s dt,
        Json.getitem event "run_date" = Ok (Json.JStr s) ->
        fromisoformat (Str.replace_char "Z" "+00:00" s) = Ok dt ->
        date_of dt <> (1, 1, 1) ->
        exists y m d fx_dt,
          Ingest.get_run_date event = Ok (y, m, d)
          /\ Transform.get_run_date event = Ok (y, m, d, fx_dt)
          /\ Analysis.get_run_date event = Ok (y, m, d, fx_dt)).
Proof.
  destruct (resolvers_agree event) as [HTA HIT].
  split; [exact HTA|]. split; [exact HIT|].
  split; [rewrite <- HTA; exact HIT|].
  split; [intros; split; reflexivity|].
  split.
  - intros y m d fx_dt Hrun.
    split; [rewrite <- HTA; exact Hrun|].
    split; [rewrite HIT, Hrun; reflexivity|].
    rewrite HTA in Hrun.
    destruct (get_run_date_valid _ _ _ _ _ Hrun) as [Hv Hs].
    split; [exact (get_run_date_parsed _ _ _ _ _ Hrun)|].
    split; [exact Hs|].
    split; [|reflexivity].
    rewrite Hs. unfold date_of. now apply ymd_strings_padded.
  - intros s dt Hev Hparse Hne.
    destruct (resolve_business_date event s dt Hev Hparse Hne) as (Hrun & _).
    cbv zeta in Hrun.
    destruct (ymd_strings (day_before (year dt) (month dt) (day dt))) as [[y m] d].
    exists y, m, d, (with_date dt (day_before (year dt) (month dt) (day dt))).
    rewrite HIT, HTA, Hrun. repeat split; reflexivity.
Qed.

(** C4 (amended): for a run_date that parses and is dated after
    0001-01-01, whatever its time of day and offset, the business date
    is the calendar day before the date written in run_date, in all
    three jobs; when run_date is dated after 0001-01-02 as well, the
    prior business date is the calendar day before the business date.
    Year, month and day come in 4, 2 and 2 digits. *)
Theorem C4_business_dates (event : Json.value) (s : string) (dt : datetime) :
  Json.getitem event "run_date" = Ok (Json.JStr s) ->
  fromisoformat (Str.replace_char "Z" "+00:00" s) = Ok dt ->
  date_of dt <> (1, 1, 1) ->
  let business := day_before (year dt) (month dt) (day dt) in
  let prior :=
    let '(y, m, d) := business in day_before y m d in
  let fx_dt := with_date dt business in
  Analysis.get_run_date event = Ok (ymd_strings business, fx_dt)
  /\ Transform.get_run_date event = Ok (ymd_strings business, fx_dt)
  /\ Ingest.get_run_date event = Ok (ymd_strings business)
  /\ well_padded business (ymd_strings business)
  /\ (date_of dt <> (1, 1, 2) ->
      Analysis.get_yesterdays_date fx_dt = Ok (ymd_strings prior)
      /\ well_padded prior (ymd_strings prior)).
Proof.
  intros Hev Hparse Hne1 business prior fx_dt.
  destruct (resolve_business_date event s dt Hev Hparse Hne1) as (Hrun & Hvfx & Hdate).
  fold business in Hrun, Hvfx, Hdate. fold fx_dt in Hrun, Hvfx, Hdate.
  destruct (resolvers_agree event) as (HTA & HIT).
  rewrite HIT, HTA, Hrun. cbn [rmap rbind].
  split; [reflexivity|]. split; [reflexivity|]. split; [|split].
  - unfold drop_dt. destruct (ymd_strings business) as [[? ?] ?]. reflexivity.
  - unfold valid in Hvfx. unfold date_of in Hdate. rewrite <- Hdate.
    now apply ymd_strings_padded.
  - intros Hne2.
    assert (Hb1 : date_of fx_dt <> (1, 1, 1)).
    { rewrite Hdate. subst business. unfold day_before, date_of in *.
      pose proof (fromisoformat_valid _ _ Hparse) as (Hy & Hm & Hd).
      pose proof (days_in_month_pos (year dt) (month dt - 1)).
      destruct (Z.ltb_spec 1 (day dt)).
      - intros E. injection E as E1 E2 E3. apply Hne2. f_equal; [f_equal|]; lia.
      - destruct (Z.ltb_spec 1 (month dt)); intros E; injection E as E1 E2 E3; lia. }
    unfold Analysis.get_yesterdays_date.
    rewrite (sub_days_one fx_dt Hvfx Hb1). cbn [rbind].
    pose proof (day_before_valid _ _ _ Hvfx Hb1) as Hvp.
    unfold date_of in Hdate. subst prior. rewrite <- Hdate.
    destruct (day_before (year fx_dt) (month fx_dt) (day fx_dt)) as [[y m] d].
    split; [reflexivity | now apply ymd_strings_padded].
Qed.

End Resolvers.

(** ** Validation and the Transform fan-out (C2, C8, C9, C10) *)

Section Pipeline.
Import Datetime DatetimeFacts StrFacts ResolverFacts.

(** The loops of the validators, on a dict. *)
Lemma check_fields_dict (fields : list string) (mk : string -> string) entries :
  for_each fields (fun field =>
    rbind (Json.contains (Json.JObj entries) field) (fun present =>
      if negb present then Raise (ValueError (mk field)) else Ok tt))
  = match first_missing fields entries with
    | Some field => Raise (ValueError (mk field))
    | None => Ok tt
    end.
Proof.
  unfold first_missing.
  induction fields as [|f fields IH]; [reflexivity|].
  cbn [for_each find Json.contains rbind].
  destruct (negb (Json.has_key f entries)); [reflexivity|].
  cbn [rbind]. exact IH.
Qed.

Lemma check_quotes_dict (codes : list string) entries quotes :
  Json.lookup "quotes" entries = Some (Json.JObj quotes) ->
  for_each codes (fun currency =>
    rbind (Json.getitem (Json.JObj entries) "quotes") (fun qs =>
      rbind (Json.contains qs currency) (fun present =>
        if negb present then Raise (ValueError ("Missing FX quote for: " ++ currency))
        else Ok tt)))
  = match first_missing codes quotes with
    | Some currency => Raise (ValueError ("Missing FX quote for: " ++ currency))
    | None => Ok tt
    end.
Proof.
  intros Hq. unfold first_missing.
  induction codes as [|c codes IH]; [reflexivity|].
  cbn [for_each find Json.getitem]. rewrite Hq. cbn [rbind Json.contains].
  destruct (negb (Json.has_key c quotes)); [reflexivity|].
  cbn [rbind]. cbn [Json.getitem] in IH. rewrite Hq in IH. exact IH.
Qed.

(** Transform's validator is the first loop of Ingest's. *)
Lemma ingest_validate_split BASE TARGETS data :
  Ingest.validate_fx_data BASE TARGETS data
  = rbind (Transform.validate_fx_data data) (fun _ =>
      for_each (Ingest.TARGET_CURRENCY_CODES BASE TARGETS) (fun currency =>
        rbind (Json.getitem data "quotes") (fun quotes =>
          rbind (Json.contains quotes currency) (fun present =>
            if negb present
            then Raise (ValueError ("Missing FX quote for: " ++ currency))
            else Ok tt)))).
Proof. reflexivity. Qed.

Lemma first_missing_none keys entries :
  first_missing keys entries = None <-> forall k, In k keys -> Json.has_key k entries = true.
Proof.
  unfold first_missing. split.
  - intros H k Hk. pose proof (find_none _ _ H k Hk) as Hn. cbn in Hn.
    now apply negb_false_iff.
  - intros H. induction keys as [|k keys IH]; [reflexivity|].
    cbn [find]. rewrite (H k) by now left. cbn [negb]. apply IH.
    intros k' Hk'. apply H. now right.
Qed.

(** C2 (amended): Transform's validator accepts whatever Ingest's
    accepts, and when it fails Ingest's fails with the same error; on a
    dict it fails exactly when one of timestamp, source, quotes is
    absent. It has no check of the target pair codes. *)
Theorem C2_transform_validates_fields BASE TARGETS (data : Json.value) :
  (Ingest.validate_fx_data BASE TARGETS data = Ok tt ->
   Transform.validate_fx_data data = Ok tt)
  /\ (forall e, Transform.validate_fx_data data = Raise e ->
                Ingest.validate_fx_data BASE TARGETS data = Raise e)
  /\ (forall entries, data = Json.JObj entries ->
        (Transform.validate_fx_data data = Ok tt
         <-> Json.has_key "timestamp" entries = true
             /\ Json.has_key "source" entries = true
             /\ Json.has_key "quotes" entries = true)).
Proof.
  rewrite ingest_validate_split. split; [|split].
  - destruct (Transform.validate_fx_data data) as [[]| |]; cbn [rbind];
      [reflexivity | discriminate | discriminate].
  - intros e He. now rewrite He.
  - intros entries ->. unfold Transform.validate_fx_data.
    rewrite (check_fields_dict _ (fun field => "Missing required field: " ++ field)).
    destruct (first_missing Transform.required_fields entries) eqn:E.
    + split; [discriminate|]. intros (H1 & H2 & H3).
      assert (E' : first_missing Transform.required_fields entries = None).
      { apply first_missing_none. intros k [<- | [<- | [<- | []]]]; assumption. }
      congruence.
    + split; [|reflexivity]. intros _.
      pose proof (proj1 (first_missing_none _ _) E) as H.
      repeat split; apply H; cbn; auto.
Qed.

Lemma writes_app t1 t2 : writes (t1 ++ t2) = (writes t1 ++ writes t2)%list.
Proof. apply filter_app. Qed.

Lemma writes_records bucket y m d fx entries :
  writes (map (record_written bucket y m d fx) entries)
  = map (record_written bucket y m d fx) entries.
Proof. induction entries; cbn; [reflexivity | now f_equal]. Qed.

Lemma write_all_spec bucket y m d fx entries :
  forall acc w,
    Transform.write_all bucket entries y m d fx acc w
    = (Ok (acc ++ map (key_written y m d) entries)%list,
       mk_world (rev (map (object_written bucket y m d fx) entries) ++ objects w)
         (started w) (polled w)
         (trace w ++ map (record_written bucket y m d fx) entries)).
Proof.
  induction entries as [|[p r] entries IH]; intros acc w.
  - cbn. rewrite !app_nil_r. now destruct w.
  - cbn [Transform.write_all]. unfold bind at 1. unfold s3_put_object at 1.
    rewrite IH. cbn [objects started polled trace map rev].
    rewrite <- !app_assoc. reflexivity.
Qed.

Lemma normalize_and_write_spec bucket data quotes y m d fx w :
  Json.getitem data "quotes" = Ok (Json.JObj quotes) ->
  Transform.normalize_and_write bucket data y m d fx w
  = (Ok (map (key_written y m d) quotes),
     mk_world (rev (map (object_written bucket y m d fx) quotes) ++ objects w)
       (started w) (polled w)
       (trace w ++ map (record_written bucket y m d fx) quotes)).
Proof.
  intros Hq. unfold Transform.normalize_and_write, bind, lift. rewrite Hq.
  cbn [Json.items]. now rewrite write_all_spec.
Qed.

Lemma raw_key_prefix y m d : Str.startswith "raw/" (Transform.build_s3_key y m d) = true.
Proof. reflexivity. Qed.

Lemma transform_after_guard bucket event w y m d fx :
  Transform.get_run_date event = Ok (y, m, d, fx) ->
  Transform.lambda_handler bucket event w
  = bind (Transform.read_raw_object bucket (Transform.build_s3_key y m d)) (fun data =>
    bind (lift (Transform.validate_fx_data data)) (fun _ =>
    bind (Transform.normalize_and_write bucket data y m d fx) (fun output_keys =>
    ret (Transform.Written 200 output_keys)))) w.
Proof.
  intros Hrun. unfold Transform.lambda_handler.
  unfold bind at 1. unfold lift at 1. rewrite Hrun.
  rewrite raw_key_prefix. reflexivity.
Qed.

(** C9: on a validated payload Transform writes one record per entry
    of quotes, in order, each with the entry's pair and rate, the
    business date as YYYY-MM-DD and market_open = (weekday < 5), under
    the key processed/pair=P/year=Y/month=M/day=D/data.json, and
    returns the keys it wrote. *)
Theorem C9_one_record_per_quote bucket event w y m d fx entries quotes :
  Transform.get_run_date event = Ok (y, m, d, fx) ->
  find_object (bucket, Transform.build_s3_key y m d) (objects w)
  = Some (Json.JObj entries) ->
  Transform.validate_fx_data (Json.JObj entries) = Ok tt ->
  Json.lookup "quotes" entries = Some (Json.JObj quotes) ->
  (exists w',
     Transform.lambda_handler bucket event w
     = (Ok (Transform.Written 200 (map (key_written y m d) quotes)), w')
     /\ writes (trace w')
        = (writes (trace w) ++ map (record_written bucket y m d fx) quotes)%list)
  /\ (forall w0,
        fst (Transform.normalize_and_write bucket (Json.JObj entries) y m d fx w0)
        = Ok (map (key_written y m d) quotes))
  /\ (forall p rate,
        record_written bucket y m d fx (p, rate)
        = S3Put bucket
            ("processed/pair=" ++ p ++ "/year=" ++ y ++ "/month=" ++ m
             ++ "/day=" ++ d ++ "/data.json")
            (Json.JObj
               [("pair", Json.JStr p);
                ("rate", rate);
                ("date", Json.JStr (Str.format_0d 4 (year fx) ++ "-"
                                    ++ Str.format_0d 2 (month fx) ++ "-"
                                    ++ Str.format_0d 2 (day fx)));
                ("market_open", Json.JBool (weekday fx <? 5))])).
Proof.
  intros Hrun Hobj Hval Hq.
  assert (Hget : Json.getitem (Json.JObj entries) "quotes" = Ok (Json.JObj quotes))
    by (cbn; now rewrite Hq).
  split; [|split].
  - rewrite (transform_after_guard bucket event w y m d fx Hrun).
    unfold bind at 1. unfold Transform.read_raw_object, s3_get_object.
    rewrite Hobj. unfold bind at 1. unfold lift at 1. rewrite Hval.
    unfold bind at 1.
    rewrite (normalize_and_write_spec bucket _ quotes) by exact Hget.
    eexists. split; [reflexivity|]. cbn [trace].
    rewrite !writes_app, writes_records. cbn. now rewrite app_nil_r.
  - intros w0. now rewrite (normalize_and_write_spec bucket _ quotes) by exact Hget.
  - intros p rate.
    assert (Hs : (y, m, d) = ymd_strings (date_of fx)).
    { rewrite (proj1 (resolvers_agree event)) in Hrun.
      now destruct (get_run_date_valid _ _ _ _ _ Hrun). }
    unfold ymd_strings, date_of in Hs. injection Hs as -> -> ->. reflexivity.
Qed.

Lemma transform_tail bucket data y m d fx w1 :
  exists r w2 rest,
    bind (lift (Transform.validate_fx_data data)) (fun _ =>
    bind (Transform.normalize_and_write bucket data y m d fx) (fun output_keys =>
    ret (Transform.Written 200 output_keys))) w1 = (r, w2)
    /\ r <> Ok Transform.NoOp
    /\ trace w2 = (trace w1 ++ rest)%list.
Proof.
  unfold Transform.normalize_and_write, bind, lift, ret.
  destruct (Transform.validate_fx_data data) as [[]| |].
  - destruct (Json.getitem data "quotes") as [q| |].
    + destruct (Json.items q) as [qs| |].
      * rewrite write_all_spec. do 3 eexists.
        split; [reflexivity|]. split; [discriminate|]. reflexivity.
      * do 2 eexists. exists []. rewrite app_nil_r.
        split; [reflexivity|]. split; [discriminate|]. reflexivity.
      * do 2 eexists. exists []. rewrite app_nil_r.
        split; [reflexivity|]. split; [discriminate|]. reflexivity.
    + do 2 eexists. exists []. rewrite app_nil_r.
      split; [reflexivity|]. split; [discriminate|]. reflexivity.
    + do 2 eexists. exists []. rewrite app_nil_r.
      split; [reflexivity|]. split; [discriminate|]. reflexivity.
  - do 2 eexists. exists []. rewrite app_nil_r.
    split; [reflexivity|]. split; [discriminate|]. reflexivity.
  - do 2 eexists. exists []. rewrite app_nil_r.
    split; [reflexivity|]. split; [discriminate|]. reflexivity.
Qed.

(** C10: a key built by [build_s3_key] always starts with "raw/", so
    the handler never takes the no-op return; once the date is
    resolved its first call is the read of the raw object. *)
Theorem C10_guard_unreachable bucket event w :
  (forall y m d, Str.startswith "raw/" (Transform.build_s3_key y m d) = true)
  /\ fst (Transform.lambda_handler bucket event w) <> Ok Transform.NoOp
  /\ (forall y m d fx,
        Transform.get_run_date event = Ok (y, m, d, fx) ->
        exists rest,
          trace (snd (Transform.lambda_handler bucket event w))
          = (trace w ++ S3Get bucket (Transform.build_s3_key y m d) :: rest)%list).
Proof.
  split; [exact raw_key_prefix|].
  destruct (Transform.get_run_date event) as [[[[y m] d] fx]| |] eqn:Hrun.
  - assert (Hout : exists r w2 rest,
              Transform.lambda_handler bucket event w = (r, w2)
              /\ r <> Ok Transform.NoOp
              /\ trace w2
                 = (trace w ++ S3Get bucket (Transform.build_s3_key y m d) :: rest)%list).
    { rewrite (transform_after_guard bucket event w y m d fx Hrun).
      unfold bind at 1. unfold Transform.read_raw_object, s3_get_object.
      destruct (find_object _ (objects w)) as [data|].
      - match goal with
        | |- context [bind _ _ ?w1] =>
            destruct (transform_tail bucket data y m d fx w1)
              as (r & w2 & rest & E & Hr & Ht)
        end.
        rewrite E. exists r, w2, rest. split; [reflexivity|]. split; [exact Hr|].
        rewrite Ht. cbn [trace]. now rewrite <- app_assoc.
      - do 2 eexists. exists []. split; [reflexivity|]. split; [discriminate|].
        reflexivity. }
    destruct Hout as (r & w2 & rest & E & Hr & Ht). rewrite E. cbn [fst snd].
    split; [exact Hr|].
    intros y' m' d' fx' E'. injection E' as <- <- <- <-. now exists rest.
  - unfold Transform.lambda_handler, bind, lift. rewrite Hrun. cbn [fst].
    split; [discriminate | intros; discriminate].
  - unfold Transform.lambda_handler, bind, lift. rewrite Hrun. cbn [fst].
    split; [discriminate | intros; discriminate].
Qed.

Lemma ingest_validate_dict BASE TARGETS entries :
  match first_missing Ingest.required_fields entries with
  | Some field =>
      Ingest.validate_fx_data BASE TARGETS (Json.JObj entries)
      = Raise (ValueError ("Missing required field: " ++ field))
  | None =>
      forall quotes,
        Json.lookup "quotes" entries = Some (Json.JObj quotes) ->
        match first_missing (Ingest.TARGET_CURRENCY_CODES BASE TARGETS) quotes with
        | Some currency =>
            Ingest.validate_fx_data BASE TARGETS (Json.JObj entries)
            = Raise (ValueError ("Missing FX quote for: " ++ currency))
        | None => Ingest.validate_fx_data BASE TARGETS (Json.JObj entries) = Ok tt
        end
  end.
Proof.
  unfold Ingest.validate_fx_data.
  rewrite (check_fields_dict _ (fun field => "Missing required field: " ++ field)).
  destruct (first_missing Ingest.required_fields entries) as [field|]; [reflexivity|].
  intros quotes Hq. cbn [rbind]. rewrite (check_quotes_dict _ entries quotes Hq).
  now destruct (first_missing _ quotes).
Qed.

(** The handler when the provider answered and validation failed. *)
Lemma ingest_rejects BUCKET BASE TARGETS URL svc event w api_key data e :
  ssm_parameter svc "/fx/api/access_key" = Ok api_key ->
  fx_api svc URL [("access_key", api_key); ("source", BASE);
                  ("currencies", String.concat "," TARGETS)]
  = Ok (mk_response 200 (Ok data)) ->
  Ingest.validate_fx_data BASE TARGETS data = Raise e ->
  exists w',
    Ingest.lambda_handler BUCKET BASE TARGETS URL svc event w = (Raise e, w')
    /\ objects w' = objects w
    /\ writes (trace w') = writes (trace w).
Proof.
  intros Hkey Hfx Hval.
  unfold Ingest.lambda_handler, try_except, Ingest.get_api_key, Ingest.fetch_fx_rates,
    Ingest.urlopen, bind, lift, emit, ret.
  rewrite Hkey. cbn [trace objects started polled]. rewrite Hfx.
  cbn [status body]. change ((200 <=? 200) && (200 <? 300)) with true.
  cbv beta iota. cbn [status body Z.eqb Pos.eqb negb]. rewrite Hval.
  eexists. split; [reflexivity|]. cbn [objects trace]. split; [reflexivity|].
  rewrite !writes_app. cbn. now rewrite !app_nil_r.
Qed.

(** C8: on a dict, Ingest's validator looks for timestamp, source,
    quotes in that order and then for each target pair code in quotes,
    and raises for the first one that is missing, naming it alone; with
    only quotes missing the message mentions quotes; and a run whose
    payload fails validation raises that error and writes nothing. *)
Theorem C8_first_violation_reported BUCKET BASE TARGETS URL svc entries :
  let data := Json.JObj entries in
  let validate := Ingest.validate_fx_data BASE TARGETS in
  match first_missing ["timestamp"; "source"; "quotes"] entries with
  | Some field => validate data = Raise (ValueError ("Missing required field: " ++ field))
  | None =>
      forall quotes,
        Json.lookup "quotes" entries = Some (Json.JObj quotes) ->
        match first_missing (Ingest.TARGET_CURRENCY_CODES BASE TARGETS) quotes with
        | Some currency =>
            validate data = Raise (ValueError ("Missing FX quote for: " ++ currency))
        | None => validate data = Ok tt
        end
  end
  /\ (Json.has_key "timestamp" entries = true ->
      Json.has_key "source" entries = true ->
      Json.has_key "quotes" entries = false ->
      exists e,
        validate data = Raise e
        /\ e = ValueError "Missing required field: quotes"
        /\ Str.contains "quotes" (exn_message e) = true)
  /\ (forall event w api_key e,
        ssm_parameter svc "/fx/api/access_key" = Ok api_key ->
        fx_api svc URL [("access_key", api_key); ("source", BASE);
                        ("currencies", String.concat "," TARGETS)]
        = Ok (mk_response 200 (Ok data)) ->
        validate data = Raise e ->
        exists w',
          Ingest.lambda_handler BUCKET BASE TARGETS URL svc event w = (Raise e, w')
          /\ objects w' = objects w
          /\ writes (trace w') = writes (trace w)).
Proof.
  intros data validate. subst data validate.
  pose proof (ingest_validate_dict BASE TARGETS entries) as Hv.
  change Ingest.required_fields with ["timestamp"; "source"; "quotes"] in Hv.
  split; [exact Hv|]. split.
  - intros Ht Hs Hq. unfold first_missing in Hv. cbn [find] in Hv.
    rewrite Ht, Hs, Hq in Hv. cbn [negb] in Hv.
    eexists. split; [exact Hv|]. split; reflexivity.
  - intros event w api_key e Hkey Hfx Hval.
    exact (ingest_rejects BUCKET BASE TARGETS URL svc event w api_key
             (Json.JObj entries) e Hkey Hfx Hval).
Qed.

End Pipeline.

(** ** The Analysis protocol (C3, C5, C6, C7) *)

Lemma metrics_app t1 t2 : metrics (t1 ++ t2) = (metrics t1 ++ metrics t2)%list.
Proof. apply filter_app. Qed.

Lemma errors_logged_app t1 t2 :
  errors_logged (t1 ++ t2) = (errors_logged t1 ++ errors_logged t2)%list.
Proof. apply flat_map_app. Qed.

Lemma is_terminal_iff status :
  Analysis.is_terminal status = true
  <-> status = "SUCCEEDED" \/ status = "FAILED" \/ status = "CANCELLED".
Proof.
  unfold Analysis.is_terminal. rewrite !orb_true_iff, !String.eqb_eq. tauto.
Qed.

Section AnalysisFacts.
Import Datetime DatetimeFacts StrFacts ResolverFacts.

Variables ATHENA_DATABASE ATHENA_OUTPUT ATHENA_TABLE ATHENA_WORKGROUP PAIR : string.
Variable svc : services.
Variable float_of_string : string -> option float.

Let wait_for_query := Analysis.wait_for_query svc.
Let start_query := Analysis.start_query ATHENA_DATABASE ATHENA_OUTPUT ATHENA_WORKGROUP.
Let get_single_value := Analysis.get_single_value svc float_of_string.
Let get_todays_rate :=
  Analysis.get_todays_rate ATHENA_DATABASE ATHENA_OUTPUT ATHENA_TABLE
    ATHENA_WORKGROUP PAIR svc float_of_string.
Let get_yesterdays_rate :=
  Analysis.get_yesterdays_rate ATHENA_DATABASE ATHENA_OUTPUT ATHENA_TABLE
    ATHENA_WORKGROUP PAIR svc float_of_string.
Let lambda_handler :=
  Analysis.lambda_handler ATHENA_DATABASE ATHENA_OUTPUT ATHENA_TABLE
    ATHENA_WORKGROUP PAIR svc float_of_string.

Lemma waiting_metrics qid k : metrics (Analysis.waiting qid k) = [].
Proof. induction k; [reflexivity | exact IHk]. Qed.

Lemma waiting_errors qid k : errors_logged (Analysis.waiting qid k) = [].
Proof. induction k; [reflexivity | exact IHk]. Qed.

(** What the polling loop does on a sequence that settles. *)
Lemma wait_for_query_settles qid k :
  forall fuel w st,
    Analysis.settles svc qid (polled w) k st -> (k < fuel)%nat ->
    wait_for_query fuel qid w
    = (Ok (State st),
       mk_world (objects w) (started w) (polled w + S k)
         (trace w ++ Analysis.waiting qid k ++ AthenaPoll qid
            :: (if String.eqb (State st) "SUCCEEDED" then []
                else [LogError ("Athena query failed: " ++ Analysis.reason_of st)]))).
Proof.
  induction k as [|k IH]; intros fuel w st (Hbefore & Hat & Hterm) Hfuel.
  - destruct fuel as [|fuel]; [lia|].
    rewrite Nat.add_0_r in Hat.
    unfold wait_for_query. cbn [Analysis.wait_for_query].
    unfold bind, Analysis.get_query_execution. rewrite Hat, Hterm.
    destruct (String.eqb (State st) "SUCCEEDED"); cbn;
      rewrite <- ?app_assoc; cbn; now rewrite Nat.add_1_r.
  - destruct fuel as [|fuel]; [lia|].
    unfold wait_for_query. cbn [Analysis.wait_for_query].
    unfold bind at 1. unfold Analysis.get_query_execution at 1.
    pose proof (Hbefore 0%nat ltac:(lia)) as H0. rewrite Nat.add_0_r in H0.
    rewrite H0. unfold bind at 1. unfold emit at 1.
    fold (Analysis.wait_for_query svc fuel qid). fold wait_for_query.
    rewrite (IH fuel _ st); cbn [objects started polled trace].
    + f_equal. f_equal; [lia|].
      rewrite <- !app_assoc. reflexivity.
    + repeat split; try assumption.
      * intros j Hj. specialize (Hbefore (S j) ltac:(lia)).
        now rewrite Nat.add_succ_r in Hbefore.
      * now rewrite Nat.add_succ_r in Hat.
    + lia.
Qed.

(** No query step publishes a metric, whatever the engine answers. *)
Lemma wait_for_query_metrics fuel qid :
  forall w, metrics (trace (snd (wait_for_query fuel qid w))) = metrics (trace w).
Proof.
  induction fuel as [|fuel IH]; intros w; [reflexivity|].
  unfold wait_for_query. cbn [Analysis.wait_for_query].
  unfold bind at 1. unfold Analysis.get_query_execution at 1.
  destruct (Analysis.is_terminal _).
  - destruct (negb _); cbn; rewrite !metrics_app; cbn; now rewrite ?app_nil_r.
  - unfold bind at 1. unfold emit at 1.
    fold (Analysis.wait_for_query svc fuel qid). fold wait_for_query.
    rewrite IH. cbn. rewrite !metrics_app. cbn. now rewrite !app_nil_r.
Qed.

Lemma get_single_value_metrics qid w :
  metrics (trace (snd (get_single_value qid w))) = metrics (trace w).
Proof.
  unfold get_single_value, Analysis.get_single_value, bind, emit, lift.
  cbn. destruct (Analysis.list_index _ 1); cbn; rewrite metrics_app; cbn;
    now rewrite app_nil_r.
Qed.

Ltac run_wait fuel qid w :=
  let r := fresh "r" in
  let w' := fresh "w" in
  let E := fresh "E" in
  let Hm := fresh "Hm" in
  pose proof (wait_for_query_metrics fuel qid w) as Hm;
  unfold wait_for_query in Hm;
  destruct (Analysis.wait_for_query svc fuel qid w) as [r w'] eqn:E;
  cbn [snd trace] in Hm.

Lemma get_todays_rate_metrics fuel y m d w :
  metrics (trace (snd (get_todays_rate fuel y m d w))) = metrics (trace w).
Proof.
  unfold get_todays_rate, Analysis.get_todays_rate.
  unfold bind at 1. unfold Analysis.start_query at 1. unfold bind at 1.
  match goal with
  | |- context [Analysis.wait_for_query svc fuel ?q ?w0] => run_wait fuel q w0
  end.
  rewrite metrics_app in Hm. cbn in Hm. rewrite app_nil_r in Hm.
  destruct r as [status| |]; cbn [snd trace]; try exact Hm.
  destruct (negb _); cbn [snd trace lift]; [exact Hm|].
  fold get_single_value. rewrite get_single_value_metrics. exact Hm.
Qed.

Lemma get_yesterdays_rate_metrics fuel y m d w :
  metrics (trace (snd (get_yesterdays_rate fuel y m d w))) = metrics (trace w).
Proof.
  unfold get_yesterdays_rate, Analysis.get_yesterdays_rate.
  unfold bind at 1. unfold Analysis.start_query at 1. unfold bind at 1.
  match goal with
  | |- context [Analysis.wait_for_query svc fuel ?q ?w0] => run_wait fuel q w0
  end.
  rewrite metrics_app in Hm. cbn in Hm. rewrite app_nil_r in Hm.
  destruct r as [status| |]; cbn [snd trace]; try exact Hm.
  destruct (negb _); cbn [snd trace lift]; [exact Hm|].
  fold get_single_value. rewrite get_single_value_metrics. exact Hm.
Qed.

Lemma failed_not_succeeded st :
  State st <> "SUCCEEDED" -> String.eqb (State st) "SUCCEEDED" = false.
Proof. intros H. now apply String.eqb_neq. Qed.

Lemma get_todays_rate_fails fuel y m d w k st :
  Analysis.settles svc (started w) (polled w) k st ->
  State st <> "SUCCEEDED" -> (k < fuel)%nat ->
  exists w',
    get_todays_rate fuel y m d w
    = (Raise (Exception "Athena query for todays rate failed"), w')
    /\ In ("Athena query failed: " ++ Analysis.reason_of st) (errors_logged (trace w')).
Proof.
  intros Hs Hne Hk.
  unfold get_todays_rate, Analysis.get_todays_rate.
  unfold bind at 1. unfold Analysis.start_query at 1. unfold bind at 1.
  fold wait_for_query.
  rewrite (wait_for_query_settles (started w) k fuel _ st) by assumption.
  rewrite (failed_not_succeeded st Hne). cbn [negb lift polled trace objects started].
  eexists. split; [reflexivity|].
  cbn [trace]. rewrite !errors_logged_app. cbn.
  rewrite waiting_errors. apply in_or_app. right. cbn. now left.
Qed.

Lemma get_yesterdays_rate_fails fuel y m d w k st :
  Analysis.settles svc (started w) (polled w) k st ->
  State st <> "SUCCEEDED" -> (k < fuel)%nat ->
  exists w',
    get_yesterdays_rate fuel y m d w
    = (Raise (Exception "Athena query for daily average failed"), w')
    /\ In ("Athena query failed: " ++ Analysis.reason_of st) (errors_logged (trace w')).
Proof.
  intros Hs Hne Hk.
  unfold get_yesterdays_rate, Analysis.get_yesterdays_rate.
  unfold bind at 1. unfold Analysis.start_query at 1. unfold bind at 1.
  fold wait_for_query.
  rewrite (wait_for_query_settles (started w) k fuel _ st) by assumption.
  rewrite (failed_not_succeeded st Hne). cbn [negb lift polled trace objects started].
  eexists. split; [reflexivity|].
  cbn [trace]. rewrite !errors_logged_app. cbn.
  rewrite waiting_errors. apply in_or_app. right. cbn. now left.
Qed.

(** The handler once the dates are resolved and the day is a trading
    day. *)
Lemma lambda_handler_trading_day fuel event w y m d fx_dt yp mp dp :
  Analysis.get_run_date event = Ok (y, m, d, fx_dt) ->
  Analysis.get_yesterdays_date fx_dt = Ok (yp, mp, dp) ->
  Analysis.is_weekend fx_dt = false ->
  lambda_handler fuel event w
  = bind (get_todays_rate fuel y m d) (fun todays_rate =>
    bind (get_yesterdays_rate fuel yp mp dp) (fun yesterdays_rate =>
    bind (lift (Analysis.float_div (PrimFloat.abs (todays_rate - yesterdays_rate))
                  yesterdays_rate)) (fun deviation =>
    bind (Analysis.publish_metric PAIR deviation) (fun _ =>
    ret (Analysis.Report PAIR todays_rate yesterdays_rate deviation))))) w.
Proof.
  intros Hrun Hprior Hwd.
  unfold lambda_handler, Analysis.lambda_handler.
  unfold bind at 1. unfold lift at 1. rewrite Hrun.
  unfold bind at 1. unfold lift at 1. rewrite Hprior. rewrite Hwd.
  reflexivity.
Qed.


Lemma ends_without_success_settles qid start k st :
  Analysis.ends_without_success svc qid start k st ->
  Analysis.settles svc qid start k st /\ State st <> "SUCCEEDED".
Proof.
  intros (Hbefore & Hat & Hend). split; [split; [|split]|].
  - intros j Hj. specialize (Hbefore j Hj). cbv zeta in Hbefore.
    destruct (Analysis.is_terminal _) eqn:E; [|reflexivity].
    apply is_terminal_iff in E. tauto.
  - exact Hat.
  - apply is_terminal_iff. tauto.
  - destruct Hend as [E | E]; rewrite E; discriminate.
Qed.

(** C3 (amended): when today's query ends FAILED or CANCELLED, after
    any number of polls, the handler raises [Exception] "Athena query
    for todays rate failed"; when today's rate was extracted and the
    prior date's query ends FAILED or CANCELLED it raises [Exception]
    "Athena query for daily average failed". Neither message depends
    on the engine's reason; the reason, or "Unknown" when the engine
    gave none, is written to the error log; no metric is published. *)
Theorem C3_failed_query_aborts fuel event w y m d fx_dt yp mp dp k st :
  Analysis.get_run_date event = Ok (y, m, d, fx_dt) ->
  Analysis.get_yesterdays_date fx_dt = Ok (yp, mp, dp) ->
  Analysis.is_weekend fx_dt = false ->
  (k < fuel)%nat ->
  let logged :=
    "Athena query failed: "
    ++ match StateChangeReason st with
       | Some reason => reason
       | None => "Unknown"
       end in
  (Analysis.ends_without_success svc (started w) (polled w) k st ->
   exists w',
     lambda_handler fuel event w
     = (Raise (Exception "Athena query for todays rate failed"), w')
     /\ In logged (errors_logged (trace w'))
     /\ metrics (trace w') = metrics (trace w))
  /\ (forall todays_rate w1,
        get_todays_rate fuel y m d w = (Ok todays_rate, w1) ->
        Analysis.ends_without_success svc (started w1) (polled w1) k st ->
        exists w',
          lambda_handler fuel event w
          = (Raise (Exception "Athena query for daily average failed"), w')
          /\ In logged (errors_logged (trace w'))
          /\ metrics (trace w') = metrics (trace w)).
Proof.
  intros Hrun Hprior Hwd Hk logged.
  rewrite (lambda_handler_trading_day fuel event w y m d fx_dt yp mp dp) by assumption.
  change logged with ("Athena query failed: " ++ Analysis.reason_of st).
  split.
  - intros Hend. destruct (ends_without_success_settles _ _ _ _ Hend) as [Hs Hne].
    destruct (get_todays_rate_fails fuel y m d w k st Hs Hne Hk) as (w' & E & Hlog).
    exists w'.
    pose proof (get_todays_rate_metrics fuel y m d w) as Hm.
    unfold bind at 1. rewrite E in *. cbn [snd] in Hm. auto.
  - intros t w1 Ht Hend.
    destruct (ends_without_success_settles _ _ _ _ Hend) as [Hs Hne].
    destruct (get_yesterdays_rate_fails fuel yp mp dp w1 k st Hs Hne Hk) as (w' & E & Hlog).
    exists w'.
    pose proof (get_todays_rate_metrics fuel y m d w) as Hm1.
    pose proof (get_yesterdays_rate_metrics fuel yp mp dp w1) as Hm2.
    unfold bind at 1. rewrite Ht in *. unfold bind at 1. rewrite E in *.
    cbn [snd] in Hm1, Hm2. repeat split; auto. congruence.
Qed.

(** C5: when the business date is a Saturday or a Sunday the handler
    returns status "skipped" with reason "weekend" and leaves the world
    as it found it: no query is started, polled or fetched, and no
    metric is published. *)
Theorem C5_weekend_skipped fuel event w y m d fx_dt :
  Analysis.get_run_date event = Ok (y, m, d, fx_dt) ->
  weekday fx_dt = 5 \/ weekday fx_dt = 6 ->
  lambda_handler fuel event w = (Ok (Analysis.Skipped "skipped" "weekend"), w)
  /\ queries (trace (snd (lambda_handler fuel event w))) = queries (trace w)
  /\ metrics (trace (snd (lambda_handler fuel event w))) = metrics (trace w).
Proof.
  intros Hrun Hwd.
  assert (Hgo : lambda_handler fuel event w
                = (Ok (Analysis.Skipped "skipped" "weekend"), w)).
  { destruct (get_run_date_valid _ _ _ _ _ Hrun) as [Hv _].
    assert (Hne : date_of fx_dt <> (1, 1, 1)) by (apply weekend_not_first; lia).
    unfold lambda_handler, Analysis.lambda_handler.
    unfold bind at 1. unfold lift at 1. rewrite Hrun.
    unfold bind at 1. unfold lift at 1. unfold Analysis.get_yesterdays_date.
    rewrite (sub_days_one fx_dt Hv Hne). cbn [rbind].
    destruct (with_date _ _). 
    unfold Analysis.is_weekend.
    destruct (Z.leb_spec 5 (weekday fx_dt)); [reflexivity | lia]. }
  rewrite Hgo. auto.
Qed.

(** C6: the value comes from row index 1, whatever row 0 and the rows
    after hold: with two rows or more the outcome is that of reading
    the first cell of row 1 as a float, which is the rate when that
    cell holds a number; with fewer than two rows the extraction fails
    with [IndexError]. *)
Theorem C6_single_value qid w :
  let rows := athena_results svc qid in
  let outcome := fst (get_single_value qid w) in
  (forall header data rest,
     rows = header :: data :: rest ->
     outcome = Analysis.rate_of_row float_of_string data
     /\ forall cells text rate,
          Data data = mk_datum (Some text) :: cells ->
          float_of_string text = Some rate ->
          outcome = Ok rate)
  /\ ((List.length rows < 2)%nat ->
      outcome = Raise (IndexError "list index out of range")).
Proof.
  intros rows outcome. subst outcome.
  unfold get_single_value, Analysis.get_single_value, bind, emit, lift.
  fold rows. cbn [fst]. split.
  - intros header data rest E. rewrite E. cbn.
    split.
    + now destruct (Analysis.rate_of_row float_of_string data).
    + intros cells text rate Hd Hf.
      unfold Analysis.rate_of_row, Analysis.to_float. rewrite Hd. cbn.
      now rewrite Hf.
  - intros Hlen. destruct rows as [|r0 [|r1 rest]]; cbn in *; try reflexivity; lia.
Qed.

(** C7: with both rates extracted, a non-zero yesterday's rate gives
    deviation = |today - yesterday| / yesterday, one data point of
    value deviation * 100 and unit "Percent" under the pair's metric
    name, and the summary; a zero yesterday's rate raises
    [ZeroDivisionError] and publishes nothing. *)
Theorem C7_deviation_published fuel event w y m d fx_dt yp mp dp today yesterday w1 w2 :
  Analysis.get_run_date event = Ok (y, m, d, fx_dt) ->
  Analysis.get_yesterdays_date fx_dt = Ok (yp, mp, dp) ->
  Analysis.is_weekend fx_dt = false ->
  get_todays_rate fuel y m d w = (Ok today, w1) ->
  get_yesterdays_rate fuel yp mp dp w1 = (Ok yesterday, w2) ->
  let deviation := (PrimFloat.abs (today - yesterday) / yesterday)%float in
  let point :=
    PutMetric "FX/Analysis" (PAIR ++ "Deviation") (deviation * 100)%float "Percent" in
  if PrimFloat.eqb yesterday 0%float then
    lambda_handler fuel event w
    = (Raise (ZeroDivisionError "float division by zero"), w2)
    /\ metrics (trace w2) = metrics (trace w)
  else
    exists w3,
      lambda_handler fuel event w
      = (Ok (Analysis.Report PAIR today yesterday deviation), w3)
      /\ trace w3 = (trace w2 ++ [point])%list
      /\ metrics (trace w3) = (metrics (trace w) ++ [point])%list.
Proof.
  intros Hrun Hprior Hwd Ht Hy deviation point.
  rewrite (lambda_handler_trading_day fuel event w y m d fx_dt yp mp dp) by assumption.
  pose proof (get_todays_rate_metrics fuel y m d w) as Hm1.
  pose proof (get_yesterdays_rate_metrics fuel yp mp dp w1) as Hm2.
  rewrite Ht in Hm1. rewrite Hy in Hm2. cbn [snd] in Hm1, Hm2.
  assert (Hgo : forall k : float -> float -> M Analysis.response,
             bind (get_todays_rate fuel y m d) (fun todays_rate =>
               bind (get_yesterdays_rate fuel yp mp dp) (k todays_rate)) w
             = k today yesterday w2).
  { intros k. unfold bind at 1. rewrite Ht. unfold bind at 1. now rewrite Hy. }
  rewrite Hgo. unfold bind at 1. unfold lift, Analysis.float_div.
  destruct (PrimFloat.eqb yesterday 0) eqn:Hz.
  - split; [reflexivity | congruence].
  - eexists. split; [reflexivity|]. cbn [trace]. split; [reflexivity|].
    rewrite metrics_app, Hm2, Hm1. reflexivity.
Qed.

End AnalysisFacts.

(** * More of the pipeline *)

(** ** Ingest, and Ingest followed by Transform (X1 - X9) *)

Section IngestRuns.
Import Datetime DatetimeFacts StrFacts ResolverFacts.

Variables BUCKET_NAME BASE_CURRENCY : string.
Variable TARGET_CURRENCIES : list string.
Variable FX_API_URL : string.
Variable svc : services.

Let validate := Ingest.validate_fx_data BASE_CURRENCY TARGET_CURRENCIES.
Let handler :=
  Ingest.lambda_handler BUCKET_NAME BASE_CURRENCY TARGET_CURRENCIES FX_API_URL svc.

Lemma key_eqb_refl bk : key_eqb bk bk = true.
Proof. unfold key_eqb. now rewrite !String.eqb_refl. Qed.

Lemma put_keys_app t1 t2 : put_keys (t1 ++ t2) = (put_keys t1 ++ put_keys t2)%list.
Proof. apply flat_map_app. Qed.

Lemma http_calls_app t1 t2 : http_calls (t1 ++ t2) = (http_calls t1 ++ http_calls t2)%list.
Proof. apply filter_app. Qed.

Lemma has_key_lookup key entries :
  Json.has_key key entries = true -> exists v, Json.lookup key entries = Some v.
Proof.
  unfold Json.has_key. destruct (Json.lookup key entries) as [v|]; [|discriminate].
  intros _. now exists v.
Qed.

(** A dict that passes Ingest's validation holds the three fields. *)
Lemma validated_fields entries :
  validate (Json.JObj entries) = Ok tt ->
  exists timestamp source quotes,
    Json.lookup "timestamp" entries = Some timestamp
    /\ Json.lookup "source" entries = Some source
    /\ Json.lookup "quotes" entries = Some quotes.
Proof.
  intros Hv. unfold validate in Hv. rewrite ingest_validate_split in Hv.
  destruct (Transform.validate_fx_data (Json.JObj entries)) as [[]| |] eqn:Ht;
    try discriminate.
  unfold Transform.validate_fx_data in Ht.
  rewrite (check_fields_dict _ (fun field => "Missing required field: " ++ field)) in Ht.
  destruct (first_missing Transform.required_fields entries) eqn:E; [discriminate|].
  pose proof (proj1 (first_missing_none _ _) E) as H.
  destruct (has_key_lookup "timestamp" entries) as [t Ht']; [apply H; cbn; auto|].
  destruct (has_key_lookup "source" entries) as [s Hs']; [apply H; cbn; auto|].
  destruct (has_key_lookup "quotes" entries) as [q Hq']; [apply H; cbn; auto|].
  now exists t, s, q.
Qed.

(** The run of Ingest when every step goes through. *)
Lemma ingest_run_ok event w api_key entries y m d :
  ssm_parameter svc "/fx/api/access_key" = Ok api_key ->
  fx_api svc FX_API_URL (fx_params api_key BASE_CURRENCY TARGET_CURRENCIES)
  = Ok (mk_response 200 (Ok (Json.JObj entries))) ->
  validate (Json.JObj entries) = Ok tt ->
  Ingest.get_run_date event = Ok (y, m, d) ->
  exists timestamp source quotes,
    Json.lookup "timestamp" entries = Some timestamp
    /\ Json.lookup "source" entries = Some source
    /\ Json.lookup "quotes" entries = Some quotes
    /\ let key := "raw/year=" ++ y ++ "/month=" ++ m ++ "/day=" ++ d ++ "/rates.json" in
       let stored :=
         Json.JObj [("timestamp", timestamp); ("source", source); ("quotes", quotes)] in
       handler event w
       = (Ok (Ingest.mk_response 200 "FX data ingested successfully" key),
          mk_world ((BUCKET_NAME, key, stored) :: objects w) (started w) (polled w)
            (trace w
             ++ [SsmGetParameter "/fx/api/access_key";
                 HttpGet FX_API_URL (fx_params api_key BASE_CURRENCY TARGET_CURRENCIES);
                 S3Put BUCKET_NAME key stored])).
Proof.
  intros Hkey Hfx Hval Hrun.
  destruct (validated_fields entries Hval) as (t & s & q & Ht & Hs & Hq).
  exists t, s, q. split; [exact Ht|]. split; [exact Hs|]. split; [exact Hq|].
  unfold handler, Ingest.lambda_handler, try_except, Ingest.get_api_key,
    Ingest.fetch_fx_rates, Ingest.urlopen, Ingest.write_to_s3, s3_put_object,
    bind, lift, emit, ret.
  rewrite Hkey. cbn [trace objects started polled].
  unfold fx_params in *. rewrite Hfx.
  cbn [status body]. change ((200 <=? 200) && (200 <? 300)) with true.
  cbv beta iota. cbn [status body Z.eqb Pos.eqb negb]. fold validate. rewrite Hval.
  unfold Ingest.filter_fx_data, Json.get. rewrite Ht, Hs, Hq. cbn [rbind].
  rewrite Hrun. cbn [trace objects started polled].
  rewrite <- !app_assoc. reflexivity.
Qed.

(** X1: when the secret is read, the provider answers 200 with a dict
    that validates and the date resolves, Ingest writes one object,
    under the raw key of the business date in BUCKET_NAME, holding the
    payload's timestamp, source and quotes and nothing else; a read of
    that key gives it back, and the response carries 200 and the key. *)
Theorem X1_ingest_writes_filtered_payload event w api_key entries y m d :
  ssm_parameter svc "/fx/api/access_key" = Ok api_key ->
  fx_api svc FX_API_URL (fx_params api_key BASE_CURRENCY TARGET_CURRENCIES)
  = Ok (mk_response 200 (Ok (Json.JObj entries))) ->
  validate (Json.JObj entries) = Ok tt ->
  Ingest.get_run_date event = Ok (y, m, d) ->
  exists timestamp source quotes w',
    Json.lookup "timestamp" entries = Some timestamp
    /\ Json.lookup "source" entries = Some source
    /\ Json.lookup "quotes" entries = Some quotes
    /\ handler event w
       = (Ok (Ingest.mk_response 200 "FX data ingested successfully"
                ("raw/year=" ++ y ++ "/month=" ++ m ++ "/day=" ++ d ++ "/rates.json")),
          w')
    /\ writes (trace w')
       = (writes (trace w)
          ++ [S3Put BUCKET_NAME
                ("raw/year=" ++ y ++ "/month=" ++ m ++ "/day=" ++ d ++ "/rates.json")
                (Json.JObj [("timestamp", timestamp); ("source", source);
                            ("quotes", quotes)])])%list
    /\ find_object
         (BUCKET_NAME, "raw/year=" ++ y ++ "/month=" ++ m ++ "/day=" ++ d ++ "/rates.json")
         (objects w')
       = Some (Json.JObj [("timestamp", timestamp); ("source", source);
                          ("quotes", quotes)]).
Proof.
  intros Hkey Hfx Hval Hrun.
  destruct (ingest_run_ok event w api_key entries y m d Hkey Hfx Hval Hrun)
    as (t & s & q & Ht & Hs & Hq & Hgo).
  cbv zeta in Hgo. exists t, s, q. eexists.
  split; [exact Ht|]. split; [exact Hs|]. split; [exact Hq|].
  split; [exact Hgo|]. cbn [trace objects]. split.
  - rewrite writes_app. cbn. reflexivity.
  - cbn [find_object]. now rewrite key_eqb_refl.
Qed.

Ltac close_run :=
  cbn [trace objects started polled Ingest.statusCode Ingest.s3_key];
  rewrite ?put_keys_app, ?errors_logged_app;
  cbn [put_keys errors_logged flat_map app];
  rewrite ?app_nil_r;
  repeat (split; [reflexivity|]); try reflexivity.

(** X2: Ingest writes its one object as its last step or not at all.
    A run that returns has written exactly one key, the one it reports,
    under raw/, and logged no error; a run that raises has written
    nothing and logged "FX ingestion failed" once. *)
Theorem X2_ingest_all_or_nothing event w :
  match handler event w with
  | (Ok response, w') =>
      Ingest.statusCode response = 200
      /\ Str.startswith "raw/" (Ingest.s3_key response) = true
      /\ put_keys (trace w') = (put_keys (trace w) ++ [Ingest.s3_key response])%list
      /\ errors_logged (trace w') = errors_logged (trace w)
      /\ exists content,
           find_object (BUCKET_NAME, Ingest.s3_key response) (objects w') = Some content
  | (Raise e, w') =>
      objects w' = objects w
      /\ put_keys (trace w') = put_keys (trace w)
      /\ errors_logged (trace w')
         = (errors_logged (trace w) ++ ["FX ingestion failed"])%list
  | (OutOfFuel, w') =>
      objects w' = objects w /\ put_keys (trace w') = put_keys (trace w)
  end.
Proof.
  unfold handler, Ingest.lambda_handler, try_except, Ingest.get_api_key,
    Ingest.fetch_fx_rates, Ingest.urlopen, Ingest.write_to_s3, s3_put_object,
    bind, lift, emit, ret.
  cbn [trace objects started polled].
  destruct (ssm_parameter svc _) as [api_key|e|]; [|close_run|close_run].
  destruct (fx_api svc _ _) as [response|e|]; [|close_run|close_run].
  destruct ((200 <=? status response) && (status response <? 300)); [|close_run].
  destruct (status response =? 200); cbn [negb]; [|close_run].
  destruct (body response) as [data|e|]; [|close_run|close_run].
  destruct (Ingest.validate_fx_data _ _ data) as [[]|e|]; [|close_run|close_run].
  destruct (Ingest.filter_fx_data data) as [filtered|e|]; [|close_run|close_run].
  destruct (Ingest.get_run_date event) as [[[y m] d]|e|]; [|close_run|close_run].
  close_run. cbn [find_object]. rewrite key_eqb_refl. now eexists.
Qed.

(** X3: when the secret cannot be read the handler raises that error
    without calling the provider. Otherwise: an error of the transport
    is raised as it is; a final status outside 200..299 never reaches
    the handler's own test, the library raises HTTPError with that
    status and the handler raises it on; a status in 201..299 is
    refused by the handler with RuntimeError "FX API returned status
    <status>". *)
Theorem X3_ingest_fetch_failures event w :
  (forall e,
     ssm_parameter svc "/fx/api/access_key" = Raise e ->
     fst (handler event w) = Raise e
     /\ http_calls (trace (snd (handler event w))) = http_calls (trace w))
  /\ (forall api_key,
        ssm_parameter svc "/fx/api/access_key" = Ok api_key ->
        (forall e,
           fx_api svc FX_API_URL (fx_params api_key BASE_CURRENCY TARGET_CURRENCIES)
           = Raise e ->
           fst (handler event w) = Raise e)
        /\ (forall code payload,
              fx_api svc FX_API_URL (fx_params api_key BASE_CURRENCY TARGET_CURRENCIES)
              = Ok (mk_response code payload) ->
              (code < 200 \/ 300 <= code ->
               exists msg, fst (handler event w) = Raise (HTTPError code msg))
              /\ (200 < code < 300 ->
                  fst (handler event w)
                  = Raise (RuntimeError
                             ("FX API returned status " ++ Str.format_0d 0 code))))).
Proof.
  split.
  - intros e He.
    unfold handler, Ingest.lambda_handler, try_except, Ingest.get_api_key,
      bind, lift, emit.
    rewrite He. cbn [fst snd trace]. split; [reflexivity|].
    rewrite !http_calls_app. cbn. now rewrite !app_nil_r.
  - intros api_key Hkey.
    unfold handler, Ingest.lambda_handler, try_except, Ingest.get_api_key,
      Ingest.fetch_fx_rates, Ingest.urlopen, bind, lift, emit, ret.
    rewrite Hkey. cbn [trace objects started polled fst snd].
    unfold fx_params. split.
    + intros e Hfx. rewrite Hfx. reflexivity.
    + intros code payload Hfx. rewrite Hfx. cbn [status fst snd]. split.
      * intros Hcode.
        replace ((200 <=? code) && (code <? 300)) with false
          by (symmetry; apply andb_false_iff; rewrite Z.leb_gt, Z.ltb_ge; lia).
        eexists. reflexivity.
      * intros Hcode.
        replace ((200 <=? code) && (code <? 300)) with true
          by (symmetry; apply andb_true_iff; rewrite Z.leb_le, Z.ltb_lt; lia).
        cbn [status fst snd].
        destruct (Z.eqb_spec code 200); [lia|]. reflexivity.
Qed.

Lemma check_quotes_same codes data1 data2 :
  Json.getitem data1 "quotes" = Json.getitem data2 "quotes" ->
  for_each codes (fun currency =>
    rbind (Json.getitem data1 "quotes") (fun quotes =>
      rbind (Json.contains quotes currency) (fun present =>
        if negb present then Raise (ValueError ("Missing FX quote for: " ++ currency))
        else Ok tt)))
  = for_each codes (fun currency =>
      rbind (Json.getitem data2 "quotes") (fun quotes =>
        rbind (Json.contains quotes currency) (fun present =>
          if negb present then Raise (ValueError ("Missing FX quote for: " ++ currency))
          else Ok tt))).
Proof.
  intros H. now rewrite H.
Qed.

(** X4: the projection of a validated dict to timestamp, source and
    quotes passes Ingest's and Transform's validators again, with the
    same quotes: what Ingest stores, Transform accepts. *)
Theorem X4_filtered_payload_validates entries :
  validate (Json.JObj entries) = Ok tt ->
  exists filtered,
    Ingest.filter_fx_data (Json.JObj entries) = Ok filtered
    /\ validate filtered = Ok tt
    /\ Transform.validate_fx_data filtered = Ok tt
    /\ Json.getitem filtered "quotes" = Json.getitem (Json.JObj entries) "quotes".
Proof.
  intros Hv.
  destruct (validated_fields entries Hv) as (t & s & q & Ht & Hs & Hq).
  unfold Ingest.filter_fx_data, Json.get. rewrite Ht, Hs, Hq. cbn [rbind].
  eexists. split; [reflexivity|].
  assert (Hq' : Json.getitem (Json.JObj [("timestamp", t); ("source", s); ("quotes", q)])
                  "quotes" = Json.getitem (Json.JObj entries) "quotes").
  { cbn. now rewrite Hq. }
  split; [|split; [reflexivity | exact Hq']].
  unfold validate in *. rewrite ingest_validate_split in *.
  change (Transform.validate_fx_data
            (Json.JObj [("timestamp", t); ("source", s); ("quotes", q)])) with (Ok tt).
  destruct (Transform.validate_fx_data (Json.JObj entries)) as [[]| |]; try discriminate.
  cbn [rbind] in *. rewrite (check_quotes_same _ _ _ Hq'). exact Hv.
Qed.

(** X5: a quotes field that is null, a boolean or a number is not a
    missing-field error. With at least one target configured Ingest's
    validator raises TypeError; Transform's validator accepts the
    payload and the fan-out raises AttributeError before any write. *)
Theorem X5_scalar_quotes_is_a_type_error entries quotes c cs :
  first_missing ["timestamp"; "source"; "quotes"] entries = None ->
  Json.lookup "quotes" entries = Some quotes ->
  not_a_container quotes = true ->
  TARGET_CURRENCIES = c :: cs ->
  validate (Json.JObj entries) = Raise (TypeError "argument is not iterable")
  /\ Transform.validate_fx_data (Json.JObj entries) = Ok tt
  /\ forall bucket y m d fx w,
       Transform.normalize_and_write bucket (Json.JObj entries) y m d fx w
       = (Raise (AttributeError "object has no attribute 'items'"), w).
Proof.
  intros Hf Hq Hn Ht.
  assert (HT : Transform.validate_fx_data (Json.JObj entries) = Ok tt).
  { unfold Transform.validate_fx_data.
    rewrite (check_fields_dict _ (fun field => "Missing required field: " ++ field)).
    change Transform.required_fields with ["timestamp"; "source"; "quotes"].
    now rewrite Hf. }
  split; [|split; [exact HT|]].
  - unfold validate. rewrite ingest_validate_split, HT. cbn [rbind].
    unfold Ingest.TARGET_CURRENCY_CODES. rewrite Ht. cbn [map for_each Json.getitem].
    rewrite Hq. cbn [rbind]. destruct quotes; try discriminate; reflexivity.
  - intros bucket y m d fx w.
    unfold Transform.normalize_and_write, bind, lift. cbn [Json.getitem]. rewrite Hq.
    destruct quotes; try discriminate; reflexivity.
Qed.


Lemma put_keys_records bucket y m d fx entries :
  put_keys (map (record_written bucket y m d fx) entries) = map (key_written y m d) entries.
Proof. induction entries as [|e entries IH]; cbn; [reflexivity | now f_equal]. Qed.

(** X6: Transform, run after a successful Ingest on the same bucket
    and event, finds the object Ingest wrote and writes one record per
    quote; the keys written over both runs are the raw key and then the
    record keys. *)
Theorem X6_ingest_then_transform event w api_key entries quotes y m d :
  ssm_parameter svc "/fx/api/access_key" = Ok api_key ->
  fx_api svc FX_API_URL (fx_params api_key BASE_CURRENCY TARGET_CURRENCIES)
  = Ok (mk_response 200 (Ok (Json.JObj entries))) ->
  validate (Json.JObj entries) = Ok tt ->
  Ingest.get_run_date event = Ok (y, m, d) ->
  Json.lookup "quotes" entries = Some (Json.JObj quotes) ->
  exists response w1 w2,
    handler event w = (Ok response, w1)
    /\ Transform.lambda_handler BUCKET_NAME event w1
       = (Ok (Transform.Written 200 (map (key_written y m d) quotes)), w2)
    /\ put_keys (trace w2)
       = (put_keys (trace w) ++ Ingest.s3_key response :: map (key_written y m d) quotes)%list.
Proof.
  intros Hkey Hfx Hval Hrun Hq.
  destruct (ingest_run_ok event w api_key entries y m d Hkey Hfx Hval Hrun)
    as (t & s & q & Ht & Hs & Hq' & Hgo).
  cbv zeta in Hgo. rewrite Hq in Hq'. injection Hq' as <-.
  assert (HT : exists fx, Transform.get_run_date event = Ok (y, m, d, fx)).
  { destruct (resolvers_agree event) as [_ HIT]. rewrite Hrun in HIT.
    destruct (Transform.get_run_date event) as [[[[y' m'] d'] fx]| |];
      cbn in HIT; try discriminate.
    injection HIT as <- <- <-. now exists fx. }
  destruct HT as [fx HT].
  do 3 eexists. split; [exact Hgo|].
  rewrite (transform_after_guard BUCKET_NAME event _ y m d fx HT).
  unfold bind at 1. unfold Transform.read_raw_object, s3_get_object.
  cbn [objects find_object]. rewrite key_eqb_refl.
  unfold bind at 1. unfold lift at 1.
  change (Transform.validate_fx_data
            (Json.JObj [("timestamp", t); ("source", s); ("quotes", Json.JObj quotes)]))
    with (Ok tt).
  unfold bind at 1.
  rewrite (normalize_and_write_spec BUCKET_NAME
             (Json.JObj [("timestamp", t); ("source", s); ("quotes", Json.JObj quotes)])
             quotes y m d fx _ eq_refl).
  split; [reflexivity|]. cbn [trace Ingest.s3_key].
  rewrite !put_keys_app, put_keys_records. cbn [put_keys flat_map app].
  rewrite <- !app_assoc. reflexivity.
Qed.

(** X7: a second run of Ingest for the same event and the same
    answers reports the same key and leaves the same content under it:
    a re-run overwrites, it adds no new key. *)
Theorem X7_ingest_rerun_overwrites event w api_key entries y m d :
  ssm_parameter svc "/fx/api/access_key" = Ok api_key ->
  fx_api svc FX_API_URL (fx_params api_key BASE_CURRENCY TARGET_CURRENCIES)
  = Ok (mk_response 200 (Ok (Json.JObj entries))) ->
  validate (Json.JObj entries) = Ok tt ->
  Ingest.get_run_date event = Ok (y, m, d) ->
  exists response stored w1 w2,
    handler event w = (Ok response, w1)
    /\ handler event w1 = (Ok response, w2)
    /\ find_object (BUCKET_NAME, Ingest.s3_key response) (objects w1) = Some stored
    /\ find_object (BUCKET_NAME, Ingest.s3_key response) (objects w2) = Some stored
    /\ put_keys (trace w2)
       = (put_keys (trace w) ++ [Ingest.s3_key response; Ingest.s3_key response])%list.
Proof.
  intros Hkey Hfx Hval Hrun.
  destruct (ingest_run_ok event w api_key entries y m d Hkey Hfx Hval Hrun)
    as (t & s & q & Ht & Hs & Hq & Hgo).
  cbv zeta in Hgo.
  match type of Hgo with
  | _ = (_, ?w1) =>
      destruct (ingest_run_ok event w1 api_key entries y m d Hkey Hfx Hval Hrun)
        as (t' & s' & q' & Ht' & Hs' & Hq' & Hgo')
  end.
  cbv zeta in Hgo'.
  assert (t' = t) by congruence. assert (s' = s) by congruence.
  assert (q' = q) by congruence. subst t' s' q'.
  do 4 eexists. split; [exact Hgo|]. split; [exact Hgo'|].
  cbn [objects trace Ingest.s3_key find_object]. rewrite key_eqb_refl.
  split; [reflexivity|]. split; [reflexivity|].
  rewrite !put_keys_app. cbn [put_keys flat_map app].
  rewrite <- !app_assoc. reflexivity.
Qed.

End IngestRuns.

Section TransformRuns.
Import Datetime DatetimeFacts StrFacts ResolverFacts.

Variable bucket : string.

Ltac close_transform :=
  cbn [trace objects started polled];
  rewrite ?put_keys_app; cbn [put_keys flat_map app]; rewrite ?app_nil_r;
  repeat (split; [reflexivity|]); try reflexivity.

(** X8: whenever Transform returns, it returns 200 (never the no-op)
    with a list of keys that is exactly, and in order, the keys put
    during the run. A run_date that does not resolve is raised before
    anything is read; a stored payload that fails validation, or whose
    quotes has no items, is raised after the one read and before the
    first put. *)
Theorem X8_transform_reports_what_it_wrote event w :
  (forall response w',
     Transform.lambda_handler bucket event w = (Ok response, w') ->
     exists keys,
       response = Transform.Written 200 keys
       /\ put_keys (trace w') = (put_keys (trace w) ++ keys)%list)
  /\ (forall e,
        Transform.get_run_date event = Raise e ->
        Transform.lambda_handler bucket event w = (Raise e, w))
  /\ (forall y m d fx data e,
        Transform.get_run_date event = Ok (y, m, d, fx) ->
        find_object (bucket, "raw/year=" ++ y ++ "/month=" ++ m ++ "/day=" ++ d
                             ++ "/rates.json") (objects w) = Some data ->
        Transform.validate_fx_data data = Raise e
        \/ (exists quotes,
              Transform.validate_fx_data data = Ok tt
              /\ Json.getitem data "quotes" = Ok quotes
              /\ Json.items quotes = Raise e) ->
        exists w',
          Transform.lambda_handler bucket event w = (Raise e, w')
          /\ objects w' = objects w
          /\ put_keys (trace w') = put_keys (trace w)).
Proof.
  split; [|split].
  - intros response w'.
    destruct (Transform.get_run_date event) as [[[[y m] d] fx]|e|] eqn:Hrun.
    + rewrite (transform_after_guard bucket event w y m d fx Hrun).
      unfold Transform.read_raw_object, s3_get_object, Transform.normalize_and_write,
        bind, lift, ret.
      destruct (find_object _ (objects w)) as [data|]; [|intros H; discriminate H].
      destruct (Transform.validate_fx_data data) as [[]|e|];
        [|intros H; discriminate H..].
      destruct (Json.getitem data "quotes") as [q|e|]; [|intros H; discriminate H..].
      destruct (Json.items q) as [qs|e|]; [|intros H; discriminate H..].
      rewrite write_all_spec. intros H. injection H as <- <-.
      eexists. split; [reflexivity|].
      cbn [trace app]. rewrite !put_keys_app, put_keys_records.
      cbn [put_keys flat_map app]. now rewrite app_nil_r.
    + unfold Transform.lambda_handler, bind, lift. rewrite Hrun.
      intros H; discriminate H.
    + unfold Transform.lambda_handler, bind, lift. rewrite Hrun.
      intros H; discriminate H.
  - intros e Hrun. unfold Transform.lambda_handler, bind, lift. now rewrite Hrun.
  - intros y m d fx data e Hrun Hobj Hbad.
    rewrite (transform_after_guard bucket event w y m d fx Hrun).
    unfold Transform.read_raw_object, s3_get_object, Transform.normalize_and_write,
      bind, lift, ret.
    change (Transform.build_s3_key y m d)
      with ("raw/year=" ++ y ++ "/month=" ++ m ++ "/day=" ++ d ++ "/rates.json").
    rewrite Hobj.
    destruct Hbad as [Hval | (q & Hval & Hq & Hitems)].
    + rewrite Hval. eexists. split; [reflexivity|]. close_transform.
    + rewrite Hval, Hq, Hitems. eexists. split; [reflexivity|]. close_transform.
Qed.

(** X9: with no raw object under the key of the business date
    Transform raises NoSuchKey for that key after the one read, and
    writes nothing. *)
Theorem X9_transform_missing_raw_object event w y m d fx :
  Transform.get_run_date event = Ok (y, m, d, fx) ->
  find_object (bucket, Transform.build_s3_key y m d) (objects w) = None ->
  Transform.lambda_handler bucket event w
  = (Raise (NoSuchKey ("raw/year=" ++ y ++ "/month=" ++ m ++ "/day=" ++ d ++ "/rates.json")),
     mk_world (objects w) (started w) (polled w)
       (trace w ++ [S3Get bucket
                      ("raw/year=" ++ y ++ "/month=" ++ m ++ "/day=" ++ d
                       ++ "/rates.json")])).
Proof.
  intros Hrun Hobj.
  rewrite (transform_after_guard bucket event w y m d fx Hrun).
  unfold bind at 1. unfold Transform.read_raw_object, s3_get_object.
  rewrite Hobj. reflexivity.
Qed.

End TransformRuns.

(** ** The Analysis protocol, further (X10 - X17) *)

Lemma started_queries_app t1 t2 :
  started_queries (t1 ++ t2) = (started_queries t1 ++ started_queries t2)%list.
Proof. apply flat_map_app. Qed.

Section AnalysisRuns.
Import Datetime DatetimeFacts StrFacts ResolverFacts.

Variables ATHENA_DATABASE ATHENA_OUTPUT ATHENA_TABLE ATHENA_WORKGROUP PAIR : string.
Variable svc : services.
Variable float_of_string : string -> option float.

Let wait_for_query := Analysis.wait_for_query svc.
Let get_single_value := Analysis.get_single_value svc float_of_string.
Let get_todays_rate :=
  Analysis.get_todays_rate ATHENA_DATABASE ATHENA_OUTPUT ATHENA_TABLE
    ATHENA_WORKGROUP PAIR svc float_of_string.
Let get_yesterdays_rate :=
  Analysis.get_yesterdays_rate ATHENA_DATABASE ATHENA_OUTPUT ATHENA_TABLE
    ATHENA_WORKGROUP PAIR svc float_of_string.
Let lambda_handler :=
  Analysis.lambda_handler ATHENA_DATABASE ATHENA_OUTPUT ATHENA_TABLE
    ATHENA_WORKGROUP PAIR svc float_of_string.
Let rate_query := Analysis.rate_query ATHENA_TABLE PAIR.

(** X10: when the polling loop returns a state, that state is the
    engine's answer to the last poll made and is SUCCEEDED, FAILED or
    CANCELLED, and every answer before it was none of the three: the
    loop returns at the first terminal answer and never before it. *)
Theorem X10_wait_for_query_returns_terminal fuel qid w status w' :
  wait_for_query fuel qid w = (Ok status, w') ->
  exists k,
    (k < fuel)%nat
    /\ polled w' = (polled w + S k)%nat
    /\ status = State (athena_execution svc qid (polled w + k))
    /\ (status = "SUCCEEDED" \/ status = "FAILED" \/ status = "CANCELLED")
    /\ (forall j, (j < k)%nat ->
          let s := State (athena_execution svc qid (polled w + j)) in
          s <> "SUCCEEDED" /\ s <> "FAILED" /\ s <> "CANCELLED").
Proof.
  revert w. induction fuel as [|fuel IH]; intros w.
  - intros H; discriminate H.
  - unfold wait_for_query. cbn [Analysis.wait_for_query].
    unfold bind at 1. unfold Analysis.get_query_execution at 1.
    destruct (Analysis.is_terminal _) eqn:Ht.
    + intros H. exists 0%nat. rewrite Nat.add_0_r.
      apply is_terminal_iff in Ht.
      assert (Hout : status = State (athena_execution svc qid (polled w))
                     /\ polled w' = S (polled w)).
      { revert H. destruct (negb _); cbn; intros H; injection H as <- <-;
          split; reflexivity. }
      destruct Hout as [Hs Hp]. rewrite <- Hs in Ht.
      split; [lia|]. split; [lia|]. split; [exact Hs|]. split; [exact Ht|].
      intros j Hj; lia.
    + unfold bind at 1. unfold emit at 1. intros H.
      apply IH in H. cbn [polled] in H.
      destruct H as (k & Hk & Hp & Hs & Hterm & Hbefore).
      exists (S k). split; [lia|]. split; [lia|].
      split; [rewrite Hs; f_equal; f_equal; lia|]. split; [exact Hterm|].
      intros j Hj. cbv zeta. destruct j as [|j].
      * rewrite Nat.add_0_r.
        split; [|split]; intros E; rewrite E in Ht; discriminate Ht.
      * specialize (Hbefore j ltac:(lia)). cbv zeta in Hbefore.
        replace (polled w + S j)%nat with (S (polled w) + j)%nat by lia.
        exact Hbefore.
Qed.

(** X11: on a sequence that is terminal for the first time at its
    k-th answer the loop polls k+1 times, sleeps 2 after each of the
    first k polls, logs the reason when the state is not SUCCEEDED, and
    returns the state; it starts no query and writes nothing. *)
Theorem X11_polling_stops_at_first_terminal qid k fuel w st :
  Analysis.settles svc qid (polled w) k st -> (k < fuel)%nat ->
  wait_for_query fuel qid w
  = (Ok (State st),
     mk_world (objects w) (started w) (polled w + S k)
       (trace w ++ Analysis.waiting qid k ++ AthenaPoll qid
          :: (if String.eqb (State st) "SUCCEEDED" then []
              else [LogError ("Athena query failed: " ++ Analysis.reason_of st)]))).
Proof. apply wait_for_query_settles. Qed.

Lemma get_single_value_run qid w :
  get_single_value qid w
  = (rbind (Analysis.list_index (athena_results svc qid) 1)
       (Analysis.rate_of_row float_of_string),
     mk_world (objects w) (started w) (polled w) (trace w ++ [AthenaResults qid])).
Proof.
  unfold get_single_value, Analysis.get_single_value, bind, emit, lift.
  now destruct (Analysis.list_index (athena_results svc qid) 1).
Qed.

(** A rate query whose execution succeeds. *)
Lemma get_todays_rate_succeeded fuel y m d w k st :
  Analysis.settles svc (started w) (polled w) k st ->
  State st = "SUCCEEDED" -> (k < fuel)%nat ->
  get_todays_rate fuel y m d w
  = (rbind (Analysis.list_index (athena_results svc (started w)) 1)
       (Analysis.rate_of_row float_of_string),
     mk_world (objects w) (S (started w)) (polled w + S k)
       (trace w
        ++ AthenaStart (rate_query y m d) ATHENA_DATABASE ATHENA_OUTPUT ATHENA_WORKGROUP
           :: Analysis.waiting (started w) k
        ++ [AthenaPoll (started w); AthenaResults (started w)])).
Proof.
  intros Hs Hst Hk.
  unfold get_todays_rate, Analysis.get_todays_rate.
  unfold bind at 1. unfold Analysis.start_query at 1. unfold bind at 1.
  rewrite (wait_for_query_settles svc (started w) k fuel _ st) by assumption.
  rewrite Hst. cbn [String.eqb Ascii.eqb Bool.eqb negb].
  fold get_single_value. rewrite get_single_value_run.
  cbn [objects started polled trace]. f_equal. f_equal.
  rewrite <- !app_assoc. reflexivity.
Qed.

Lemma get_yesterdays_rate_succeeded fuel y m d w k st :
  Analysis.settles svc (started w) (polled w) k st ->
  State st = "SUCCEEDED" -> (k < fuel)%nat ->
  get_yesterdays_rate fuel y m d w
  = (rbind (Analysis.list_index (athena_results svc (started w)) 1)
       (Analysis.rate_of_row float_of_string),
     mk_world (objects w) (S (started w)) (polled w + S k)
       (trace w
        ++ AthenaStart (rate_query y m d) ATHENA_DATABASE ATHENA_OUTPUT ATHENA_WORKGROUP
           :: Analysis.waiting (started w) k
        ++ [AthenaPoll (started w); AthenaResults (started w)])).
Proof.
  intros Hs Hst Hk.
  unfold get_yesterdays_rate, Analysis.get_yesterdays_rate.
  unfold bind at 1. unfold Analysis.start_query at 1. unfold bind at 1.
  rewrite (wait_for_query_settles svc (started w) k fuel _ st) by assumption.
  rewrite Hst. cbn [String.eqb Ascii.eqb Bool.eqb negb].
  fold get_single_value. rewrite get_single_value_run.
  cbn [objects started polled trace]. f_equal. f_equal.
  rewrite <- !app_assoc. reflexivity.
Qed.

Lemma waiting_started qid k : started_queries (Analysis.waiting qid k) = [].
Proof. induction k; [reflexivity | exact IHk]. Qed.

(** X12: when today's query succeeds with no data row (fewer than two
    rows) the handler raises IndexError; yesterday's query is never
    started, nothing is logged as an error and no metric is
    published. *)
Theorem X12_no_data_row_aborts fuel event w y m d fx_dt yp mp dp k st :
  Analysis.get_run_date event = Ok (y, m, d, fx_dt) ->
  Analysis.get_yesterdays_date fx_dt = Ok (yp, mp, dp) ->
  Analysis.is_weekend fx_dt = false ->
  Analysis.settles svc (started w) (polled w) k st ->
  State st = "SUCCEEDED" -> (k < fuel)%nat ->
  (List.length (athena_results svc (started w)) < 2)%nat ->
  exists w',
    lambda_handler fuel event w = (Raise (IndexError "list index out of range"), w')
    /\ metrics (trace w') = metrics (trace w)
    /\ started_queries (trace w') = (started_queries (trace w) ++ [rate_query y m d])%list
    /\ errors_logged (trace w') = errors_logged (trace w).
Proof.
  intros Hrun Hprior Hwd Hs Hst Hk Hrows.
  unfold lambda_handler.
  rewrite (lambda_handler_trading_day _ _ _ _ _ _ _ fuel event w y m d fx_dt yp mp dp)
    by assumption.
  unfold bind at 1.
  fold get_todays_rate.
  rewrite (get_todays_rate_succeeded fuel y m d w k st Hs Hst Hk).
  assert (E : Analysis.list_index (athena_results svc (started w)) 1
              = Raise (IndexError "list index out of range")).
  { unfold Analysis.list_index.
    destruct (athena_results svc (started w)) as [|r0 [|r1 rest]]; cbn in *;
      try reflexivity; lia. }
  rewrite E. cbn [rbind]. eexists. split; [reflexivity|]. cbn [trace].
  rewrite metrics_app, started_queries_app, errors_logged_app.
  cbn [metrics filter started_queries errors_logged flat_map app].
  rewrite metrics_app, started_queries_app, errors_logged_app.
  rewrite waiting_metrics, waiting_started, waiting_errors. cbn.
  now rewrite !app_nil_r.
Qed.


(** X13: a data row that holds no rate. With no cell in row 1 the
    extraction raises IndexError, with a NULL first cell KeyError, and
    with a text that does not read as a float ValueError naming the
    text. *)
Theorem X13_malformed_data_row qid w header data rest :
  athena_results svc qid = header :: data :: rest ->
  (Data data = [] ->
   fst (get_single_value qid w) = Raise (IndexError "list index out of range"))
  /\ (forall cells,
        Data data = mk_datum None :: cells ->
        fst (get_single_value qid w) = Raise (KeyError "VarCharValue"))
  /\ (forall text cells,
        Data data = mk_datum (Some text) :: cells ->
        float_of_string text = None ->
        fst (get_single_value qid w)
        = Raise (ValueError ("could not convert string to float: " ++ text))).
Proof.
  intros Hrows. rewrite get_single_value_run, Hrows. cbn [fst Analysis.list_index nth_error rbind].
  unfold Analysis.rate_of_row, Analysis.to_float.
  split; [|split].
  - intros ->. reflexivity.
  - intros cells ->. reflexivity.
  - intros text cells -> Hf. cbn. now rewrite Hf.
Qed.

(** X14: a trading-day run in full. Today's query is started, polled
    until SUCCEEDED and its result fetched, then the same for the prior
    date with the next execution id, then one data point is published
    and the report returned; nothing else is called. *)
Theorem X14_analysis_run_in_full fuel event w y m d fx_dt yp mp dp k1 st1 k2 st2 today yesterday :
  Analysis.get_run_date event = Ok (y, m, d, fx_dt) ->
  Analysis.get_yesterdays_date fx_dt = Ok (yp, mp, dp) ->
  Analysis.is_weekend fx_dt = false ->
  Analysis.settles svc (started w) (polled w) k1 st1 ->
  State st1 = "SUCCEEDED" -> (k1 < fuel)%nat ->
  rbind (Analysis.list_index (athena_results svc (started w)) 1)
    (Analysis.rate_of_row float_of_string) = Ok today ->
  Analysis.settles svc (S (started w)) (polled w + S k1) k2 st2 ->
  State st2 = "SUCCEEDED" -> (k2 < fuel)%nat ->
  rbind (Analysis.list_index (athena_results svc (S (started w))) 1)
    (Analysis.rate_of_row float_of_string) = Ok yesterday ->
  PrimFloat.eqb yesterday 0%float = false ->
  let deviation := (PrimFloat.abs (today - yesterday) / yesterday)%float in
  lambda_handler fuel event w
  = (Ok (Analysis.Report PAIR today yesterday deviation),
     mk_world (objects w) (S (S (started w))) (polled w + S k1 + S k2)
       (trace w
        ++ AthenaStart (rate_query y m d) ATHENA_DATABASE ATHENA_OUTPUT ATHENA_WORKGROUP
           :: Analysis.waiting (started w) k1
        ++ [AthenaPoll (started w); AthenaResults (started w)]
        ++ AthenaStart (rate_query yp mp dp) ATHENA_DATABASE ATHENA_OUTPUT ATHENA_WORKGROUP
           :: Analysis.waiting (S (started w)) k2
        ++ [AthenaPoll (S (started w)); AthenaResults (S (started w));
            PutMetric "FX/Analysis" (PAIR ++ "Deviation") (deviation * 100)%float
              "Percent"])).
Proof.
  intros Hrun Hprior Hwd Hs1 Hst1 Hk1 Hr1 Hs2 Hst2 Hk2 Hr2 Hz deviation.
  unfold lambda_handler.
  rewrite (lambda_handler_trading_day _ _ _ _ _ _ _ fuel event w y m d fx_dt yp mp dp)
    by assumption.
  unfold bind at 1. fold get_todays_rate.
  rewrite (get_todays_rate_succeeded fuel y m d w k1 st1 Hs1 Hst1 Hk1), Hr1.
  unfold bind at 1. fold get_yesterdays_rate.
  rewrite (get_yesterdays_rate_succeeded fuel yp mp dp _ k2 st2)
    by (cbn [started polled]; assumption).
  cbn [objects started polled trace]. rewrite Hr2.
  unfold bind at 1. unfold lift, Analysis.float_div. rewrite Hz.
  unfold bind, Analysis.publish_metric, emit, ret.
  cbn [objects started polled trace]. f_equal. f_equal.
  unfold Analysis.METRIC_NAMESPACE, Analysis.DEVIATION_METRIC.
  repeat (rewrite <- !app_assoc; cbn [app]).
  reflexivity.
Qed.

(** X15: on every event and whatever the engine answers, a run that
    returns a report has published exactly one data point, of value
    deviation * 100 with deviation = |today - yesterday| / yesterday,
    and any other run has published none. *)
Theorem X15_one_metric_per_report fuel event w :
  match lambda_handler fuel event w with
  | (Ok (Analysis.Report p today yesterday deviation), w') =>
      p = PAIR
      /\ deviation = (PrimFloat.abs (today - yesterday) / yesterday)%float
      /\ metrics (trace w')
         = (metrics (trace w)
            ++ [PutMetric "FX/Analysis" (PAIR ++ "Deviation") (deviation * 100)%float
                  "Percent"])%list
  | (_, w') => metrics (trace w') = metrics (trace w)
  end.
Proof.
  unfold lambda_handler, Analysis.lambda_handler.
  unfold bind at 1. unfold lift at 1.
  destruct (Analysis.get_run_date event) as [[[[y m] d] fx]|e|]; try reflexivity.
  unfold bind at 1. unfold lift at 1.
  destruct (Analysis.get_yesterdays_date fx) as [[[yp mp] dp]|e|]; try reflexivity.
  destruct (Analysis.is_weekend fx); [reflexivity|].
  unfold bind at 1.
  pose proof (get_todays_rate_metrics ATHENA_DATABASE ATHENA_OUTPUT ATHENA_TABLE
                ATHENA_WORKGROUP PAIR svc float_of_string fuel y m d w) as H1.
  destruct (Analysis.get_todays_rate _ _ _ _ _ _ _ fuel y m d w) as [[today|e|] w1];
    cbn [snd] in H1; try exact H1.
  unfold bind at 1.
  pose proof (get_yesterdays_rate_metrics ATHENA_DATABASE ATHENA_OUTPUT ATHENA_TABLE
                ATHENA_WORKGROUP PAIR svc float_of_string fuel yp mp dp w1) as H2.
  destruct (Analysis.get_yesterdays_rate _ _ _ _ _ _ _ fuel yp mp dp w1)
    as [[yesterday|e|] w2]; cbn [snd] in H2; try congruence.
  unfold bind at 1. unfold lift, Analysis.float_div.
  destruct (PrimFloat.eqb yesterday 0); [congruence|].
  unfold bind, Analysis.publish_metric, emit, ret. cbn [trace].
  split; [reflexivity|]. split; [reflexivity|].
  rewrite metrics_app, H2, H1. reflexivity.
Qed.

(** X16: the prior business date is the calendar day before the
    business date, so one weekday back; for a Monday it is the Sunday,
    a day Transform marks market_open = false and Analysis itself
    skips. *)
Theorem X16_prior_date_is_previous_weekday fx_dt :
  valid fx_dt -> date_of fx_dt <> (1, 1, 1) ->
  let prior := with_date fx_dt (day_before (year fx_dt) (month fx_dt) (day fx_dt)) in
  Analysis.get_yesterdays_date fx_dt = Ok (ymd_strings (date_of prior))
  /\ weekday prior = (weekday fx_dt + 6) mod 7
  /\ (weekday fx_dt = 0 ->
      weekday prior = 6
      /\ Analysis.is_weekend prior = true
      /\ Transform.is_weekday prior = false).
Proof.
  intros Hv Hne prior.
  assert (Hw : weekday prior = (weekday fx_dt + 6) mod 7).
  { unfold weekday, toordinal. subst prior.
    destruct Hv as (Hy & Hm & Hd).
    pose proof (ymd2ord_day_before (year fx_dt) (month fx_dt) (day fx_dt) Hm
                  ltac:(lia)) as Hp.
    destruct (day_before (year fx_dt) (month fx_dt) (day fx_dt)) as [[y' m'] d'].
    cbn [with_date year month day]. rewrite Hp.
    rewrite Zplus_mod_idemp_l.
    replace (ymd2ord (year fx_dt) (month fx_dt) (day fx_dt) + 6 + 6)
      with (ymd2ord (year fx_dt) (month fx_dt) (day fx_dt) - 1 + 6 + 1 * 7) by lia.
    now rewrite Z_mod_plus_full. }
  split; [|split; [exact Hw|]].
  - unfold Analysis.get_yesterdays_date. rewrite (sub_days_one fx_dt Hv Hne).
    cbn [rbind]. fold prior. unfold ymd_strings, date_of. reflexivity.
  - intros H0. rewrite H0 in Hw. change ((0 + 6) mod 7) with 6 in Hw.
    unfold Analysis.is_weekend, Transform.is_weekday. rewrite Hw.
    repeat split; reflexivity.
Qed.

(** X17: when run_date cannot be resolved Analysis and Transform
    raise that error at once, with no call made; a missing run_date is
    a KeyError, a run_date that is not a string an AttributeError. *)
Theorem X17_unresolved_run_date_stops_at_once bucket fuel event w :
  (forall e,
     Analysis.get_run_date event = Raise e ->
     lambda_handler fuel event w = (Raise e, w)
     /\ Transform.lambda_handler bucket event w = (Raise e, w))
  /\ (forall entries,
        event = Json.JObj entries ->
        Json.lookup "run_date" entries = None ->
        Analysis.get_run_date event = Raise (KeyError "run_date")
        /\ Ingest.get_run_date event = Raise (KeyError "run_date"))
  /\ (forall entries v,
        event = Json.JObj entries ->
        Json.lookup "run_date" entries = Some v ->
        (forall s, v <> Json.JStr s) ->
        Analysis.get_run_date event
        = Raise (AttributeError "object has no attribute 'replace'")).
Proof.
  split; [|split].
  - intros e He. split.
    + unfold lambda_handler, Analysis.lambda_handler, bind, lift. now rewrite He.
    + unfold Transform.lambda_handler, bind, lift.
      rewrite (proj1 (resolvers_agree event)). now rewrite He.
  - intros entries -> Hl.
    assert (H : Analysis.get_run_date (Json.JObj entries) = Raise (KeyError "run_date")).
    { unfold Analysis.get_run_date. cbn [Json.getitem]. now rewrite Hl. }
    split; [exact H|].
    destruct (resolvers_agree (Json.JObj entries)) as [HTA HIT].
    now rewrite HIT, HTA, H.
  - intros entries v -> Hl Hv.
    unfold Analysis.get_run_date. cbn [Json.getitem]. rewrite Hl. cbn [rbind].
    destruct v; try reflexivity. now destruct (Hv s).
Qed.

End AnalysisRuns.

(** ** Keys and dates across the jobs (X18 - X21) *)

Section Keys.
Import Datetime DatetimeFacts StrFacts ResolverFacts.

Lemma append_inj_l (s a b : string) : s ++ a = s ++ b -> a = b.
Proof. induction s as [|c s IH]; cbn; [auto|]. intros H. injection H as H. auto. Qed.

Lemma append_inj_length (a1 a2 b1 b2 : string) :
  String.length a1 = String.length a2 -> a1 ++ b1 = a2 ++ b2 -> a1 = a2 /\ b1 = b2.
Proof.
  revert a2. induction a1 as [|c a1 IH]; intros [|c2 a2] Hl H; cbn in *;
    try discriminate; [auto|].
  injection H as -> H. injection Hl as Hl.
  destruct (IH a2 Hl H) as [-> ->]. auto.
Qed.

Lemma append_inj_r (a b s : string) : a ++ s = b ++ s -> a = b.
Proof.
  intros H.
  assert (Hl : String.length a = String.length b).
  { apply (f_equal String.length) in H. rewrite !length_app in H. lia. }
  now destruct (append_inj_length a b s s Hl H).
Qed.

Lemma padded_inj w n1 n2 s : padded w n1 s -> padded w n2 s -> n1 = n2.
Proof. intros [_ H1] [_ H2]. congruence. Qed.

(** X18: two valid business dates give the same raw key only when
    they are the same date, across Ingest's and Transform's key
    builders. *)
Theorem X18_raw_key_determines_date y1 m1 d1 y2 m2 d2 :
  valid_date y1 m1 d1 -> valid_date y2 m2 d2 ->
  (let '(ys, ms, ds) := ymd_strings (y1, m1, d1) in Ingest.build_s3_key ys ms ds)
  = (let '(ys, ms, ds) := ymd_strings (y2, m2, d2) in Transform.build_s3_key ys ms ds) ->
  (y1, m1, d1) = (y2, m2, d2).
Proof.
  intros H1 H2.
  pose proof (ymd_strings_padded _ _ _ H1) as P1.
  pose proof (ymd_strings_padded _ _ _ H2) as P2.
  unfold ymd_strings, well_padded in *.
  destruct P1 as (Py1 & Pm1 & Pd1). destruct P2 as (Py2 & Pm2 & Pd2).
  unfold Ingest.build_s3_key, Transform.build_s3_key. intros E.
  apply (append_inj_l "raw/year=") in E.
  apply append_inj_length in E; [|destruct Py1, Py2; congruence].
  destruct E as [Ey E].
  apply (append_inj_l "/month=") in E.
  apply append_inj_length in E; [|destruct Pm1, Pm2; congruence].
  destruct E as [Em E].
  apply (append_inj_l "/day=") in E.
  apply append_inj_length in E; [|destruct Pd1, Pd2; congruence].
  destruct E as [Ed _].
  rewrite Ey in Py1. rewrite Em in Pm1. rewrite Ed in Pd1.
  rewrite (padded_inj _ _ _ _ Py1 Py2), (padded_inj _ _ _ _ Pm1 Pm2),
    (padded_inj _ _ _ _ Pd1 Pd2).
  reflexivity.
Qed.

Lemma write_key_inj p q y m d :
  Transform.write_key_of p y m d = Transform.write_key_of q y m d -> p = q.
Proof.
  unfold Transform.write_key_of. intros E.
  apply (append_inj_l "processed/pair=") in E.
  now apply append_inj_r in E.
Qed.

(** X19: for one date, record keys of different pairs differ: a
    quotes dict without repeated keys gives record keys without
    repeats, so no record of a run overwrites another. *)
Theorem X19_record_keys_distinct y m d (quotes : list (string * Json.value)) :
  NoDup (map fst quotes) -> NoDup (map (key_written y m d) quotes).
Proof.
  induction quotes as [|[p r] quotes IH]; cbn [map]; intros H.
  - constructor.
  - inversion H as [|? ? Hnotin Hrest]; subst. constructor; [|now apply IH].
    intros Hin. apply Hnotin. apply in_map_iff in Hin.
    destruct Hin as ([q r'] & Hk & Hq). unfold key_written in Hk. cbn [fst] in *.
    apply write_key_inj in Hk. subst q.
    apply in_map_iff. now exists (p, r').
Qed.

(** X20: the market_open flag Transform writes is the negation of
    Analysis's weekend test on the same date. *)
Theorem X20_market_open_iff_not_skipped fx_dt p rate y m d :
  Transform.is_weekday fx_dt = negb (Analysis.is_weekend fx_dt)
  /\ Json.getitem (Transform.record_of p rate y m d fx_dt) "market_open"
     = Ok (Json.JBool (negb (Analysis.is_weekend fx_dt))).
Proof.
  assert (H : Transform.is_weekday fx_dt = negb (Analysis.is_weekend fx_dt)).
  { unfold Transform.is_weekday, Analysis.is_weekend.
    destruct (Z.ltb_spec (weekday fx_dt) 5), (Z.leb_spec 5 (weekday fx_dt));
      try reflexivity; lia. }
  split; [exact H|]. cbn. now rewrite H.
Qed.

Lemma replace_no_Z s rest :
  no_Z s = true ->
  Str.replace_char "Z" "+00:00" (s ++ rest) = s ++ Str.replace_char "Z" "+00:00" rest.
Proof.
  induction s as [|c s IH]; cbn [no_Z String.append Str.replace_char]; [reflexivity|].
  intros H. apply andb_prop in H. destruct H as [Hc Hs].
  apply negb_true_iff in Hc. rewrite Hc. now rewrite IH.
Qed.

(** X21: a run_date ending in Z (and holding no other Z) resolves as
    the same text ending in +00:00. *)
Theorem X21_trailing_Z_is_utc s :
  no_Z s = true ->
  Analysis.get_run_date (run_date_event (s ++ "Z"))
  = Analysis.get_run_date (run_date_event (s ++ "+00:00"))
  /\ Analysis.get_run_date (run_date_event (s ++ "Z"))
     = rbind (fromisoformat (s ++ "+00:00")) (fun dt =>
       rbind (sub_days dt 1) (fun fx_dt =>
         Ok (ymd_strings (date_of fx_dt), fx_dt))).
Proof.
  intros H.
  assert (E1 : Str.replace_char "Z" "+00:00" (s ++ "Z") = s ++ "+00:00")
    by (now rewrite replace_no_Z).
  assert (E2 : Str.replace_char "Z" "+00:00" (s ++ "+00:00") = s ++ "+00:00")
    by (now rewrite replace_no_Z).
  unfold Analysis.get_run_date, run_date_event.
  cbn [Json.getitem Json.lookup String.eqb Ascii.eqb Bool.eqb rbind Json.replace].
  rewrite E1, E2. split; reflexivity.
Qed.

End Keys.

(** * Concrete runs *)

(** C1 on the run of Tuesday 2024-03-05: the three jobs resolve Monday
    2024-03-04 and address raw/year=2024/month=03/day=04/rates.json. *)
Lemma C1_resolvers_agree_witness :
  Ingest.get_run_date tuesday_event = Ok ("2024", "03", "04")
  /\ Transform.get_run_date tuesday_event = Ok ("2024", "03", "04", monday)
  /\ Analysis.get_run_date tuesday_event = Ok ("2024", "03", "04", monday)
  /\ Datetime.date_of monday = Datetime.day_before 2024 3 5
  /\ Ingest.build_s3_key "2024" "03" "04" = "raw/year=2024/month=03/day=04/rates.json"
  /\ Transform.build_s3_key "2024" "03" "04" = "raw/year=2024/month=03/day=04/rates.json".
Proof.
  destruct (C1_resolvers_agree tuesday_event) as (_ & _ & _ & Hkey & Hres & _).
  destruct (Hres "2024" "03" "04" monday eq_refl)
    as (Ha & Hi & (s & dt & Hs & Hdt & Hday) & _ & _ & _).
  injection Hs as <-. injection Hdt as <-.
  destruct (Hkey "2024" "03" "04") as [Hk1 Hk2].
  split; [exact Hi|]. split; [reflexivity|]. split; [exact Ha|].
  split; [exact Hday|]. split; [rewrite Hk1; exact Hk2 | exact Hk2].
Defined.

(** C4 at 2024-03-01T23:30:00Z: the business date is the leap day
    2024-02-29 and the prior business date 2024-02-28. *)
Lemma C4_business_dates_witness :
  Analysis.get_run_date (run_date_event "2024-03-01T23:30:00Z")
  = Ok ("2024", "02", "29", Datetime.mk_datetime 2024 2 29 23 30 0 0 (Some 0))
  /\ Ingest.get_run_date (run_date_event "2024-03-01T23:30:00Z") = Ok ("2024", "02", "29")
  /\ Analysis.get_yesterdays_date (Datetime.mk_datetime 2024 2 29 23 30 0 0 (Some 0))
     = Ok ("2024", "02", "28").
Proof.
  assert (H1 : Datetime.date_of (Datetime.mk_datetime 2024 3 1 23 30 0 0 (Some 0))
               <> (1, 1, 1)) by discriminate.
  assert (H2 : Datetime.date_of (Datetime.mk_datetime 2024 3 1 23 30 0 0 (Some 0))
               <> (1, 1, 2)) by discriminate.
  destruct (C4_business_dates (run_date_event "2024-03-01T23:30:00Z")
              "2024-03-01T23:30:00Z"
              (Datetime.mk_datetime 2024 3 1 23 30 0 0 (Some 0))
              eq_refl eq_refl H1) as (Ha & _ & Hi & _ & Hp).
  split; [exact Ha|]. split; [exact Hi | exact (proj1 (Hp H2))].
Defined.

(** C4 as stated fails on the first days of the calendar: run_date
    0001-01-01T00:00:00Z parses, yet no business date is resolved, the
    subtraction raises [OverflowError]; on 0001-01-02 the business date
    is 0001-01-01 and the prior business date raises likewise. *)
Lemma C4_first_day_has_no_day_before :
  Datetime.fromisoformat (Str.replace_char "Z" "+00:00" "0001-01-01T00:00:00Z")
  = Ok (Datetime.mk_datetime 1 1 1 0 0 0 0 (Some 0))
  /\ Analysis.get_run_date (run_date_event "0001-01-01T00:00:00Z")
     = Raise (OverflowError "date value out of range")
  /\ Ingest.get_run_date (run_date_event "0001-01-01T00:00:00Z")
     = Raise (OverflowError "date value out of range")
  /\ Analysis.get_run_date (run_date_event "0001-01-02T00:00:00Z")
     = Ok ("0001", "01", "01", Datetime.mk_datetime 1 1 1 0 0 0 0 (Some 0))
  /\ Analysis.get_yesterdays_date (Datetime.mk_datetime 1 1 1 0 0 0 0 (Some 0))
     = Raise (OverflowError "date value out of range").
Proof. repeat split; reflexivity. Qed.

(** C2 as stated fails: with target pair USDJPY and an empty quotes
    dict, Ingest's validator raises and Transform's accepts. *)
Lemma C2_transform_accepts_missing_quote :
  Ingest.validate_fx_data "USD" ["JPY"] empty_quotes_payload
  = Raise (ValueError "Missing FX quote for: USDJPY")
  /\ Transform.validate_fx_data empty_quotes_payload = Ok tt.
Proof. split; reflexivity. Qed.

(** C3 (amended) on RUNNING, RUNNING, FAILED with a reason for today's
    query, and on a prior-date query CANCELLED with no reason. *)
Lemma C3_failed_query_aborts_witness :
  (exists w',
     analysis_job (scripted failing_polls two_rates) short_float 5%nat tuesday_event
       (initial_world [])
     = (Raise (Exception "Athena query for todays rate failed"), w')
     /\ In "Athena query failed: Query exhausted resources" (errors_logged (trace w'))
     /\ metrics (trace w') = [])
  /\ (exists w',
        analysis_job cancelled_second short_float 5%nat tuesday_event (initial_world [])
        = (Raise (Exception "Athena query for daily average failed"), w')
        /\ In "Athena query failed: Unknown" (errors_logged (trace w'))
        /\ metrics (trace w') = []).
Proof.
  split.
  - refine (proj1 (C3_failed_query_aborts "fx" "s3://athena-out/" "fx_rates" "primary"
              "USDJPY" (scripted failing_polls two_rates) short_float 5%nat tuesday_event
              (initial_world []) "2024" "03" "04"
              (Datetime.mk_datetime 2024 3 4 6 0 0 0 (Some 0)) "2024" "03" "03"
              2%nat (mk_status "FAILED" (Some "Query exhausted resources"))
              eq_refl eq_refl eq_refl _) _); [lia|].
    split; [|split; [reflexivity | left; reflexivity]].
    intros j Hj. destruct j as [|[|j]]; [| |lia];
      (split; [discriminate | split; discriminate]).
  - refine (proj2 (C3_failed_query_aborts "fx" "s3://athena-out/" "fx_rates" "primary"
              "USDJPY" cancelled_second short_float 5%nat tuesday_event
              (initial_world []) "2024" "03" "04"
              (Datetime.mk_datetime 2024 3 4 6 0 0 0 (Some 0)) "2024" "03" "03"
              0%nat (mk_status "CANCELLED" None)
              eq_refl eq_refl eq_refl _) 151.5%float _ eq_refl _); [lia|].
    split; [intros j Hj; lia | split; [reflexivity | right; reflexivity]].
Defined.

(** C3 as stated fails: on RUNNING, RUNNING, FAILED with reason
    "Query exhausted resources" the exception raised carries a fixed
    message that does not contain the reason; the reason goes to the
    error log only. *)
Lemma C3_reason_not_in_exception :
  fst (analysis_job (scripted failing_polls two_rates) short_float 5%nat tuesday_event
         (initial_world []))
  = Raise (Exception "Athena query for todays rate failed")
  /\ Str.contains "Query exhausted resources"
       (exn_message (Exception "Athena query for todays rate failed")) = false
  /\ errors_logged
       (trace (snd (analysis_job (scripted failing_polls two_rates) short_float 5%nat
                      tuesday_event (initial_world []))))
     = ["Athena query failed: Query exhausted resources"].
Proof. repeat split; reflexivity. Qed.

(** C5 at run_date 2024-03-03, whose business date 2024-03-02 is a
    Saturday. *)
Lemma C5_weekend_skipped_witness :
  analysis_job (scripted prompt_polls two_rates) short_float 5%nat sunday_event
    (initial_world [])
  = (Ok (Analysis.Skipped "skipped" "weekend"), initial_world []).
Proof.
  refine (proj1 (C5_weekend_skipped "fx" "s3://athena-out/" "fx_rates" "primary" "USDJPY"
            (scripted prompt_polls two_rates) short_float 5%nat sunday_event
            (initial_world []) "2024" "03" "02"
            (Datetime.mk_datetime 2024 3 2 6 0 0 0 (Some 0)) eq_refl _)).
  left. reflexivity.
Defined.

(** C7 at today 151.5, yesterday 150.0: deviation 0.01, published
    value 1.0; and at yesterday 0.0: [ZeroDivisionError], nothing
    published. *)
#[warnings="-inexact-float"]
Lemma C7_deviation_published_witness :
  (exists w3,
     analysis_job (scripted prompt_polls two_rates) short_float 5%nat tuesday_event
       (initial_world [])
     = (Ok (Analysis.Report "USDJPY" 151.5 150.0 0.01), w3)
     /\ metrics (trace w3) = [PutMetric "FX/Analysis" "USDJPYDeviation" 1.0 "Percent"])
  /\ (exists w2,
        analysis_job (scripted prompt_polls zero_yesterday) short_float 5%nat
          tuesday_event (initial_world [])
        = (Raise (ZeroDivisionError "float division by zero"), w2)
        /\ metrics (trace w2) = []).
Proof.
  split.
  - pose proof (C7_deviation_published "fx" "s3://athena-out/" "fx_rates" "primary"
              "USDJPY" (scripted prompt_polls two_rates) short_float 5%nat tuesday_event
              (initial_world []) "2024" "03" "04"
              (Datetime.mk_datetime 2024 3 4 6 0 0 0 (Some 0)) "2024" "03" "03"
              151.5%float 150.0%float _ _ eq_refl eq_refl eq_refl eq_refl eq_refl) as H.
    cbv zeta in H. change (PrimFloat.eqb 150.0 0) with false in H.
    destruct H as (w3 & H1 & _ & H3). exists w3. split; [exact H1 | exact H3].
  - pose proof (C7_deviation_published "fx" "s3://athena-out/" "fx_rates" "primary"
              "USDJPY" (scripted prompt_polls zero_yesterday) short_float 5%nat
              tuesday_event (initial_world []) "2024" "03" "04"
              (Datetime.mk_datetime 2024 3 4 6 0 0 0 (Some 0)) "2024" "03" "03"
              151.5%float 0%float _ _ eq_refl eq_refl eq_refl eq_refl eq_refl) as H.
    cbv zeta in H. change (PrimFloat.eqb 0 0) with true in H.
    eexists. exact H.
Defined.

(** C9 on quotes USDJPY 150.0 and USDEUR 0.9 for business date
    2024-03-04, a Monday. *)
#[warnings="-inexact-float"]
Lemma C9_one_record_per_quote_witness :
  exists w',
    Transform.lambda_handler "fx-bucket" tuesday_event stocked_world
    = (Ok (Transform.Written 200
             ["processed/pair=USDJPY/year=2024/month=03/day=04/data.json";
              "processed/pair=USDEUR/year=2024/month=03/day=04/data.json"]), w')
    /\ writes (trace w')
       = [S3Put "fx-bucket" "processed/pair=USDJPY/year=2024/month=03/day=04/data.json"
            (Json.JObj [("pair", Json.JStr "USDJPY"); ("rate", Json.JFloat 150.0);
                        ("date", Json.JStr "2024-03-04");
                        ("market_open", Json.JBool true)]);
          S3Put "fx-bucket" "processed/pair=USDEUR/year=2024/month=03/day=04/data.json"
            (Json.JObj [("pair", Json.JStr "USDEUR"); ("rate", Json.JFloat 0.9);
                        ("date", Json.JStr "2024-03-04");
                        ("market_open", Json.JBool true)])].
Proof.
  exact (proj1 (C9_one_record_per_quote "fx-bucket" tuesday_event stocked_world
                  "2024" "03" "04" (Datetime.mk_datetime 2024 3 4 6 0 0 0 (Some 0))
                  _ _ eq_refl eq_refl eq_refl eq_refl)).
Defined.

(** C8 on a payload without quotes, and on one whose quotes miss both
    targets: only the first is named. *)
Lemma C8_first_violation_reported_witness :
  Ingest.validate_fx_data "USD" ["JPY"] (Json.JObj no_quotes_payload)
  = Raise (ValueError "Missing required field: quotes")
  /\ Ingest.validate_fx_data "USD" ["JPY"; "EUR"] empty_quotes_payload
     = Raise (ValueError "Missing FX quote for: USDJPY").
Proof.
  split.
  - exact (proj1 (C8_first_violation_reported "fx-bucket" "USD" ["JPY"] "https://fx.example/live"
                    (scripted prompt_polls two_rates) no_quotes_payload)).
  - exact (proj1 (C8_first_violation_reported "fx-bucket" "USD" ["JPY"; "EUR"]
                    "https://fx.example/live" (scripted prompt_polls two_rates)
                    [("timestamp", Json.JInt 1709510400); ("source", Json.JStr "USD");
                     ("quotes", Json.JObj [])]) [] eq_refl).
Defined.

(** C6 on a header and one data row, and on a header alone. *)
Lemma C6_single_value_witness :
  fst (Analysis.get_single_value (scripted prompt_polls two_rates) short_float 0%nat
         (initial_world []))
  = Ok 151.5%float
  /\ fst (Analysis.get_single_value (scripted prompt_polls (fun _ => [header_row]))
            short_float 0%nat (initial_world []))
     = Raise (IndexError "list index out of range").
Proof.
  split.
  - exact (proj2 (proj1 (C6_single_value (scripted prompt_polls two_rates) short_float
                           0%nat (initial_world []))
                    header_row (rate_row "151.5") [] eq_refl)
             [] "151.5" 151.5%float eq_refl eq_refl).
  - apply (proj2 (C6_single_value (scripted prompt_polls (fun _ => [header_row]))
                    short_float 0%nat (initial_world []))).
    cbn. lia.
Defined.

(** ** Runs of the further properties *)

(** X1 on a provider payload with an extra field: it is dropped. *)
#[warnings="-inexact-float"]
Lemma X1_ingest_writes_filtered_payload_witness :
  exists w',
    ingest_job (fx_provider 200 (Json.JObj provider_entries)) tuesday_event
      (initial_world [])
    = (Ok (Ingest.mk_response 200 "FX data ingested successfully" raw_key), w')
    /\ writes (trace w') = [S3Put "fx-bucket" raw_key raw_payload]
    /\ find_object ("fx-bucket", raw_key) (objects w') = Some raw_payload.
Proof.
  destruct (X1_ingest_writes_filtered_payload "fx-bucket" "USD" ["JPY"; "EUR"]
              "https://fx.example/live" (fx_provider 200 (Json.JObj provider_entries))
              tuesday_event (initial_world []) "secret" provider_entries
              "2024" "03" "04" eq_refl eq_refl eq_refl eq_refl)
    as (t & s & q & w' & Ht & Hs & Hq & Hgo & Hw & Hf).
  injection Ht as <-. injection Hs as <-. injection Hq as <-.
  exists w'. split; [exact Hgo|]. split; [exact Hw | exact Hf].
Defined.

(** X3 on a provider that answers 404, and on one that answers 201. *)
Lemma X3_ingest_fetch_failures_witness :
  (exists msg,
     fst (ingest_job (fx_provider 404 Json.JNull) tuesday_event (initial_world []))
     = Raise (HTTPError 404 msg))
  /\ fst (ingest_job (fx_provider 201 Json.JNull) tuesday_event (initial_world []))
     = Raise (RuntimeError "FX API returned status 201").
Proof.
  split.
  - refine (proj1 (proj2 (proj2 (X3_ingest_fetch_failures "fx-bucket" "USD" ["JPY"; "EUR"]
                                   "https://fx.example/live"
                                   (fx_provider 404 Json.JNull) tuesday_event
                                   (initial_world [])) "secret" eq_refl)
                     404 (Ok Json.JNull) eq_refl) _).
    right; lia.
  - refine (proj2 (proj2 (proj2 (X3_ingest_fetch_failures "fx-bucket" "USD" ["JPY"; "EUR"]
                                   "https://fx.example/live"
                                   (fx_provider 201 Json.JNull) tuesday_event
                                   (initial_world [])) "secret" eq_refl)
                     201 (Ok Json.JNull) eq_refl) _).
    lia.
Defined.

(** X4 on the same payload. *)
#[warnings="-inexact-float"]
Lemma X4_filtered_payload_validates_witness :
  Ingest.filter_fx_data (Json.JObj provider_entries) = Ok raw_payload
  /\ Transform.validate_fx_data raw_payload = Ok tt.
Proof.
  destruct (X4_filtered_payload_validates "USD" ["JPY"; "EUR"] provider_entries eq_refl)
    as (f & Hf & _ & Ht & _).
  assert (E : Ok f = Ok raw_payload) by (rewrite <- Hf; reflexivity).
  injection E as E. rewrite E in Ht. split; [reflexivity | exact Ht].
Defined.

(** X5 on quotes = null. *)
Lemma X5_scalar_quotes_is_a_type_error_witness :
  Ingest.validate_fx_data "USD" ["JPY"] (Json.JObj null_quotes_entries)
  = Raise (TypeError "argument is not iterable")
  /\ Transform.validate_fx_data (Json.JObj null_quotes_entries) = Ok tt.
Proof.
  destruct (X5_scalar_quotes_is_a_type_error "USD" ["JPY"] null_quotes_entries
              Json.JNull "JPY" [] eq_refl eq_refl eq_refl eq_refl) as (H1 & H2 & _).
  split; [exact H1 | exact H2].
Defined.

(** X6: Ingest, then Transform, for business date 2024-03-04. *)
#[warnings="-inexact-float"]
Lemma X6_ingest_then_transform_witness :
  exists w1 w2,
    ingest_job (fx_provider 200 (Json.JObj provider_entries)) tuesday_event
      (initial_world [])
    = (Ok (Ingest.mk_response 200 "FX data ingested successfully" raw_key), w1)
    /\ Transform.lambda_handler "fx-bucket" tuesday_event w1
       = (Ok (Transform.Written 200
                ["processed/pair=USDJPY/year=2024/month=03/day=04/data.json";
                 "processed/pair=USDEUR/year=2024/month=03/day=04/data.json"]), w2).
Proof.
  destruct (X6_ingest_then_transform "fx-bucket" "USD" ["JPY"; "EUR"]
              "https://fx.example/live" (fx_provider 200 (Json.JObj provider_entries))
              tuesday_event (initial_world []) "secret" provider_entries
              two_quotes
              "2024" "03" "04" eq_refl eq_refl eq_refl eq_refl eq_refl)
    as (r & w1 & w2 & H1 & H2 & _).
  assert (E : r = Ingest.mk_response 200 "FX data ingested successfully" raw_key).
  { assert (E' : fst (ingest_job (fx_provider 200 (Json.JObj provider_entries))
                        tuesday_event (initial_world [])) = Ok r)
      by (unfold ingest_job; now rewrite H1).
    change (Ok (Ingest.mk_response 200 "FX data ingested successfully" raw_key) = Ok r)
      in E'.
    now injection E'. }
  subst r. exists w1, w2. split; [exact H1 | exact H2].
Defined.

(** X7: Ingest run twice for the same date. *)
Lemma X7_ingest_rerun_overwrites_witness :
  exists w1 w2,
    ingest_job (fx_provider 200 (Json.JObj provider_entries)) tuesday_event
      (initial_world [])
    = (Ok (Ingest.mk_response 200 "FX data ingested successfully" raw_key), w1)
    /\ ingest_job (fx_provider 200 (Json.JObj provider_entries)) tuesday_event w1
       = (Ok (Ingest.mk_response 200 "FX data ingested successfully" raw_key), w2)
    /\ put_keys (trace w2) = [raw_key; raw_key].
Proof.
  destruct (X7_ingest_rerun_overwrites "fx-bucket" "USD" ["JPY"; "EUR"]
              "https://fx.example/live" (fx_provider 200 (Json.JObj provider_entries))
              tuesday_event (initial_world []) "secret" provider_entries
              "2024" "03" "04" eq_refl eq_refl eq_refl eq_refl)
    as (r & st & w1 & w2 & H1 & H2 & _ & _ & H5).
  assert (E : r = Ingest.mk_response 200 "FX data ingested successfully" raw_key).
  { assert (E' : fst (ingest_job (fx_provider 200 (Json.JObj provider_entries))
                        tuesday_event (initial_world [])) = Ok r)
      by (unfold ingest_job; now rewrite H1).
    change (Ok (Ingest.mk_response 200 "FX data ingested successfully" raw_key) = Ok r)
      in E'.
    now injection E'. }
  subst r. exists w1, w2. split; [exact H1|]. split; [exact H2 | exact H5].
Defined.

(** X9 on an empty bucket. *)
Lemma X9_transform_missing_raw_object_witness :
  Transform.lambda_handler "fx-bucket" tuesday_event (initial_world [])
  = (Raise (NoSuchKey raw_key), mk_world [] 0 0 [S3Get "fx-bucket" raw_key]).
Proof.
  exact (X9_transform_missing_raw_object "fx-bucket" tuesday_event (initial_world [])
           "2024" "03" "04" (Datetime.mk_datetime 2024 3 4 6 0 0 0 (Some 0))
           eq_refl eq_refl).
Defined.

(** X8 on the stored payload of the Tuesday run. *)
Lemma X8_transform_reports_what_it_wrote_witness :
  exists keys w',
    Transform.lambda_handler "fx-bucket" tuesday_event stocked_world
    = (Ok (Transform.Written 200 keys), w')
    /\ keys = ["processed/pair=USDJPY/year=2024/month=03/day=04/data.json";
               "processed/pair=USDEUR/year=2024/month=03/day=04/data.json"]
    /\ put_keys (trace w') = keys.
Proof.
  destruct (Transform.lambda_handler "fx-bucket" tuesday_event stocked_world)
    as [r w'] eqn:Hgo.
  assert (Hr : r = Ok (Transform.Written 200
                         ["processed/pair=USDJPY/year=2024/month=03/day=04/data.json";
                          "processed/pair=USDEUR/year=2024/month=03/day=04/data.json"]))
    by (apply (f_equal fst) in Hgo; cbn [fst] in Hgo; rewrite <- Hgo;
        vm_compute; reflexivity).
  subst r.
  destruct (proj1 (X8_transform_reports_what_it_wrote "fx-bucket" tuesday_event
                     stocked_world) _ _ Hgo) as (keys & Hk & Hput).
  injection Hk as <-.
  eexists. exists w'. split; [reflexivity|]. split; [reflexivity|]. exact Hput.
Defined.

(** X10 on RUNNING, RUNNING, SUCCEEDED: the state returned is the third
    answer. *)
Lemma X10_wait_for_query_returns_terminal_witness :
  exists k,
    (k < 5)%nat
    /\ (3 = 0 + S k)%nat
    /\ "SUCCEEDED" = State (athena_execution (scripted slow_polls two_rates) 0 (0 + k))
    /\ ("SUCCEEDED" = "SUCCEEDED" \/ "SUCCEEDED" = "FAILED" \/ "SUCCEEDED" = "CANCELLED")
    /\ (forall j, (j < k)%nat ->
          let s := State (athena_execution (scripted slow_polls two_rates) 0 (0 + j)) in
          s <> "SUCCEEDED" /\ s <> "FAILED" /\ s <> "CANCELLED").
Proof.
  exact (X10_wait_for_query_returns_terminal (scripted slow_polls two_rates) 5 0
           (initial_world []) "SUCCEEDED"
           (mk_world [] 0 3 [AthenaPoll 0; Sleep 2; AthenaPoll 0; Sleep 2; AthenaPoll 0])
           eq_refl).
Defined.

(** RUNNING, RUNNING, SUCCEEDED settles at its answer number 2. *)
Lemma slow_polls_settle : Analysis.settles (scripted slow_polls two_rates) 0 0 2
                            (mk_status "SUCCEEDED" None).
Proof.
  split; [|split; reflexivity].
  intros j Hj. destruct j as [|[|j]]; [reflexivity | reflexivity | lia].
Defined.

(** X11 on RUNNING, RUNNING, SUCCEEDED. *)
Lemma X11_polling_stops_at_first_terminal_witness :
  Analysis.wait_for_query (scripted slow_polls two_rates) 5 0 (initial_world [])
  = (Ok "SUCCEEDED",
     mk_world [] 0 3 [AthenaPoll 0; Sleep 2; AthenaPoll 0; Sleep 2; AthenaPoll 0]).
Proof.
  refine (X11_polling_stops_at_first_terminal (scripted slow_polls two_rates) 0 2 5
            (initial_world []) (mk_status "SUCCEEDED" None) slow_polls_settle _).
  lia.
Defined.

(** An engine that succeeds at once settles at its first answer. *)
Lemma prompt_polls_settle rows n start :
  Analysis.settles (scripted prompt_polls rows) n start 0 (mk_status "SUCCEEDED" None).
Proof. split; [intros j Hj; lia | split; reflexivity]. Defined.

(** X12 on a result set that is a header alone. *)
Lemma X12_no_data_row_aborts_witness :
  exists w',
    analysis_job (scripted prompt_polls header_only) short_float 5%nat tuesday_event
      (initial_world [])
    = (Raise (IndexError "list index out of range"), w')
    /\ metrics (trace w') = []
    /\ List.length (started_queries (trace w')) = 1%nat.
Proof.
  destruct (X12_no_data_row_aborts "fx" "s3://athena-out/" "fx_rates" "primary" "USDJPY"
              (scripted prompt_polls header_only) short_float 5%nat tuesday_event
              (initial_world []) "2024" "03" "04" monday "2024" "03" "03" 0%nat
              (mk_status "SUCCEEDED" None) eq_refl eq_refl eq_refl
              (prompt_polls_settle header_only 0%nat 0%nat) eq_refl
              ltac:(lia) ltac:(cbn; lia)) as (w' & H1 & H2 & H3 & _).
  exists w'. split; [exact H1|]. split; [exact H2|]. now rewrite H3.
Defined.

(** X13 on a NULL rate. *)
Lemma X13_malformed_data_row_witness :
  fst (Analysis.get_single_value (scripted prompt_polls null_rate) short_float 0%nat
         (initial_world []))
  = Raise (KeyError "VarCharValue").
Proof.
  exact (proj1 (proj2 (X13_malformed_data_row (scripted prompt_polls null_rate)
                          short_float 0%nat (initial_world []) header_row
                          (mk_row [mk_datum None]) [] eq_refl)) [] eq_refl).
Defined.

(** X14 with the first execution RUNNING twice: the full trace. *)
#[warnings="-inexact-float"]
Lemma X14_analysis_run_in_full_witness :
  snd (analysis_job (scripted slow_polls two_rates) short_float 5%nat tuesday_event
         (initial_world []))
  = mk_world [] 2 4
      [AthenaStart (Analysis.rate_query "fx_rates" "USDJPY" "2024" "03" "04")
         "fx" "s3://athena-out/" "primary";
       AthenaPoll 0; Sleep 2; AthenaPoll 0; Sleep 2; AthenaPoll 0; AthenaResults 0;
       AthenaStart (Analysis.rate_query "fx_rates" "USDJPY" "2024" "03" "03")
         "fx" "s3://athena-out/" "primary";
       AthenaPoll 1; AthenaResults 1;
       PutMetric "FX/Analysis" "USDJPYDeviation" 1.0 "Percent"].
Proof.
  assert (Hs2 : Analysis.settles (scripted slow_polls two_rates) 1 3 0
                  (mk_status "SUCCEEDED" None))
    by (split; [intros j Hj; lia | split; reflexivity]).
  pose proof (X14_analysis_run_in_full "fx" "s3://athena-out/" "fx_rates" "primary"
                "USDJPY" (scripted slow_polls two_rates) short_float 5%nat tuesday_event
                (initial_world []) "2024" "03" "04" monday "2024" "03" "03"
                2%nat (mk_status "SUCCEEDED" None) 0%nat (mk_status "SUCCEEDED" None)
                151.5%float 150.0%float eq_refl eq_refl eq_refl slow_polls_settle
                eq_refl ltac:(lia) eq_refl Hs2 eq_refl ltac:(lia) eq_refl eq_refl) as H.
  cbv zeta in H. unfold analysis_job. rewrite H. reflexivity.
Defined.

(** X16 on Monday 2024-03-04: the prior date is Sunday 2024-03-03. *)
Lemma X16_prior_date_is_previous_weekday_witness :
  Analysis.get_yesterdays_date monday = Ok ("2024", "03", "03")
  /\ Datetime.weekday (Datetime.mk_datetime 2024 3 3 6 0 0 0 (Some 0)) = 6
  /\ Transform.is_weekday (Datetime.mk_datetime 2024 3 3 6 0 0 0 (Some 0)) = false.
Proof.
  assert (Hv : Datetime.valid monday) by (cbv; intuition discriminate).
  assert (Hne : Datetime.date_of monday <> (1, 1, 1)) by discriminate.
  destruct (X16_prior_date_is_previous_weekday monday Hv Hne) as (H1 & _ & H3).
  destruct (H3 eq_refl) as (H4 & _ & H5).
  split; [exact H1|]. split; [exact H4 | exact H5].
Defined.

(** X18 at 2024-03-04. *)
Lemma X18_raw_key_determines_date_witness : (2024, 3, 4) = (2024, 3, 4).
Proof.
  assert (Hv : Datetime.valid_date 2024 3 4) by (cbv; intuition discriminate).
  exact (X18_raw_key_determines_date 2024 3 4 2024 3 4 Hv Hv eq_refl).
Defined.

(** X19 on the pairs USDJPY and USDEUR. *)
Lemma X19_record_keys_distinct_witness :
  NoDup ["processed/pair=USDJPY/year=2024/month=03/day=04/data.json";
         "processed/pair=USDEUR/year=2024/month=03/day=04/data.json"].
Proof.
  apply (X19_record_keys_distinct "2024" "03" "04" two_quotes).
  cbn. constructor; [|constructor; [|constructor]].
  - intros [H | []]. discriminate.
  - intros [].
Defined.

(** X21 at 2024-03-05T06:00:00Z. *)
Lemma X21_trailing_Z_is_utc_witness :
  Analysis.get_run_date (run_date_event "2024-03-05T06:00:00Z")
  = Analysis.get_run_date (run_date_event "2024-03-05T06:00:00+00:00").
Proof.
  exact (proj1 (X21_trailing_Z_is_utc "2024-03-05T06:00:00" eq_refl)).
Defined.
